(** * HTB progress tracker: ingestion, weekly reset and root-flag reconciliation

    A shallow embedding of [bot.py] and [utils/update_root_flags.py].

    Python values are modelled as follows.
    - [int] is [Z]; [str] is [string] (ASCII); a JSON key that the code reads
      with [.get(key, default)] or guards with [key in d] is an [option]
      field ([None] = key absent).
    - [db["users"]] is a dict in insertion order, iterated and mutated in
      place: a list of [(htb_id, user_data)] pairs updated by position.
    - Python [set]s of ids are [gset Z]; the [root_flags] dict is a [gmap].
    - The HTB platform, the Discord channel and the JSON file are explicit:
      the feed is an oracle, sending and saving are recorded in a trace.
    - An exception that escapes a task leaves the process state as it was
      when it was raised: a loop returns [Raise x w] with that state.
    Embeds and report lines keep the values they are formatted from, not
    the formatted text. *)

From Stdlib Require Import ZArith String Ascii DecimalString DecimalPos.
From stdpp Require Import base option list gmap strings sorting.

Local Open Scope string_scope.
Local Open Scope Z_scope.
Local Open Scope list_scope.

(** ** Python builtins used by the two files *)

Module Py.

(** [str(n)] / [f"{n}"] for an [int]. *)
Definition str_of_int (n : Z) : string := NilZero.string_of_int (Z.to_int n).

Definition is_ascii_digit (c : ascii) : bool :=
  ((48 <=? nat_of_ascii c) && (nat_of_ascii c <=? 57))%nat.

Fixpoint all_digits (s : string) : bool :=
  match s with
  | EmptyString => true
  | String c s' => is_ascii_digit c && all_digits s'
  end.

(** [s.isdigit()] on an ASCII string: non-empty and only decimal digits.
    The job applies it to the keys of [user_flag_ids], which line 487
    writes from an integer. *)
Definition isdigit (s : string) : bool :=
  match s with
  | EmptyString => false
  | _ => all_digits s
  end.

(** [s.split(sep)[0]] for a one-character separator: the text before the
    first separator, the whole string when there is none. *)
Fixpoint split_head (sep : ascii) (s : string) : string :=
  match s with
  | EmptyString => EmptyString
  | String c s' =>
      if Ascii.eqb c sep then EmptyString else String c (split_head sep s')
  end.

(** [sub in s]: substring test. *)
Fixpoint contains (sub s : string) : bool :=
  String.prefix sub s ||
  match s with
  | EmptyString => false
  | String _ s' => contains sub s'
  end.

(** [int(s)] on a string of decimal digits; [None] stands for ValueError. *)
Definition int_of_str (s : string) : option Z :=
  Z.of_uint <$> NilZero.uint_of_string s.

(** [sorted(l)] on a list of ints. *)
Definition sorted (l : list Z) : list Z := merge_sort Z.le l.

(** [x in l] on a list. *)
Definition mem {A} `{EqDecision A} (x : A) (l : list A) : bool :=
  bool_decide (x ∈ l).

End Py.

(** ** Data model *)

(** One entry of the platform's activity feed
    ([profile.activity[i]] of the HTB response). The code reads
    [object_type], [type] and [name] with [.get], so they may be absent.
    It reads [id] with [.get] as well; the entries considered here carry
    an integer id, as the platform sends them. *)
Record activity := Activity {
  act_id : Z;
  act_object_type : option string;
  act_flag_type : option string;
  act_name : option string;
}.

(** One value of [db["users"]]. [streak], [user_flag_ids], [root_flag_ids]
    and [discord_id] are the keys the code treats as possibly absent. *)
Record user_data := UserData {
  name : string;
  discord_id : option Z;
  machines : Z;
  challenges : Z;
  streak : option Z;
  solved_ids : list Z;
  user_flag_ids : option (list string);
  root_flag_ids : option (list Z);
}.

Definition set_machines (v : Z) (u : user_data) : user_data :=
  UserData (name u) (discord_id u) v (challenges u) (streak u)
           (solved_ids u) (user_flag_ids u) (root_flag_ids u).
Definition set_challenges (v : Z) (u : user_data) : user_data :=
  UserData (name u) (discord_id u) (machines u) v (streak u)
           (solved_ids u) (user_flag_ids u) (root_flag_ids u).
Definition set_streak (v : Z) (u : user_data) : user_data :=
  UserData (name u) (discord_id u) (machines u) (challenges u) (Some v)
           (solved_ids u) (user_flag_ids u) (root_flag_ids u).
Definition set_solved_ids (v : list Z) (u : user_data) : user_data :=
  UserData (name u) (discord_id u) (machines u) (challenges u) (streak u)
           v (user_flag_ids u) (root_flag_ids u).
Definition set_user_flag_ids (v : list string) (u : user_data) : user_data :=
  UserData (name u) (discord_id u) (machines u) (challenges u) (streak u)
           (solved_ids u) (Some v) (root_flag_ids u).
Definition set_root_flag_ids (v : list Z) (u : user_data) : user_data :=
  UserData (name u) (discord_id u) (machines u) (challenges u) (streak u)
           (solved_ids u) (user_flag_ids u) (Some v).

(** [user_data.get(key, default)] for the optional keys. *)
Definition get_streak (u : user_data) : Z := default 0 (streak u).
Definition get_user_flag_ids (u : user_data) : list string :=
  default [] (user_flag_ids u).
Definition get_root_flag_ids (u : user_data) : list Z :=
  default [] (root_flag_ids u).

(** [db["users"]], in insertion order. *)
Abbreviation ledger := (list (string * user_data)).

(** The weekly goals of [bot.py]. *)
Definition GOAL_MACHINES : Z := 1.
Definition GOAL_CHALLENGES : Z := 2.

(** What the process does to the outside world, in order. *)
Inductive display :=
| UserFlag
| RootFlag
| MachineOther
| Challenge
| OtherType (t : string).

(** The fields of the "Weekly Progress" embed that depend on the ledger. *)
Record embed := Embed {
  e_user : string;
  e_display : display;
  e_target : option string;
  e_m_prog : Z;
  e_c_prog : Z;
  e_streak : Z;
}.

Inductive report_line :=
| PassedLine (who : string) (new_streak : Z)
| FailedLine (who : string) (m_count c_count : Z).

Inductive effect :=
| SendEmbed (e : embed)
| SendReport (completed failed : list report_line)
| SendShame (mentions : list Z)
| SaveDb (snapshot : ledger).

(** Exceptions that escape a task body. *)
Inductive exn :=
| AttributeError
| DeliveryFailed.

(** The process state: the global [db], the JSON file, and the effects so
    far (oldest first). *)
Record world := World {
  mem : ledger;
  disk : ledger;
  trace : list effect;
}.

Inductive result :=
| Ok (w : world)
| Raise (x : exn) (w : world).

(** [save_db(db)]. *)
Definition save_db (w : world) : world :=
  World (mem w) (mem w) (trace w ++ [SaveDb (mem w)]).

(** ** [bot.py]: the ingestion loop [check_htb_activity] *)

Module Bot.

Definition is_str (o : option string) (s : string) : bool :=
  bool_decide (o = Some s).

(** [f"{act_id}_user"]. *)
Definition user_flag_key (id : Z) : string :=
  (Py.str_of_int id ++ "_user")%string.

(** Lines 412-417. *)
Definition already_processed (u : user_data) (a : activity) : bool :=
  if is_str (act_object_type a) "machine" && is_str (act_flag_type a) "user"
  then Py.mem (user_flag_key (act_id a)) (get_user_flag_ids u)
  else Py.mem (act_id a) (solved_ids u).

(** Lines 450-454: record the root flag, keeping the list sorted. *)
Definition note_root_flag (id : Z) (u : user_data) : user_data :=
  let rf := get_root_flag_ids u in
  if Py.mem id rf then set_root_flag_ids rf u
  else set_root_flag_ids (Py.sorted (rf ++ [id])) u.

(** Lines 431-479: counters, [should_count] and the display type of a
    new activity; [inl] is the exception of [None.capitalize()]. The
    category that [get_challenge_info] (line 468) looks up goes into the
    text of the embed only, which [embed] does not carry; its request is
    taken to return. *)
Definition classify (u : user_data) (a : activity)
  : exn + (user_data * bool * display) :=
  if is_str (act_object_type a) "machine" then
    if is_str (act_flag_type a) "user" then
      inr (u, false, UserFlag)
    else if is_str (act_flag_type a) "root" then
      inr (note_root_flag (act_id a) (set_machines (machines u + 1) u),
           true, RootFlag)
    else
      inr (u, true, MachineOther)
  else if is_str (act_object_type a) "challenge" then
    inr (set_challenges (challenges u + 1) u, true, Challenge)
  else
    match act_object_type a with
    | None => inl AttributeError
    | Some t => inr (u, true, OtherType t)
    end.

(** Lines 482-491. *)
Definition remember (should_count : bool) (id : Z) (u : user_data)
  : user_data :=
  if should_count then set_solved_ids (solved_ids u ++ [id]) u
  else
    let key := user_flag_key id in
    if Py.mem key (get_user_flag_ids u) then u
    else set_user_flag_ids (get_user_flag_ids u ++ [key]) u.

Definition make_embed (u : user_data) (a : activity) (d : display) : embed :=
  Embed (name u) d (act_name a) (machines u) (challenges u) (get_streak u).

(** One iteration of the inner loop on the user's record, up to the
    point where the embed is built. *)
Inductive step :=
| Seen
| Fault (x : exn)
| Fresh (u' : user_data) (e : embed).

Definition handle (u : user_data) (a : activity) : step :=
  if already_processed u a then Seen
  else
    match classify u a with
    | inl x => Fault x
    | inr (u1, should_count, d) =>
        let u2 := remember should_count (act_id a) u1 in
        Fresh u2 (make_embed u2 a d)
    end.

Section Loop.
(** [get_user_activity]: the feed, newest first; [None] on any failure. *)
Variable get_user_activity : string → option (list activity).
(** Whether [channel.send(embed=...)] returns; otherwise it raises. *)
Variable delivers : embed → bool.

(** Lines 404-517 for the user at position [i] of the snapshot. *)
Definition process_activity (i : nat) (a : activity) (w : world) : result :=
  match mem w !! i with
  | None => Ok w
  | Some (htb_id, u) =>
      match handle u a with
      | Seen => Ok w
      | Fault x => Raise x w
      | Fresh u' e =>
          let w1 := World (<[i := (htb_id, u')]> (mem w)) (disk w) (trace w) in
          if delivers e then
            Ok (save_db (World (mem w1) (disk w1) (trace w1 ++ [SendEmbed e])))
          else Raise DeliveryFailed w1
      end
  end.

Fixpoint process_activities (i : nat) (acts : list activity) (w : world)
  : result :=
  match acts with
  | [] => Ok w
  | a :: rest =>
      match process_activity i a w with
      | Ok w' => process_activities i rest w'
      | Raise x w' => Raise x w'
      end
  end.

(** Lines 400-404 for one user. *)
Definition scan_user (i : nat) (w : world) : result :=
  match mem w !! i with
  | None => Ok w
  | Some (htb_id, _) =>
      match get_user_activity htb_id with
      | None => Ok w
      | Some activities => process_activities i (reverse activities) w
      end
  end.

Fixpoint scan_users (idxs : list nat) (w : world) : result :=
  match idxs with
  | [] => Ok w
  | i :: rest =>
      match scan_user i w with
      | Ok w' => scan_users rest w'
      | Raise x w' => Raise x w'
      end
  end.

(** One run of the task; [channel] is [bot.get_channel(CHANNEL_ID)]. *)
Definition check_htb_activity (channel : bool) (w : world) : result :=
  if channel then scan_users (seq 0 (length (mem w))) w else Ok w.
End Loop.

(** The inner loop on one record, without the outside world: the record
    after the activities have been handled oldest first, and the embeds
    built on the way. *)
Fixpoint ingest (u : user_data) (acts : list activity)
  : option (user_data * list embed) :=
  match acts with
  | [] => Some (u, [])
  | a :: rest =>
      match handle u a with
      | Seen => ingest u rest
      | Fault _ => None
      | Fresh u' e =>
          '(u'', es) ← ingest u' rest; Some (u'', e :: es)
      end
  end.

End Bot.

(** ** [bot.py]: the weekly reset [perform_reset_logic] *)

Module Reset.

Record report := Report {
  completed_list : list report_line;
  failed_list : list report_line;
  loser_mentions : list Z;
}.

(** Line 149. *)
Definition goals_met (u : user_data) : bool :=
  (machines u >=? GOAL_MACHINES) && (challenges u >=? GOAL_CHALLENGES).

(** Lines 146-166: the body of the loop for one user. *)
Definition reset_user (u : user_data) (r : report) : user_data * report :=
  let m_count := machines u in
  let c_count := challenges u in
  let '(u1, r1) :=
    if goals_met u then
      let u' := set_streak (get_streak u + 1) u in
      (u', Report (completed_list r ++ [PassedLine (name u') (get_streak u')])
                  (failed_list r) (loser_mentions r))
    else
      let u' := set_streak 0 u in
      (u', Report (completed_list r)
                  (failed_list r ++ [FailedLine (name u') m_count c_count])
                  (match discord_id u' with
                   | Some d => loser_mentions r ++ [d]
                   | None => loser_mentions r
                   end))
  in
  (set_challenges 0 (set_machines 0 u1), r1).

(** Lines 145-166: all users, in the dict's order. *)
Fixpoint reset_loop (users : ledger) (r : report) : ledger * report :=
  match users with
  | [] => ([], r)
  | (uid, u) :: rest =>
      let '(u', r') := reset_user u r in
      let '(rest', r'') := reset_loop rest r' in
      ((uid, u') :: rest', r'')
  end.

(** Lines 141-207: reset every user, save, then send the report and, when
    somebody failed, the message that pings them. *)
Definition perform_reset_logic (w : world) : world * report :=
  let '(users', r) := reset_loop (mem w) (Report [] [] []) in
  let w1 := save_db (World users' (disk w) (trace w)) in
  let w2 := World (mem w1) (disk w1)
                  (trace w1 ++ [SendReport (completed_list r) (failed_list r)]) in
  let w3 :=
    match loser_mentions r with
    | [] => w2
    | ms => World (mem w2) (disk w2) (trace w2 ++ [SendShame ms])
    end in
  (w3, r).

End Reset.

(** ** [bot.py]: the scheduler [scheduled_weekly_reset] *)

Module Scheduler.

(** [datetime.now(greece_tz)]: the local calendar date as its proleptic
    Gregorian ordinal ([date.toordinal()]) and the local time of day. *)
Record datetime := DateTime {
  ordinal : Z;
  hour : Z;
  minute : Z;
}.

(** [datetime.weekday()]: Monday is 0, as CPython computes it. *)
Definition weekday (d : datetime) : Z := (ordinal d + 6) mod 7.

(** Lines 529-538: one invocation of the task body. *)
Definition scheduled_weekly_reset (now_greece : datetime) (channel : bool)
    (w : world) : world :=
  if (weekday now_greece =? 5)%Z then
    if channel then fst (Reset.perform_reset_logic w) else w
  else w.

(** The body run at each of the given instants, oldest first. *)
Fixpoint run (ticks : list (datetime * bool)) (w : world) : world :=
  match ticks with
  | [] => w
  | (now, channel) :: rest => run rest (scheduled_weekly_reset now channel w)
  end.

Definition fires (tick : datetime * bool) : bool :=
  (weekday (fst tick) =? 5)%Z && snd tick.

Definition is_report (e : effect) : bool :=
  match e with SendReport _ _ => true | _ => false end.

(** How many weekly reports the trace contains: one per reset. *)
Definition reports_sent (t : list effect) : nat :=
  length (List.filter is_report t).

End Scheduler.

(** ** [bot.py]: registration, lines 240-258 of [track] *)

Module Track.

(** [htb_id not in db["users"]]. *)
Definition tracked (htb_id : string) (users : ledger) : bool :=
  bool_decide (htb_id ∈ users.*1).

Definition new_user (htb_name : string) (author : Z)
    (initial_activity : option (list activity)) : user_data :=
  let existing_ids :=
    match initial_activity with
    | Some acts => act_id <$> acts
    | None => []
    end in
  UserData htb_name (Some author) 0 0 (Some 0) existing_ids (Some []) (Some []).

Definition register (htb_id htb_name : string) (author : Z)
    (initial_activity : option (list activity)) (w : world) : world :=
  if tracked htb_id (mem w) then w
  else
    save_db (World (mem w ++ [(htb_id, new_user htb_name author initial_activity)])
                   (disk w) (trace w)).

End Track.

(** ** [utils/update_root_flags.py]: [check_root_flags_manual] *)

Module UpdateRootFlags.

(** One element of the comprehension at lines 76-80. *)
Definition machine_id_of (uid : string) : option Z :=
  let head := Py.split_head "_" uid in
  if Py.contains "_user" uid && Py.isdigit head then Py.int_of_str head
  else None.

Definition user_flag_machine_ids (user_flag_ids : list string) : gset Z :=
  list_to_set (omap machine_id_of user_flag_ids).

(** Lines 86-101: [root_flags] and [challenge_ids] after the history. *)
Definition visit (solved_ids ufm : gset Z)
    (acc : gmap Z (option string) * gset Z) (a : activity)
  : gmap Z (option string) * gset Z :=
  let '(root_flags, challenge_ids) := acc in
  if Bot.is_str (act_object_type a) "machine"
     && Bot.is_str (act_flag_type a) "root" then
    if bool_decide (act_id a ∈ solved_ids) && bool_decide (act_id a ∉ ufm)
    then (<[act_id a := act_name a]> root_flags, challenge_ids)
    else acc
  else if Bot.is_str (act_object_type a) "challenge" then
    if bool_decide (act_id a ∈ solved_ids)
    then (root_flags, {[act_id a]} ∪ challenge_ids)
    else acc
  else acc.

Definition scan_history (u : user_data) (activities : list activity)
  : gmap Z (option string) * gset Z :=
  foldl (visit (list_to_set (solved_ids u))
               (user_flag_machine_ids (get_user_flag_ids u)))
        (∅, ∅) activities.

(** [sorted(root_flags.keys())]. *)
Definition sorted_keys (root_flags : gmap Z (option string)) : list Z :=
  Py.sorted (elements (dom root_flags)).

(** Lines 73-74. *)
Definition ensure_root_flag_ids (u : user_data) : user_data :=
  match root_flag_ids u with
  | Some _ => u
  | None => set_root_flag_ids [] u
  end.

(** Lines 106-136: the root-flag list and the machine counter. *)
Definition update_machines (root_flags : gmap Z (option string))
    (u : user_data) : user_data * bool :=
  if bool_decide (root_flags ≠ ∅) then
    let new_root_flag_ids := sorted_keys root_flags in
    let old_root_flag_ids := Py.sorted (get_root_flag_ids u) in
    let root_flag_count := Z.of_nat (length new_root_flag_ids) in
    let '(u1, n1) :=
      if bool_decide (new_root_flag_ids ≠ old_root_flag_ids)
      then (set_root_flag_ids new_root_flag_ids u, true) else (u, false) in
    if bool_decide (machines u1 ≠ root_flag_count)
    then (set_machines root_flag_count u1, true) else (u1, n1)
  else
    let '(u1, n1) :=
      match get_root_flag_ids u with
      | [] => (u, false)
      | _ => (set_root_flag_ids [] u, true)
      end in
    if machines u1 >? 0 then (set_machines 0 u1, true) else (u1, n1).

(** Lines 138-142. *)
Definition update_challenges (challenge_ids : gset Z) (u : user_data)
  : user_data * bool :=
  let challenge_count := Z.of_nat (size challenge_ids) in
  if bool_decide (challenges u ≠ challenge_count)
  then (set_challenges challenge_count u, true) else (u, false).

(** What one iteration of the loop over the users leaves behind. *)
Record outcome := Outcome {
  o_user : user_data;
  o_needs_update : bool;
  o_root_flags : option (gmap Z (option string));
}.

(** Lines 69-148 for one user; [fetched] is what [get_user_activity]
    returned for them. *)
Definition reconcile_user (u : user_data) (fetched : option (list activity))
  : outcome :=
  let u0 := ensure_root_flag_ids u in
  match fetched with
  | None | Some [] => Outcome u0 false None
  | Some activities =>
      let '(root_flags, challenge_ids) := scan_history u0 activities in
      let '(u1, n1) := update_machines root_flags u0 in
      let '(u2, n2) := update_challenges challenge_ids u1 in
      Outcome u2 (n1 || n2)
              (if bool_decide (root_flags ≠ ∅) then Some root_flags else None)
  end.

Section Job.
(** [get_user_activity] of this file: [None] on any failure. *)
Variable get_user_activity : string → option (list activity).

(** Lines 68-148: every user in turn; the updated users, how many of
    them were modified, and [root_flag_data]. *)
Fixpoint reconcile_loop (users : ledger)
  : ledger * nat * list (string * string * gmap Z (option string)) :=
  match users with
  | [] => ([], 0%nat, [])
  | (htb_id, u) :: rest =>
      let o := reconcile_user u (get_user_activity htb_id) in
      let '(rest', updated_count, root_flag_data) := reconcile_loop rest in
      ((htb_id, o_user o) :: rest',
       ((if o_needs_update o then 1 else 0) + updated_count)%nat,
       match o_root_flags o with
       | Some rf => (name u, htb_id, rf) :: root_flag_data
       | None => root_flag_data
       end)
  end.

(** Lines 59-154, on a [db] that was passed in. *)
Definition check_root_flags_manual (w : world) : world :=
  match mem w with
  | [] => w
  | users =>
      let '(users', updated_count, _) := reconcile_loop users in
      let w1 := World users' (disk w) (trace w) in
      if (0 <? updated_count)%nat then save_db w1 else w1
  end.
End Job.

End UpdateRootFlags.

(** ** Vocabulary of the properties *)

(** The two events of a two-stage target [x]: its user flag (partial stage)
    and its root flag (full stage). Both carry the machine's id. *)
Definition user_flag_event (x : Z) (n : option string) : activity :=
  Activity x (Some "machine") (Some "user") n.
Definition root_flag_event (x : Z) (n : option string) : activity :=
  Activity x (Some "machine") (Some "root") n.

(** Whether the activity is a machine's user flag: the case that line 413
    deduplicates through [user_flag_ids]. *)
Definition is_user_flag (a : activity) : bool :=
  Bot.is_str (act_object_type a) "machine" && Bot.is_str (act_flag_type a) "user".

(** The JSON file holds what is in memory. *)
Definition in_sync (w : world) : Prop := disk w = mem w.

(** What a cycle started from a saved ledger leaves behind: the file holds
    the ledger, or, when an embed could not be delivered, the ledger differs
    from the file in the one record whose event was not announced. *)
Definition cycle_post (r : result) : Prop :=
  match r with
  | Ok w' => in_sync w'
  | Raise AttributeError w' => in_sync w'
  | Raise DeliveryFailed w' =>
      ∃ i htb_id u', mem w' = <[i := (htb_id, u')]> (disk w')
  end.

(** How many of the given invocations of the scheduler body performed the
    reset on calendar day [d]. *)
Definition resets_on (d : Z) (ticks : list (Scheduler.datetime * bool)) : nat :=
  length (List.filter
            (λ t, Scheduler.fires t && (Scheduler.ordinal (fst t) =? d)) ticks).

(** A machine's root flag, and a challenge, as lines 95 and 99 of
    [update_root_flags.py] test them. *)
Definition is_root_flag (a : activity) : bool :=
  Bot.is_str (act_object_type a) "machine" && Bot.is_str (act_flag_type a) "root".
Definition is_challenge (a : activity) : bool :=
  Bot.is_str (act_object_type a) "challenge".

(** The root flags that reconciliation keeps for a user (lines 95-96). *)
Definition qualifies (u : user_data) (a : activity) : bool :=
  is_root_flag a
  && bool_decide (act_id a ∈ solved_ids u)
  && bool_decide (act_id a ∉
       UpdateRootFlags.user_flag_machine_ids (get_user_flag_ids u)).

(** ** Sample data

    A user as [track] registers them, and a feed (newest first) with a
    machine's user flag, its root flag and a challenge. *)
Definition sample_feed : list activity :=
  [ Activity 3 (Some "challenge") (Some "challenge") (Some "Templated");
    root_flag_event 7 (Some "Lame");
    user_flag_event 7 (Some "Lame") ].

Definition sample_user : user_data := Track.new_user "neo" 42 (Some []).

Definition sample_world : world :=
  Track.register "1337" "neo" 42 (Some []) (World [] [] []).

(** ** [list.sort(key=..., reverse=True)]

    Python's sort is stable, also with [reverse=True]: elements with equal
    keys keep their original order. [ge x y] says that the key of [x] is
    greater than or equal to the key of [y]. *)

Module PySort.
Section Sort.
Context {A : Type} (ge : A → A → bool).

Fixpoint insert_desc (x : A) (l : list A) : list A :=
  match l with
  | [] => [x]
  | y :: r => if ge x y then x :: y :: r else y :: insert_desc x r
  end.

Fixpoint sort_desc (l : list A) : list A :=
  match l with
  | [] => []
  | x :: r => insert_desc x (sort_desc r)
  end.
End Sort.
End PySort.

(** ** [bot.py] and [update_root_flags.py]: [load_db] and [save_db] *)

Module Db.

(** The value of ["users"] in a JSON object: the key is absent, or it
    holds something that is not an object (null, a number, a string, an
    array), or it holds an object of records, each an object as in the
    rest of the model. *)
Inductive users_value :=
| Absent
| NotAnObject
| Users (users : ledger).

(** What [json.load] returns, as far as [load_db] looks at it: null, a
    boolean or a number; a string; an array, of which only whether the
    string ["users"] is one of its items matters; or an object. *)
Inductive data :=
| Scalar
| Text (s : string)
| Array (has_users : bool)
| Object (users : users_value).

(** What [DB_FILE] can be on disk. [Unreadable] is a file that exists
    but on which [open] or [json.load] raises something other than
    [JSONDecodeError] (a directory, no permission, bytes that are not text
    in the locale's encoding); [Corrupt] is text that [json.load] rejects
    with [JSONDecodeError]. *)
Inductive file :=
| NoFile
| Unreadable
| Corrupt
| Parsed (d : data).

(** [DB_FILE] and [DB_FILE.bak]. *)
Record files := Files {
  db_file : file;
  bak_file : file;
}.

(** The exceptions that leave [load_db]: [OSError] or
    [UnicodeDecodeError] from [open] and [json.load]; [TypeError] from
    ["users" in data] and [data["users"]]; [AttributeError] from
    [data["users"].items()]. *)
Inductive error :=
| ReadError
| TypeError
| ItemsAttributeError.

Inductive loaded :=
| Loaded (d : data) (fs : files)
| Failed (x : error) (fs : files).

Definition files_of (r : loaded) : files :=
  match r with Loaded _ fs | Failed _ fs => fs end.

(** [{"users": {}}], lines 52 and 18. *)
Definition fresh : data := Object (Users []).

(** Lines 64-69 of [bot.py]: the migration of one record. *)
Definition migrate_user (u : user_data) : user_data :=
  let u1 := match streak u with None => set_streak 0 u | Some _ => u end in
  let u2 := match user_flag_ids u1 with
            | None => set_user_flag_ids [] u1 | Some _ => u1 end in
  match root_flag_ids u2 with
  | None => set_root_flag_ids [] u2 | Some _ => u2 end.

(** ["users" in data], line 62: a key of an object, an item of an array,
    a substring of a string; [None] is the TypeError of a value that is
    not a container. *)
Definition has_users (d : data) : option bool :=
  match d with
  | Scalar => None
  | Text s => Some (Py.contains "users" s)
  | Array has => Some has
  | Object Absent => Some false
  | Object _ => Some true
  end.

(** Lines 62-69. [data["users"]] raises TypeError on a string and on an
    array; [.items()] exists on an object only. *)
Definition migrate (d : data) : error + data :=
  match has_users d with
  | None => inl TypeError
  | Some false => inr d
  | Some true =>
      match d with
      | Object (Users users) =>
          inr (Object (Users ((λ p, (fst p, migrate_user (snd p))) <$> users)))
      | Object _ => inl ItemsAttributeError
      | _ => inl TypeError
      end
  end.

(** [load_db] of [update_root_flags.py], lines 17-26: the data and the
    files it leaves. Only [JSONDecodeError] is caught; the file is then
    renamed to the backup, replacing it (as [os.rename] does on POSIX). *)
Definition load_raw (fs : files) : loaded :=
  match db_file fs with
  | NoFile => Loaded fresh fs
  | Unreadable => Failed ReadError fs
  | Corrupt => Loaded fresh (Files NoFile Corrupt)
  | Parsed d => Loaded d fs
  end.

(** [load_db] of [bot.py], lines 51-70. *)
Definition load_db (fs : files) : loaded :=
  match load_raw fs with
  | Failed x fs' => Failed x fs'
  | Loaded d fs' =>
      match migrate d with
      | inl x => Failed x fs'
      | inr d' => Loaded d' fs'
      end
  end.

(** [save_db], lines 73-75, on the files. *)
Definition write_db (users : ledger) (fs : files) : files :=
  Files (Parsed (Object (Users users))) (bak_file fs).

End Db.

(** ** [bot.py]: the HTB API helpers, lines 82-133, and lines 34-51 of
    [update_root_flags.py] *)

Module Htb.

(** The keys the helpers read in [data["profile"]]. *)
Record profile := Profile {
  p_name : option string;
  p_avatar : option string;
  p_activity : option (list activity);
}.

(** The JSON object of a reply: empty (falsy in Python), or with keys, of
    which ["profile"] may be absent. The replies considered are those the
    platform documents: the body is an object, ["profile"] an object,
    the name and the avatar texts, the activity a list. *)
Inductive body :=
| EmptyObject
| Object (prof : option profile).

Inductive response :=
| ConnectionError
| Reply (status_code : Z) (json : body).

(** [make_htb_request], lines 89-103. *)
Definition make_htb_request (r : response) : option body :=
  match r with
  | Reply 200 json => Some json
  | Reply _ _ => None
  | ConnectionError => None
  end.

(** [data.get("profile", {})]. *)
Definition get_profile (json : body) : profile :=
  match json with
  | Object (Some p) => p
  | _ => Profile None None None
  end.

Definition truthy (json : body) : bool :=
  match json with EmptyObject => false | Object _ => true end.

(** [get_user_activity] of [bot.py], lines 106-111. *)
Definition get_user_activity (r : response) : option (list activity) :=
  match make_htb_request r with
  | Some data =>
      if truthy data then Some (default [] (p_activity (get_profile data)))
      else None
  | None => None
  end.

(** [get_user_activity] of [update_root_flags.py], lines 43-51. *)
Definition get_user_activity_script (r : response) : option (list activity) :=
  match r with
  | Reply 200 data => Some (default [] (p_activity (get_profile data)))
  | _ => None
  end.

Definition LOGO : string := "https://labs.hackthebox.com/images/logo-htb.png".

(** [get_user_details], lines 114-126: name and avatar URL. *)
Definition get_user_details (r : response) : string * string :=
  match make_htb_request r with
  | Some data =>
      if truthy data then
        let p := get_profile data in
        let name := default "Unknown" (p_name p) in
        let avatar :=
          match p_avatar p with
          | Some a =>
              if bool_decide (a ≠ "") && String.prefix "/" a
              then Some ("https://labs.hackthebox.com" ++ a)%string
              else Some a
          | None => None
          end in
        let avatar :=
          match avatar with
          | Some a => if bool_decide (a = "") then LOGO else a
          | None => LOGO
          end in
        (name, avatar)
      else ("Unknown", LOGO)
  | None => ("Unknown", LOGO)
  end.

End Htb.

(** ** [bot.py]: the commands [track], [untrack], [stats] and [top] *)

Module Commands.

(** What a command says, in order: DMs, channel messages and embeds. *)
Inductive said :=
| CheckYourDMs
| AskForId
| NumbersOnly
| Verifying (htb_id : string)
| IdNotFound
| Initializing
| NowTracking (htb_name : string)
| NewAgent (htb_name htb_id avatar : string)
| AlreadyTracked (htb_name : string)
| TimedOut
| EnableDMs
| StoppedTracking
| NotTracked
| StatsCard (who : string) (m_prog c_prog streak_weeks : Z)
| UseTrack
| NoUsersYet.

Section Track.
(** [str.isdigit] on the content of the answer. Python's test holds of a
    non-empty text of digits, the digits outside ASCII included; it is a
    parameter here, and the command uses nothing of it but its answer. *)
Variable isdigit : string → bool.
(** Whether the author accepts DMs ([discord.Forbidden] otherwise), and the
    message they answer with within the 600 seconds, if any. *)
Variable dms_open : bool.
Variable answer : option string.
Variable get_user_details : string → string * string.
Variable get_user_activity : string → option (list activity).
(** [bot.get_channel(CHANNEL_ID)]. *)
Variable main_channel : bool.

(** [track], lines 214-276, for the author with the given Discord id. *)
Definition track (author : Z) (w : world) : world * list said :=
  if negb dms_open then (w, [CheckYourDMs; EnableDMs])
  else
    match answer with
    | None => (w, [CheckYourDMs; AskForId; TimedOut])
    | Some content =>
        if negb (isdigit content)
        then (w, [CheckYourDMs; AskForId; NumbersOnly])
        else
          let htb_id := content in
          let '(htb_name, htb_avatar) := get_user_details htb_id in
          if bool_decide (htb_name = "Unknown")
          then (w, [CheckYourDMs; AskForId; Verifying htb_id; IdNotFound])
          else if Track.tracked htb_id (mem w)
          then (w, [CheckYourDMs; AskForId; Verifying htb_id;
                    AlreadyTracked htb_name])
          else
            (Track.register htb_id htb_name author
               (get_user_activity htb_id) w,
             [CheckYourDMs; AskForId; Verifying htb_id; Initializing;
              NowTracking htb_name]
             ++ (if main_channel then [NewAgent htb_name htb_id htb_avatar]
                 else []))
    end.
End Track.

(** Lines 283-286 of [untrack] and 299-301 of [stats]: the first record
    whose ["discord_id"] is the author's; the outer [None] is the KeyError
    of a record without that key met before the match. *)
Fixpoint find_author (author : Z) (users : ledger)
  : option (option (string * user_data)) :=
  match users with
  | [] => Some None
  | (htb_id, data) :: rest =>
      match discord_id data with
      | None => None
      | Some d => if d =? author then Some (Some (htb_id, data))
                  else find_author author rest
      end
  end.

(** [del db["users"][id_to_remove]]. *)
Definition delete_user (htb_id : string) (users : ledger) : ledger :=
  filter (λ p, fst p ≠ htb_id) users.

(** [untrack], lines 280-292; [None] is the KeyError. An empty id is falsy
    at line 287. *)
Definition untrack (author : Z) (w : world) : option (world * said) :=
  match find_author author (mem w) with
  | None => None
  | Some None => Some (w, NotTracked)
  | Some (Some (id_to_remove, _)) =>
      if bool_decide (id_to_remove = "") then Some (w, NotTracked)
      else Some (save_db (World (delete_user id_to_remove (mem w))
                                (disk w) (trace w)),
                 StoppedTracking)
  end.

(** [stats], lines 296-318. *)
Definition stats (author : Z) (w : world) : option said :=
  match find_author author (mem w) with
  | None => None
  | Some None => Some UseTrack
  | Some (Some (_, data)) =>
      Some (StatsCard (name data) (machines data) (challenges data)
                      (get_streak data))
  end.

(** One row of [leaderboard_data], line 337. *)
Record row := Row {
  r_user_id : string;
  r_name : string;
  r_mach : Z;
  r_chall : Z;
  r_streak : Z;
  r_score : Z;
}.

(** Lines 330-337. *)
Definition leaderboard_data (users : ledger) : list row :=
  (λ p, let data := snd p in
        Row (fst p) (name data) (machines data) (challenges data)
            (get_streak data) (machines data + challenges data)) <$> users.

(** The order of the keys [(x[5], x[4])], line 340: tuples compare
    lexicographically. *)
Definition key_ge (x y : row) : bool :=
  (r_score y <? r_score x)
  || ((r_score x =? r_score y) && (r_streak y <=? r_streak x)).

Inductive rank_icon :=
| Medal (place : nat)
| Numbered (place : nat).

(** Lines 350-360: the fields of the embed, one per shown user. *)
Definition fields (rows : list row) : list (rank_icon * row) :=
  imap (λ rank r, (if (rank <? 3)%nat then Medal rank
                   else Numbered (rank + 1), r))
       (take 10 rows).

(** [top], lines 322-363: [None] is the "no users" message; otherwise the
    fields and the footer's total. *)
Definition top (w : world) : option (list (rank_icon * row) * nat) :=
  match mem w with
  | [] => None
  | users =>
      Some (fields (PySort.sort_desc key_ge (leaderboard_data users)),
            length users)
  end.

End Commands.

(** ** [bot.py]: [format_list], lines 177-179 *)

Module Report.

(** ["\n".join(lst)]. *)
Fixpoint join_lines (lst : list string) : string :=
  match lst with
  | [] => ""
  | [x] => x
  | x :: rest => (x ++ String "010" (join_lines rest))%string
  end.

(** A string is a sequence of characters, as Python counts them. *)
Definition format_list (lst : list string) : string :=
  let text := join_lines lst in
  if (1000 <? String.length text)%nat
  then (String.substring 0 1000 text ++ "...")%string
  else text.

End Report.

(** ** [update_root_flags.py]: the summary, lines 156-177 *)

Module Summary.

(** [len(x[2])] of an entry of [root_flag_data] against another's. *)
Definition count_ge (x y : string * string * gmap Z (option string)) : bool :=
  (size (snd y) <=? size (snd x))%nat.

(** What the job prints at the end: "No users are being tracked yet!"
    (lines 59-61), "No root flags found" (lines 156-158), or the owners
    in the order of line 160. *)
Inductive summary :=
| NoUsers
| NoRootFlags
| Owners (root_flag_data : list (string * string * gmap Z (option string))).

Definition root_flag_owners
    (get_user_activity : string → option (list activity)) (w : world)
  : summary :=
  match mem w with
  | [] => NoUsers
  | users =>
      match snd (UpdateRootFlags.reconcile_loop get_user_activity users) with
      | [] => NoRootFlags
      | root_flag_data => Owners (PySort.sort_desc count_ge root_flag_data)
      end
  end.

End Summary.

(** ** Vocabulary of the further properties *)

(** A record with the three keys of the migration present, as [track]
    writes it. *)
Definition complete (u : user_data) : Prop :=
  is_Some (streak u) ∧ is_Some (user_flag_ids u) ∧ is_Some (root_flag_ids u).

(** The days [d], [d+1], ..., [d+6] at 21:00, with the channel found. *)
Definition week_from (d : Z) : list (Scheduler.datetime * bool) :=
  (λ k, (Scheduler.DateTime (d + Z.of_nat k) 21 0, true)) <$> seq 0 7.

(** The world a run of a task leaves, whether it returned or raised. *)
Definition result_world (r : result) : world :=
  match r with Ok w | Raise _ w => w end.

#[global] Instance display_eq_dec : EqDecision display.
Proof. solve_decision. Defined.

(** How many of the embeds announce the given kind of solve. *)
Definition announced (d : display) (es : list embed) : Z :=
  Z.of_nat (length (filter (λ e, e_display e = d) es)).

(** The ledger as the commands leave it: the ids are distinct (the keys of
    a dict), none is the empty text ([track] registers only what
    [isdigit] accepts), and every record names its owner. *)
Definition well_formed (users : ledger) : Prop :=
  NoDup users.*1 ∧
  Forall (λ p, fst p ≠ "" ∧ is_Some (discord_id (snd p))) users.

(** The id and the owner of every record, in order. *)
Definition owners (users : ledger) : list (string * option Z) :=
  (λ p, (fst p, discord_id (snd p))) <$> users.

(** * Properties *)

Section PyFacts.
Lemma sorted_Sorted l : Sorted Z.le (Py.sorted l).
Proof. apply (Sorted_merge_sort Z.le). Qed.

Lemma sorted_Permutation l : Py.sorted l ≡ₚ l.
Proof. apply merge_sort_Permutation. Qed.

Lemma sorted_length l : length (Py.sorted l) = length l.
Proof. by rewrite sorted_Permutation. Qed.

Lemma sorted_idem l : Py.sorted (Py.sorted l) = Py.sorted l.
Proof.
  apply (Sorted_unique Z.le); try apply sorted_Sorted.
  apply sorted_Permutation.
Qed.

Lemma sorted_elem_of x l : x ∈ Py.sorted l ↔ x ∈ l.
Proof. by rewrite sorted_Permutation. Qed.

Lemma sorted_NoDup l : NoDup (Py.sorted l) ↔ NoDup l.
Proof. by rewrite sorted_Permutation. Qed.

Lemma mem_true {A} `{EqDecision A} (x : A) l : Py.mem x l = true ↔ x ∈ l.
Proof. unfold Py.mem. apply bool_decide_eq_true. Qed.

Lemma mem_false {A} `{EqDecision A} (x : A) l : Py.mem x l = false ↔ x ∉ l.
Proof. unfold Py.mem. apply bool_decide_eq_false. Qed.
End PyFacts.

Section IngestionFacts.
Import Bot.

Lemma handle_fresh_inv u a u' e :
  handle u a = Fresh u' e →
  already_processed u a = false ∧
  ∃ u1 sc d, classify u a = inr (u1, sc, d) ∧
             u' = remember sc (act_id a) u1 ∧ e = make_embed u' a d.
Proof.
  unfold handle. destruct (already_processed u a); [done|].
  destruct (classify u a) as [x|[[u1 sc] d]]; [done|].
  intros [= <- <-]. split; [done|]. by exists u1, sc, d.
Qed.

Lemma classify_inv u a u1 sc d :
  classify u a = inr (u1, sc, d) →
  sc = negb (is_user_flag a) ∧
  solved_ids u1 = solved_ids u ∧
  user_flag_ids u1 = user_flag_ids u ∧
  name u1 = name u ∧ streak u1 = streak u ∧ discord_id u1 = discord_id u.
Proof.
  unfold classify, is_user_flag, note_root_flag.
  repeat case_match; intros [= <- <- <-]; simplify_eq/=; done.
Qed.

Lemma remember_processed u a sc :
  sc = negb (is_user_flag a) →
  already_processed (remember sc (act_id a) u) a = true.
Proof.
  intros ->. unfold already_processed, remember. fold (is_user_flag a).
  destruct (is_user_flag a); simpl.
  - destruct (Py.mem _ (get_user_flag_ids u)) eqn:Hm; [done|].
    apply mem_true. unfold get_user_flag_ids at 1. simpl.
    apply elem_of_app. right. by apply list_elem_of_singleton.
  - apply mem_true. simpl. apply elem_of_app. right.
    by apply list_elem_of_singleton.
Qed.

Lemma handle_replay u a u' e : handle u a = Fresh u' e → handle u' a = Seen.
Proof.
  intros (_ & u1 & sc & d & Hc & -> & _)%handle_fresh_inv.
  apply classify_inv in Hc as (Hsc & _).
  unfold handle. by rewrite remember_processed.
Qed.
End IngestionFacts.

Section IngestionClaims.
Import Bot.

Lemma handle_user_flag_counters u a u' e :
  is_user_flag a = true → handle u a = Fresh u' e →
  machines u' = machines u ∧ challenges u' = challenges u ∧
  solved_ids u' = solved_ids u ∧ root_flag_ids u' = root_flag_ids u ∧
  e_display e = UserFlag.
Proof.
  unfold is_user_flag. intros [Hm Hu]%andb_true_iff.
  intros (_ & u1 & sc & d & Hc & -> & ->)%handle_fresh_inv.
  unfold classify in Hc. rewrite Hm, Hu in Hc. injection Hc as <- <- <-.
  unfold remember. by destruct (Py.mem _ _).
Qed.

Lemma handle_root_flag u x n :
  x ∉ solved_ids u →
  ∃ u' e, handle u (root_flag_event x n) = Fresh u' e ∧
          machines u' = machines u + 1 ∧ challenges u' = challenges u ∧
          solved_ids u' = (solved_ids u ++ [x]) ∧
          user_flag_ids u' = user_flag_ids u ∧
          x ∈ get_root_flag_ids u' ∧ e_display e = RootFlag.
Proof.
  intros Hx. unfold handle, already_processed. simpl.
  apply mem_false in Hx. rewrite Hx. simpl.
  eexists _, _. split; [done|]. unfold note_root_flag.
  destruct (Py.mem x (get_root_flag_ids _)) eqn:Hm; simpl; split_and!; try done.
  - by apply mem_true in Hm.
  - apply sorted_elem_of, elem_of_app. right. by apply list_elem_of_singleton.
Qed.

Lemma handle_user_flag_seen_key u x n :
  handle u (user_flag_event x n) = Seen → user_flag_key x ∈ get_user_flag_ids u.
Proof.
  unfold handle, already_processed. simpl.
  destruct (Py.mem (user_flag_key x) (get_user_flag_ids u)) eqn:Hm; [|done].
  intros _. by apply mem_true.
Qed.

(** The user flag of a machine that is not counted yet, then its root
    flag: the two steps of the loop. *)
Lemma ingest_user_then_root u x n1 n2 :
  x ∉ solved_ids u →
  ∃ u1 es1 u2 e2,
    ingest u [user_flag_event x n1] = Some (u1, es1) ∧
    machines u1 = machines u ∧ challenges u1 = challenges u ∧
    solved_ids u1 = solved_ids u ∧
    handle u1 (user_flag_event x n1) = Seen ∧
    handle u1 (root_flag_event x n2) = Fresh u2 e2 ∧
    machines u2 = machines u + 1 ∧ challenges u2 = challenges u ∧
    user_flag_ids u2 = user_flag_ids u1 ∧
    x ∈ get_root_flag_ids u2 ∧ e_display e2 = RootFlag.
Proof.
  intros Hx.
  assert (∃ u1 es1, ingest u [user_flag_event x n1] = Some (u1, es1) ∧
            machines u1 = machines u ∧ challenges u1 = challenges u ∧
            solved_ids u1 = solved_ids u ∧
            handle u1 (user_flag_event x n1) = Seen)
    as (u1 & es1 & Hi1 & Hm1 & Hc1 & Hs1 & Hseen1).
  { simpl. destruct (handle u (user_flag_event x n1)) as [|?|u' e] eqn:Hh.
    - by exists u, [].
    - unfold handle in Hh. simpl in Hh. by destruct (already_processed _ _).
    - exists u', [e]. pose proof (handle_replay _ _ _ _ Hh).
      apply handle_user_flag_counters in Hh as (?&?&?&?&?); done. }
  destruct (handle_root_flag u1 x n2) as (u2 & e2 & Hh2 & Hm2 & Hc2 & _ & Hf2 & Hr2 & He2).
  { by rewrite Hs1. }
  exists u1, es1, u2, e2. split_and!; try done; lia.
Qed.

(** X29. For a machine [x] that is not yet in [solved_ids]: handling its user
    flag changes no counter, handling its root flag after it brings
    [machines] to one more than before, in total, and so does handling the
    root flag alone; handling the same events again adds nothing. *)
Theorem two_stage_target_counted_once (u : user_data) (x : Z)
    (n1 n2 : option string) :
  x ∉ solved_ids u →
  (∃ u1 es1 u2 es2,
      ingest u [user_flag_event x n1] = Some (u1, es1) ∧
      machines u1 = machines u ∧ challenges u1 = challenges u ∧
      ingest u1 [root_flag_event x n2] = Some (u2, es2) ∧
      ingest u [user_flag_event x n1; root_flag_event x n2]
        = Some (u2, es1 ++ es2) ∧
      machines u2 = machines u + 1 ∧ challenges u2 = challenges u ∧
      ingest u2 [user_flag_event x n1; root_flag_event x n2] = Some (u2, []))
  ∧
  (∃ u2 es,
      ingest u [root_flag_event x n2] = Some (u2, es) ∧
      machines u2 = machines u + 1 ∧ challenges u2 = challenges u ∧
      ingest u2 [root_flag_event x n2] = Some (u2, [])).
Proof.
  intros Hx. split.
  - destruct (ingest_user_then_root u x n1 n2 Hx)
      as (u1 & es1 & u2 & e2 & Hi1 & Hm1 & Hc1 & _ & Hseen1 & Hh2 & Hm2 & Hc2 & Hf2 & _).
    assert (handle u2 (user_flag_event x n1) = Seen) as Hseen2.
    { apply handle_user_flag_seen_key in Hseen1.
      unfold handle, already_processed. simpl. unfold get_user_flag_ids in *.
      rewrite Hf2. apply mem_true in Hseen1. by rewrite Hseen1. }
    exists u1, es1, u2, [e2]. split_and!; try done.
    + simpl. by rewrite Hh2.
    + simpl. simpl in Hi1.
      destruct (handle u (user_flag_event x n1)) as [|?|u' e]; try done.
      * injection Hi1 as <- <-. by rewrite Hh2.
      * injection Hi1 as <- <-. by rewrite Hh2.
    + simpl. rewrite Hseen2. by rewrite (handle_replay _ _ _ _ Hh2).
  - destruct (handle_root_flag u x n2) as (u2 & e2 & Hh2 & Hm2 & Hc2 & _); [done|].
    exists u2, [e2]. split_and!; try done.
    + simpl. by rewrite Hh2.
    + simpl. by rewrite (handle_replay _ _ _ _ Hh2).
Qed.

(** X30. Once an iteration of the loop on an event has completed, or has
    stopped at the delivery of its embed, the same iteration on the
    resulting world leaves the world as it is: same ledger, nothing sent,
    nothing saved. In the second case the record was already updated in
    memory. *)
Theorem replay_already_seen (delivers : embed → bool) (i : nat)
    (a : activity) (w w1 : world) :
  process_activity delivers i a w = Ok w1 ∨
  process_activity delivers i a w = Raise DeliveryFailed w1 →
  process_activity delivers i a w1 = Ok w1 ∧
  ∀ htb_id u, mem w1 !! i = Some (htb_id, u) → handle u a = Seen.
Proof.
  unfold process_activity.
  destruct (mem w !! i) as [[htb_id u]|] eqn:Hi.
  - destruct (handle u a) as [|x|u' e] eqn:Hh.
    + intros [[= <-]|?]; [|done]. rewrite Hi, Hh. split; [done|].
      by intros ?? [= <- <-].
    + intros [?|[= -> <-]]; [done|].
      unfold handle in Hh. destruct (already_processed u a); [done|].
      unfold classify in Hh. repeat case_match; by simplify_eq.
    + assert (<[i:=(htb_id, u')]> (mem w) !! i = Some (htb_id, u')) as Hl.
      { apply list_lookup_insert_eq. by eapply lookup_lt_Some. }
      destruct (delivers e); intros [[= <-]|[= <-]]; simpl;
        rewrite Hl, (handle_replay _ _ _ _ Hh); (split; [done|]);
        intros ?? [= <- <-]; by eapply handle_replay.
  - intros [[= <-]|?]; [|done]. rewrite Hi. split; [done|]. by intros ??.
Qed.
End IngestionClaims.

Lemma two_stage_target_counted_once_witness :
  (7 ∉ solved_ids sample_user) ∧
  (∃ u2 es,
     Bot.ingest sample_user [user_flag_event 7 (Some "Lame");
                             root_flag_event 7 (Some "Lame")] = Some (u2, es) ∧
     machines u2 = machines sample_user + 1).
Proof.
  assert (7 ∉ solved_ids sample_user) as Hx by apply not_elem_of_nil.
  split; [exact Hx|].
  destruct (two_stage_target_counted_once sample_user 7 (Some "Lame") (Some "Lame") Hx)
    as [(u1 & es1 & u2 & es2 & _ & _ & _ & _ & Hi & Hm & _) _].
  exists u2, (es1 ++ es2). split; [exact Hi | exact Hm].
Defined.

Lemma replay_already_seen_witness :
  let a := Activity 3 (Some "challenge") (Some "challenge") (Some "Templated") in
  let u' := UserData "neo" (Some 42) 0 1 (Some 0) [3] (Some []) (Some []) in
  let w1 := World [("1337", u')] [("1337", u')]
                  (trace sample_world
                   ++ [SendEmbed (Embed "neo" Challenge (Some "Templated") 0 1 0);
                       SaveDb [("1337", u')]]) in
  Bot.process_activity (λ _, true) 0 a sample_world = Ok w1 ∧
  Bot.process_activity (λ _, true) 0 a w1 = Ok w1.
Proof.
  intros a u' w1.
  assert (Bot.process_activity (λ _, true) 0 a sample_world = Ok w1) as H1
    by reflexivity.
  split; [exact H1|].
  exact (proj1 (replay_already_seen (λ _, true) 0%nat a sample_world w1
                 (or_introl H1))).
Defined.

(** C1, at the failing input. A user registers while their feed shows the
    user flag of machine 7, and roots the machine afterwards. [track] has
    put the id of the user flag into [solved_ids], so line 417 takes the
    root flag for an event already processed: the cycle announces the old
    user flag and skips the root flag, and the machine is never counted.
    The same happens to machine 7 after challenge 7 has been counted, since
    both ids go to [solved_ids]. A user registered with an empty feed is
    counted. *)
Theorem snapshot_user_flag_hides_root_flag :
  let user_flag := user_flag_event 7 (Some "Lame") in
  let root_flag := root_flag_event 7 (Some "Lame") in
  let challenge := Activity 7 (Some "challenge") (Some "challenge") (Some "Templated") in
  let u := Track.new_user "neo" 42 (Some [user_flag]) in
  let w := Track.register "1337" "neo" 42 (Some [user_flag]) (World [] [] []) in
  let v := Track.new_user "neo" 42 (Some []) in
  Bot.handle u root_flag = Bot.Seen ∧
  (∃ u' e, Bot.ingest u [user_flag; root_flag] = Some (u', [e]) ∧
           e_display e = UserFlag ∧
           machines u' = 0 ∧ get_root_flag_ids u' = []) ∧
  (∃ w' u', Bot.check_htb_activity (λ _, Some [root_flag; user_flag])
              (λ _, true) true w = Ok w' ∧
            mem w' = [("1337", u')] ∧ machines u' = 0) ∧
  (∃ v' es, Bot.ingest v [challenge; user_flag; root_flag] = Some (v', es) ∧
            challenges v' = 1 ∧ machines v' = 0) ∧
  (∃ v' es, Bot.ingest v [user_flag; root_flag] = Some (v', es) ∧
            machines v' = 1).
Proof.
  vm_compute. split_and!.
  - reflexivity.
  - eexists _, _. split_and!; reflexivity.
  - eexists _, _. split_and!; reflexivity.
  - eexists _, _. split_and!; reflexivity.
  - eexists _, _. split_and!; reflexivity.
Qed.

(** C2, at the failing input. An event without [object_type]: line 477
    calls [capitalize] on [None] before line 483 records the id, so the
    first occurrence raises and changes nothing, and the second occurrence
    raises again; the event is never taken for one already processed, and
    it stops every cycle that reaches it. An event with an unknown
    [object_type] is recorded (line 479) and skipped the second time. *)
Theorem untyped_event_never_seen :
  let a := Activity 9 None (Some "own") (Some "Sherlock") in
  let b := Activity 9 (Some "fortress") (Some "own") (Some "Sherlock") in
  let once := Bot.process_activity (λ _, true) 0 a sample_world in
  let cycle := Bot.check_htb_activity (λ _, Some [a]) (λ _, true) true in
  Bot.handle sample_user a = Bot.Fault AttributeError ∧
  once = Raise AttributeError sample_world ∧
  Bot.process_activity (λ _, true) 0 a (result_world once)
  = Raise AttributeError sample_world ∧
  cycle sample_world = Raise AttributeError sample_world ∧
  cycle (result_world (cycle sample_world)) = Raise AttributeError sample_world ∧
  (∃ w1, Bot.process_activity (λ _, true) 0 b sample_world = Ok w1 ∧
         Bot.process_activity (λ _, true) 0 b w1 = Ok w1 ∧
         w1 ≠ sample_world).
Proof.
  vm_compute. split_and!; try reflexivity.
  eexists. split_and!; [reflexivity|reflexivity|discriminate].
Qed.

(** ** The loop over the activities, the channel and the JSON file *)

Section IngestionLoop.
Import Bot.
Variable get_user_activity : string → option (list activity).
Variable delivers : embed → bool.

(** What one iteration does to the world, case by case. *)
Lemma process_activity_fresh i a w htb_id u u' e :
  mem w !! i = Some (htb_id, u) → handle u a = Fresh u' e →
  process_activity delivers i a w =
    let m' := <[i := (htb_id, u')]> (mem w) in
    if delivers e
    then Ok (World m' m' (trace w ++ [SendEmbed e; SaveDb m']))
    else Raise DeliveryFailed (World m' (disk w) (trace w)).
Proof.
  intros Hi Hh. unfold process_activity. rewrite Hi, Hh. simpl.
  destruct (delivers e); [|done]. unfold save_db. simpl.
  by rewrite <-app_assoc.
Qed.

Lemma process_activity_cases i a w :
  match process_activity delivers i a w with
  | Ok w' => w' = w ∨ (in_sync w' ∧ ∃ e, trace w' = trace w ++ [SendEmbed e; SaveDb (mem w')])
  | Raise AttributeError w' => w' = w
  | Raise DeliveryFailed w' =>
      disk w' = disk w ∧ trace w' = trace w ∧
      ∃ htb_id u u', mem w !! i = Some (htb_id, u) ∧
                     mem w' = <[i := (htb_id, u')]> (mem w)
  end.
Proof.
  destruct (mem w !! i) as [[htb_id u]|] eqn:Hi.
  - destruct (handle u a) as [|x|u' e] eqn:Hh.
    + unfold process_activity. rewrite Hi, Hh. by left.
    + unfold process_activity. rewrite Hi, Hh.
      unfold handle in Hh. destruct (already_processed u a); [done|].
      destruct (classify u a) as [y|[[??]?]] eqn:Hc; [|done].
      injection Hh as <-. unfold classify in Hc.
      repeat case_match; by simplify_eq.
    + rewrite (process_activity_fresh _ _ _ _ _ _ _ Hi Hh). simpl.
      destruct (delivers e).
      * right. split; [done|]. by exists e.
      * split_and!; try done. by exists htb_id, u, u'.
  - unfold process_activity. rewrite Hi. by left.
Qed.

Lemma process_activities_post i acts w :
  in_sync w → cycle_post (process_activities delivers i acts w).
Proof.
  revert w. induction acts as [|a acts IH]; intros w Hw; [done|]. simpl.
  pose proof (process_activity_cases i a w) as Hc.
  destruct (process_activity delivers i a w) as [w'|[] w'].
  - apply IH. by destruct Hc as [->|[? _]].
  - by subst.
  - destruct Hc as (Hd & _ & htb_id & u & u' & _ & Hm). simpl.
    exists i, htb_id, u'. by rewrite Hm, Hd, Hw.
Qed.

Lemma scan_user_post i w :
  in_sync w → cycle_post (scan_user get_user_activity delivers i w).
Proof.
  intros Hw. unfold scan_user. destruct (mem w !! i) as [[htb_id u]|]; [|done].
  destruct (get_user_activity htb_id); [|done].
  by apply process_activities_post.
Qed.

Lemma scan_users_post idxs w :
  in_sync w → cycle_post (scan_users get_user_activity delivers idxs w).
Proof.
  revert w. induction idxs as [|i idxs IH]; intros w Hw; [done|]. simpl.
  pose proof (scan_user_post i w Hw) as Hp.
  destruct (scan_user get_user_activity delivers i w) as [w'|x w'].
  - by apply IH.
  - by destruct x.
Qed.

(** With a channel that always delivers, the loop on the world is [ingest]
    on the user's record. *)
Lemma process_activities_ingest i acts : ∀ w htb_id u u' es,
  (∀ e, delivers e = true) →
  mem w !! i = Some (htb_id, u) →
  ingest u acts = Some (u', es) →
  ∃ w', process_activities delivers i acts w = Ok w' ∧
        mem w' = <[i := (htb_id, u')]> (mem w) ∧
        List.filter Scheduler.is_report (trace w') = List.filter Scheduler.is_report (trace w) ∧
        omap (λ f, match f with SendEmbed e => Some e | _ => None end) (trace w')
        = (omap (λ f, match f with SendEmbed e => Some e | _ => None end) (trace w)
           ++ es).
Proof.
  induction acts as [|a acts IH]; intros w htb_id u u' es Hd Hi Hing.
  - injection Hing as <- <-. exists w. split_and!; try done.
    + symmetry. by apply list_insert_id.
    + by rewrite app_nil_r.
  - simpl in Hing. destruct (handle u a) as [|x|u1 e] eqn:Hh; [|done|].
    + destruct (IH w htb_id u u' es Hd Hi Hing) as (w' & Hp & ?).
      exists w'. split; [|done]. simpl. unfold process_activity at 1.
      by rewrite Hi, Hh.
    + destruct (ingest u1 acts) as [[u2 es2]|] eqn:Hing2; [|done].
      injection Hing as <- <-. simpl.
      rewrite (process_activity_fresh _ _ _ _ _ _ _ Hi Hh). simpl. rewrite Hd.
      set (m' := <[i := (htb_id, u1)]> (mem w)).
      assert (m' !! i = Some (htb_id, u1)) as Hi'.
      { apply list_lookup_insert_eq. by eapply lookup_lt_Some. }
      destruct (IH (World m' m' (trace w ++ [SendEmbed e; SaveDb m']))
                   htb_id u1 u2 es2 Hd Hi' Hing2) as (w' & Hp & Hm & Hr & Ht).
      exists w'. split; [done|]. simpl in *. split_and!.
      * rewrite Hm. apply list_insert_insert_eq.
      * rewrite Hr, List.filter_app. simpl. by rewrite app_nil_r.
      * rewrite Ht, omap_app. simpl. by rewrite <-app_assoc.
Qed.
End IngestionLoop.

(** ** Persistence within a cycle, and what registration seeds *)

Section IngestionPersistence.
Import Bot.
Variable get_user_activity : string → option (list activity).
Variable delivers : embed → bool.

Lemma check_htb_activity_post channel w :
  in_sync w →
  cycle_post (check_htb_activity get_user_activity delivers channel w).
Proof.
  intros Hw. unfold check_htb_activity. destruct channel; [|done].
  by apply scan_users_post.
Qed.

Lemma handle_not_user_flag_seen u a :
  is_user_flag a = false → act_id a ∈ solved_ids u → handle u a = Seen.
Proof.
  intros Hf Hin. unfold handle, already_processed. fold (is_user_flag a).
  rewrite Hf. apply mem_true in Hin. by rewrite Hin.
Qed.

Lemma handle_user_flag_cases u a :
  is_user_flag a = true →
  handle u a = Seen ∨ ∃ u' e, handle u a = Fresh u' e.
Proof.
  intros Hf. unfold handle. destruct (already_processed u a); [by left|].
  right. unfold classify. unfold is_user_flag in Hf.
  apply andb_true_iff in Hf as [-> ->]. by eexists _, _.
Qed.

(** Events whose id is already in [solved_ids] never move a counter; the
    only embeds they can still produce are user-flag announcements. *)
Lemma ingest_seeded acts : ∀ u,
  Forall (λ a, act_id a ∈ solved_ids u) acts →
  ∃ u' es, ingest u acts = Some (u', es) ∧
           machines u' = machines u ∧ challenges u' = challenges u ∧
           solved_ids u' = solved_ids u ∧
           Forall (λ e, e_display e = UserFlag) es.
Proof.
  induction acts as [|a acts IH]; intros u Hall.
  - by exists u, [].
  - apply Forall_cons in Hall as [Ha Hall]. simpl.
    destruct (is_user_flag a) eqn:Hf.
    + destruct (handle_user_flag_cases u a Hf) as [->|(u1 & e & Hh)].
      * by apply IH.
      * rewrite Hh.
        apply handle_user_flag_counters in Hh as (Hm & Hc & Hs & _ & He); [|done].
        destruct (IH u1) as (u' & es & -> & ? & ? & ? & ?).
        { by rewrite Hs. }
        exists u', (e :: es). split_and!; [done|congruence..|].
        by apply Forall_cons.
    + rewrite (handle_not_user_flag_seen u a Hf Ha). by apply IH.
Qed.
End IngestionPersistence.

(** C8 (as amended). When the embed of a newly handled event is delivered,
    the event's ledger mutation is saved before the loop takes the next
    event, and a whole cycle started from a saved ledger ends with the
    ledger saved. A delivery failure raises out of the task between the
    mutation and [save_db]: the update stays in memory (no rollback) and
    the file keeps its previous content. *)
Theorem delivered_then_persisted
    (get_user_activity : string → option (list activity))
    (delivers : embed → bool) (channel : bool) (i : nat) (a : activity)
    (rest : list activity) (w : world) (htb_id : string)
    (u u' : user_data) (e : embed) :
  in_sync w →
  mem w !! i = Some (htb_id, u) →
  Bot.handle u a = Bot.Fresh u' e →
  let m' := <[i := (htb_id, u')]> (mem w) in
  let saved := World m' m' (trace w ++ [SendEmbed e; SaveDb m']) in
  (if delivers e
   then Bot.process_activity delivers i a w = Ok saved ∧
        Bot.process_activities delivers i (a :: rest) w
        = Bot.process_activities delivers i rest saved ∧
        in_sync saved
   else Bot.process_activities delivers i (a :: rest) w
        = Raise DeliveryFailed (World m' (disk w) (trace w))) ∧
  cycle_post (Bot.check_htb_activity get_user_activity delivers channel w).
Proof.
  intros Hw Hi Hh m' saved. split.
  - pose proof (process_activity_fresh delivers i a w htb_id u u' e Hi Hh) as Hp.
    simpl in Hp. fold m' in Hp. simpl. rewrite Hp.
    by destruct (delivers e).
  - by apply check_htb_activity_post.
Qed.

Lemma delivered_then_persisted_witness :
  let a := Activity 3 (Some "challenge") (Some "challenge") (Some "Templated") in
  let u' := UserData "neo" (Some 42) 0 1 (Some 0) [3] (Some []) (Some []) in
  let e := Embed "neo" Challenge (Some "Templated") 0 1 0 in
  let saved := World [("1337", u')] [("1337", u')]
                     (trace sample_world ++ [SendEmbed e; SaveDb [("1337", u')]]) in
  (Bot.process_activity (λ _, true) 0 a sample_world = Ok saved ∧
   Bot.process_activities (λ _, true) 0 [a] sample_world
   = Bot.process_activities (λ _, true) 0 [] saved ∧
   in_sync saved) ∧
  cycle_post (Bot.check_htb_activity (λ _, Some sample_feed) (λ _, true) true
                                     sample_world).
Proof.
  intros a u' e saved.
  exact (delivered_then_persisted (λ _, Some sample_feed) (λ _, true) true 0 a []
           sample_world "1337" sample_user u' e
           eq_refl eq_refl eq_refl).
Defined.

(** C8, counterexample. The channel refuses the embed of a new challenge:
    the task raises, the counter update is in memory only, and nothing
    was written to the file. *)
Lemma delivery_failure_skips_save :
  let a := Activity 3 (Some "challenge") (Some "challenge") (Some "Templated") in
  let u' := UserData "neo" (Some 42) 0 1 (Some 0) [3] (Some []) (Some []) in
  Bot.check_htb_activity (λ _, Some [a]) (λ _, false) true sample_world
  = Raise DeliveryFailed
      (World [("1337", u')] [("1337", sample_user)] (trace sample_world)) ∧
  disk sample_world = [("1337", sample_user)] ∧
  challenges u' ≠ challenges sample_user.
Proof. vm_compute. split_and!; [reflexivity|reflexivity|discriminate]. Qed.

(** C9, at the failing input. A user registers while their feed already
    shows the user flag of machine 7; the next cycle over the unchanged
    feed handles that event as new and announces it. *)
Theorem historical_user_flag_announced :
  let snapshot := [user_flag_event 7 (Some "Lame")] in
  let w := Track.register "1337" "neo" 42 (Some snapshot) (World [] [] []) in
  let u := Track.new_user "neo" 42 (Some snapshot) in
  let e := Embed "neo" UserFlag (Some "Lame") 0 0 0 in
  Bot.handle u (user_flag_event 7 (Some "Lame"))
  = Bot.Fresh (set_user_flag_ids ["7_user"] u) e ∧
  ∃ w', Bot.check_htb_activity (λ _, Some snapshot) (λ _, true) true w = Ok w' ∧
        trace w' = trace w ++ [SendEmbed e; SaveDb (mem w')].
Proof. vm_compute. split; [reflexivity|]. eexists. split; reflexivity. Qed.

(** X27. What registration does guarantee: the record starts with both
    counters and the streak at 0, seeded ids never move a counter, and
    every seeded event other than a machine's user flag is skipped; a
    cycle over the snapshot announces user flags only. *)
Theorem registration_seeds_counters (htb_name : string) (author : Z)
    (snapshot : list activity) :
  let u := Track.new_user htb_name author (Some snapshot) in
  machines u = 0 ∧ challenges u = 0 ∧ streak u = Some 0 ∧
  (∀ a, a ∈ snapshot → is_user_flag a = false → Bot.handle u a = Bot.Seen) ∧
  ∃ u' es, Bot.ingest u (reverse snapshot) = Some (u', es) ∧
           machines u' = 0 ∧ challenges u' = 0 ∧
           Forall (λ e, e_display e = UserFlag) es.
Proof.
  intros u. split_and!; try done.
  - intros a Ha Hf. apply handle_not_user_flag_seen; [done|].
    change (act_id a ∈ act_id <$> snapshot). by apply list_elem_of_fmap_2.
  - destruct (ingest_seeded (reverse snapshot) u) as (u' & es & Hi & Hm & Hc & _ & He).
    { apply Forall_forall. intros a Ha. rewrite elem_of_reverse in Ha.
      change (act_id a ∈ act_id <$> snapshot). by apply list_elem_of_fmap_2. }
    by exists u', es.
Qed.

(** ** The weekly reset *)

Section ResetFacts.
Import Reset.

Lemma goals_met_iff u :
  goals_met u = true ↔ GOAL_MACHINES ≤ machines u ∧ GOAL_CHALLENGES ≤ challenges u.
Proof. unfold goals_met. rewrite andb_true_iff, !Z.geb_le. done. Qed.

(** The record a user is left with does not depend on the report so far. *)
Lemma reset_user_record u r :
  fst (reset_user u r) =
  UserData (name u) (discord_id u) 0 0
           (Some (if goals_met u then get_streak u + 1 else 0))
           (solved_ids u) (user_flag_ids u) (root_flag_ids u).
Proof. unfold reset_user. by destruct (goals_met u). Qed.

Lemma reset_user_report u r :
  snd (reset_user u r) =
  if goals_met u
  then Report (completed_list r ++ [PassedLine (name u) (get_streak u + 1)])
              (failed_list r) (loser_mentions r)
  else Report (completed_list r)
              (failed_list r ++ [FailedLine (name u) (machines u) (challenges u)])
              (loser_mentions r ++ option_list (discord_id u)).
Proof.
  unfold reset_user. destruct (goals_met u); [done|]. simpl.
  destruct (discord_id u); simpl; [done|]. by rewrite app_nil_r.
Qed.

Lemma reset_loop_spec users : ∀ r,
  fst (reset_loop users r)
  = (λ p, (fst p, fst (reset_user (snd p) (Report [] [] [])))) <$> users ∧
  completed_list (snd (reset_loop users r))
  = completed_list r ++
    omap (λ p, if goals_met (snd p)
               then Some (PassedLine (name (snd p)) (get_streak (snd p) + 1))
               else None) users ∧
  failed_list (snd (reset_loop users r))
  = failed_list r ++
    omap (λ p, if goals_met (snd p) then None
               else Some (FailedLine (name (snd p)) (machines (snd p))
                                     (challenges (snd p)))) users ∧
  loser_mentions (snd (reset_loop users r))
  = loser_mentions r ++
    omap (λ p, if goals_met (snd p) then None else discord_id (snd p)) users.
Proof.
  induction users as [|[uid u] users IH]; intros r.
  - simpl. by rewrite !app_nil_r.
  - simpl. pose proof (reset_user_record u r) as Hrec.
    pose proof (reset_user_report u r) as Hrep.
    destruct (reset_user u r) as [u' r'] eqn:Hu. simpl in Hrec, Hrep.
    specialize (IH r'). destruct (reset_loop users r') as [rest' r''] eqn:Hl.
    simpl in *. destruct IH as (-> & -> & -> & ->).
    rewrite reset_user_record, Hrec. split; [done|].
    rewrite Hrep. destruct (goals_met u); simpl; rewrite <-?app_assoc; try done.
    destruct (discord_id u); simpl; done.
Qed.

Lemma perform_reset_logic_trace w :
  let '(w', r) := perform_reset_logic w in
  in_sync w' ∧
  mem w' = fst (reset_loop (mem w) (Report [] [] [])) ∧
  r = snd (reset_loop (mem w) (Report [] [] [])) ∧
  ∃ tail, trace w' = trace w ++ SaveDb (mem w') :: tail ∧
          Forall (λ f, ∀ s, f ≠ SaveDb s) tail ∧
          Scheduler.reports_sent tail = 1%nat.
Proof.
  unfold perform_reset_logic.
  destruct (reset_loop (mem w) (Report [] [] [])) as [users' r] eqn:Hl.
  destruct (loser_mentions r) as [|m ms] eqn:Hm; simpl.
  - split_and!; try done. eexists [_]. rewrite <-app_assoc. split; [done|].
    split; [|done]. repeat constructor; done.
  - split_and!; try done. eexists [_; _]. rewrite <-!app_assoc. split; [done|].
    split; [|done]. repeat constructor; done.
Qed.
End ResetFacts.

(** C4. One run of the reset leaves every user with both counters at 0;
    a user with [machines >= 1] and [challenges >= 2] gets [streak + 1] and
    a line in the passed list, any other user gets streak 0, a line in the
    failed list and, through their [discord_id], a mention; the ledger is
    saved once, after the last user, and every user is on exactly one of the
    two lists. *)
Theorem perform_reset_logic_spec (w : world) (i : nat) (htb_id : string)
    (u : user_data) :
  mem w !! i = Some (htb_id, u) →
  let w' := fst (Reset.perform_reset_logic w) in
  let r := snd (Reset.perform_reset_logic w) in
  (Reset.goals_met u = true ↔ 1 ≤ machines u ∧ 2 ≤ challenges u) ∧
  (∃ u', mem w' !! i = Some (htb_id, u') ∧
         machines u' = 0 ∧ challenges u' = 0 ∧
         name u' = name u ∧ discord_id u' = discord_id u ∧
         solved_ids u' = solved_ids u ∧ user_flag_ids u' = user_flag_ids u ∧
         root_flag_ids u' = root_flag_ids u ∧
         if Reset.goals_met u
         then streak u' = Some (get_streak u + 1) ∧
              PassedLine (name u) (get_streak u + 1) ∈ Reset.completed_list r
         else streak u' = Some 0 ∧
              FailedLine (name u) (machines u) (challenges u)
                ∈ Reset.failed_list r ∧
              ∀ d, discord_id u = Some d → d ∈ Reset.loser_mentions r) ∧
  (length (Reset.completed_list r) + length (Reset.failed_list r)
   = length (mem w))%nat ∧
  in_sync w' ∧
  ∃ tail, trace w' = trace w ++ SaveDb (mem w') :: tail ∧
          Forall (λ f, ∀ s, f ≠ SaveDb s) tail.
Proof.
  intros Hi w' r. subst w' r.
  pose proof (perform_reset_logic_trace w) as Ht.
  destruct (Reset.perform_reset_logic w) as [w' r]. simpl.
  destruct Ht as (Hsync & Hmem & -> & tail & Htr & Hno & _).
  destruct (reset_loop_spec (mem w) (Reset.Report [] [] [])) as (Hu & Hc & Hf & Hl).
  split; [apply goals_met_iff|]. split_and!.
  - eexists. split.
    { rewrite Hmem, Hu, list_lookup_fmap, Hi. simpl. done. }
    rewrite reset_user_record. simpl. split_and!; try done.
    destruct (Reset.goals_met u) eqn:Hg.
    + split; [done|]. rewrite Hc. simpl. apply list_elem_of_omap.
      exists (htb_id, u). simpl. rewrite Hg. split; [|done].
      by eapply list_elem_of_lookup_2.
    + split_and!; [done|..].
      * rewrite Hf. simpl. apply list_elem_of_omap. exists (htb_id, u). simpl.
        rewrite Hg. split; [|done]. by eapply list_elem_of_lookup_2.
      * intros d Hd. rewrite Hl. simpl. apply list_elem_of_omap.
        exists (htb_id, u). simpl. rewrite Hg. split; [|done].
        by eapply list_elem_of_lookup_2.
  - rewrite Hc, Hf. simpl. clear. induction (mem w) as [|[? v] l IH]; [done|].
    unfold omap in *. simpl. destruct (Reset.goals_met v); simpl; lia.
  - done.
  - by exists tail.
Qed.

(** The first scenario of the spec: counters 1 and 2, streak 3. *)
Lemma perform_reset_logic_spec_witness :
  let u := UserData "neo" (Some 42) 1 2 (Some 3) [7; 3; 9] (Some ["7_user"]) (Some [7]) in
  let w := World [("1337", u)] [("1337", u)] [] in
  let w' := fst (Reset.perform_reset_logic w) in
  let r := snd (Reset.perform_reset_logic w) in
  mem w' = [("1337", UserData "neo" (Some 42) 0 0 (Some 4) [7; 3; 9]
                              (Some ["7_user"]) (Some [7]))] ∧
  Reset.completed_list r = [PassedLine "neo" 4] ∧
  Reset.failed_list r = [] ∧
  ∃ u', mem w' !! 0%nat = Some ("1337", u') ∧ machines u' = 0 ∧ challenges u' = 0.
Proof.
  intros u w w' r. split_and!; try reflexivity.
  destruct (perform_reset_logic_spec w 0 "1337" u eq_refl)
    as (_ & (u' & Hl & Hm & Hc & _) & _).
  by exists u'.
Defined.

(** The second scenario of the spec: one challenge short of the goal. *)
Example reset_scenario_failed :
  let u := UserData "neo" (Some 42) 1 1 (Some 3) [7; 3] (Some ["7_user"]) (Some [7]) in
  let w := World [("1337", u)] [("1337", u)] [] in
  Reset.perform_reset_logic w =
  (let u' := UserData "neo" (Some 42) 0 0 (Some 0) [7; 3] (Some ["7_user"]) (Some [7]) in
   World [("1337", u')] [("1337", u')]
         [SaveDb [("1337", u')];
          SendReport [] [FailedLine "neo" 1 1];
          SendShame [42]],
   Reset.Report [] [FailedLine "neo" 1 1] [42]).
Proof. reflexivity. Qed.

(** The thresholds are not summed: three machines and no challenge fail. *)
Example reset_not_summed :
  Reset.goals_met (UserData "neo" (Some 42) 3 0 (Some 3) [] (Some []) (Some []))
  = false.
Proof. reflexivity. Qed.

(** ** The scheduler *)

Section SchedulerFacts.
Import Scheduler.

Lemma scheduled_weekly_reset_fires now channel w :
  scheduled_weekly_reset now channel w =
  if fires (now, channel) then fst (Reset.perform_reset_logic w) else w.
Proof.
  unfold scheduled_weekly_reset, fires. simpl.
  by destruct (weekday now =? 5), channel.
Qed.

Lemma reports_sent_app t1 t2 :
  reports_sent (t1 ++ t2) = (reports_sent t1 + reports_sent t2)%nat.
Proof. unfold reports_sent. by rewrite List.filter_app, length_app. Qed.

Lemma reset_sends_one_report w :
  reports_sent (trace (fst (Reset.perform_reset_logic w)))
  = S (reports_sent (trace w)).
Proof.
  pose proof (perform_reset_logic_trace w) as H.
  destruct (Reset.perform_reset_logic w) as [w' r]. simpl.
  destruct H as (_ & _ & _ & tail & -> & _ & Hone).
  rewrite reports_sent_app. change (SaveDb (mem w') :: tail) with ([SaveDb (mem w')] ++ tail).
  rewrite reports_sent_app, Hone. unfold reports_sent at 2. simpl. lia.
Qed.

Lemma run_reports ticks : ∀ w,
  reports_sent (trace (run ticks w))
  = (reports_sent (trace w) + length (List.filter fires ticks))%nat.
Proof.
  induction ticks as [|[now channel] ticks IH]; intros w; simpl; [lia|].
  rewrite IH, scheduled_weekly_reset_fires.
  destruct (fires (now, channel)); simpl; [|done].
  rewrite reset_sends_one_report. lia.
Qed.

Lemma resets_on_distinct_days d ticks :
  NoDup ((λ t, ordinal (fst t)) <$> ticks) → (resets_on d ticks ≤ 1)%nat.
Proof.
  unfold resets_on. induction ticks as [|t ticks IH]; simpl; [lia|].
  intros [Hnotin Hnd]%NoDup_cons. specialize (IH Hnd).
  destruct (fires t && (ordinal (fst t) =? d)) eqn:Ht; [|done]. simpl.
  apply andb_true_iff in Ht as [_ Hd%Z.eqb_eq].
  replace (List.filter _ ticks) with (@nil (datetime * bool)); [simpl; lia|].
  symmetry. clear IH Hnd. induction ticks as [|t' ticks IH]; [done|]. simpl.
  apply not_elem_of_cons in Hnotin as [Hne Hnotin].
  destruct (ordinal (fst t') =? d) eqn:Hd'.
  - apply Z.eqb_eq in Hd'. congruence.
  - rewrite andb_false_r. by apply IH.
Qed.

Lemma resets_on_other_weekday d ticks :
  (d + 6) mod 7 ≠ 5 → resets_on d ticks = 0%nat.
Proof.
  intros Hd. unfold resets_on. induction ticks as [|t ticks IH]; [done|]. simpl.
  destruct (fires t && (ordinal (fst t) =? d)) eqn:Ht; [|done].
  apply andb_true_iff in Ht as [Hf Ho%Z.eqb_eq]. unfold fires, weekday in Hf.
  apply andb_true_iff in Hf as [Hw%Z.eqb_eq _]. by rewrite Ho in Hw.
Qed.
End SchedulerFacts.

(** C5 (as amended). The body of the scheduled task keeps no last-fired
    date and does not look at the time of day: an invocation performs the
    reset exactly when the Athens weekday is Saturday and the channel is
    found. Run on pairwise distinct calendar days, as the daily 21:00
    schedule of the task library does, it resets at most once on any day and
    never on a day that is not a Saturday; each reset sends one report. *)
Theorem reset_at_most_once_per_scheduled_day
    (ticks : list (Scheduler.datetime * bool)) (w : world) (d : Z) :
  NoDup ((λ t, Scheduler.ordinal (fst t)) <$> ticks) →
  (∀ now channel w0,
     Scheduler.scheduled_weekly_reset now channel w0 =
     if (Scheduler.weekday now =? 5) && channel
     then fst (Reset.perform_reset_logic w0) else w0) ∧
  (resets_on d ticks ≤ 1)%nat ∧
  ((d + 6) mod 7 ≠ 5 → resets_on d ticks = 0%nat) ∧
  Scheduler.reports_sent (trace (Scheduler.run ticks w))
  = (Scheduler.reports_sent (trace w)
     + length (List.filter Scheduler.fires ticks))%nat.
Proof.
  intros Hnd. split_and!.
  - intros. apply scheduled_weekly_reset_fires.
  - by apply resets_on_distinct_days.
  - apply resets_on_other_weekday.
  - apply run_reports.
Qed.

(** Friday 6, Saturday 7 and Sunday 8 November 2026 at 21:00. *)
Lemma reset_at_most_once_per_scheduled_day_witness :
  let ticks := [ (Scheduler.DateTime 739926 21 0, true);
                 (Scheduler.DateTime 739927 21 0, true);
                 (Scheduler.DateTime 739928 21 0, true) ] in
  (resets_on 739927 ticks ≤ 1)%nat ∧
  Scheduler.reports_sent (trace (Scheduler.run ticks sample_world))
  = (Scheduler.reports_sent (trace sample_world) + 1)%nat.
Proof.
  intros ticks.
  assert (NoDup ((λ t, Scheduler.ordinal (fst t)) <$> ticks)) as Hnd.
  { apply (bool_decide_unpack _). vm_compute. exact I. }
  destruct (reset_at_most_once_per_scheduled_day ticks sample_world 739927 Hnd)
    as (_ & Hle & _ & Hrep).
  split; [exact Hle | exact Hrep].
Defined.

(** C5, counterexample. Two invocations on the same Saturday, at 21:00 and
    at 21:01: nothing recorded by the first stops the second, the reset
    runs twice and the streak earned by the first is cleared by the
    second. *)
Lemma same_day_ticks_fire_twice :
  let u := UserData "neo" (Some 42) 1 2 (Some 3) [7] (Some []) (Some [7]) in
  let w := World [("1337", u)] [("1337", u)] [] in
  let ticks := [ (Scheduler.DateTime 739927 21 0, true);
                 (Scheduler.DateTime 739927 21 1, true) ] in
  resets_on 739927 ticks = 2%nat ∧
  Scheduler.reports_sent (trace (Scheduler.run ticks w)) = 2%nat ∧
  mem (Scheduler.run [(Scheduler.DateTime 739927 21 0, true)] w)
  = [("1337", UserData "neo" (Some 42) 0 0 (Some 4) [7] (Some []) (Some [7]))] ∧
  mem (Scheduler.run ticks w)
  = [("1337", UserData "neo" (Some 42) 0 0 (Some 0) [7] (Some []) (Some [7]))].
Proof. vm_compute. done. Qed.

(** ** Reconciliation: what the scan of the history collects *)

Section ScanFacts.
Import UpdateRootFlags.

Lemma is_challenge_not_root a : is_challenge a = true → is_root_flag a = false.
Proof.
  unfold is_challenge, is_root_flag, Bot.is_str.
  intros H%bool_decide_eq_true. rewrite H. done.
Qed.

Lemma visit_spec S M rf ch a :
  visit S M (rf, ch) a =
  (if is_root_flag a && bool_decide (act_id a ∈ S) && bool_decide (act_id a ∉ M)
   then <[act_id a := act_name a]> rf else rf,
   if is_challenge a && bool_decide (act_id a ∈ S)
   then {[act_id a]} ∪ ch else ch).
Proof.
  unfold visit. fold (is_root_flag a) (is_challenge a).
  destruct (is_root_flag a) eqn:Hr; simpl.
  - destruct (is_challenge a) eqn:Hc.
    { apply is_challenge_not_root in Hc. congruence. }
    simpl. by destruct (bool_decide (act_id a ∈ S) && bool_decide (act_id a ∉ M)).
  - destruct (is_challenge a); simpl; [|done].
    by destruct (bool_decide (act_id a ∈ S)).
Qed.

Lemma foldl_visit_spec S M acts : ∀ rf ch,
  let r := foldl (visit S M) (rf, ch) acts in
  (∀ x, x ∈ dom (fst r) ↔
        x ∈ dom rf ∨
        ∃ a, a ∈ acts ∧ is_root_flag a = true ∧ act_id a = x ∧ x ∈ S ∧ x ∉ M) ∧
  (∀ x, x ∈ snd r ↔
        x ∈ ch ∨
        ∃ a, a ∈ acts ∧ is_challenge a = true ∧ act_id a = x ∧ x ∈ S).
Proof.
  induction acts as [|a acts IH]; intros rf ch; cbn [foldl].
  - simpl. split; intros x; split; try tauto.
    + intros [?|(a & Ha & _)]; [done|]. by apply elem_of_nil in Ha.
    + intros [?|(a & Ha & _)]; [done|]. by apply elem_of_nil in Ha.
  - rewrite visit_spec.
    match goal with |- context [foldl _ (?rf', ?ch') acts] =>
      destruct (IH rf' ch') as [Hrf Hch] end.
    split; intros x.
    + rewrite Hrf. clear Hrf Hch IH.
      destruct (is_root_flag a && bool_decide (act_id a ∈ S)
                && bool_decide (act_id a ∉ M)) eqn:Hq.
      * apply andb_true_iff in Hq as [[Hr Hs%bool_decide_eq_true]%andb_true_iff
                                        Hm%bool_decide_eq_true].
        rewrite dom_insert_L, elem_of_union, elem_of_singleton. split.
        -- intros [[->|?]|(b & Hb & ?)]; [right|by left|right].
           ++ exists a. split_and!; try done. apply elem_of_cons. by left.
           ++ exists b. split; [|done]. apply elem_of_cons. by right.
        -- intros [?|(b & [->|Hb]%elem_of_cons & Hrb & <- & ?)].
           ++ left. by right.
           ++ left. by left.
           ++ right. by exists b.
      * split.
        -- intros [?|(b & Hb & ?)]; [by left|right].
           exists b. split; [|done]. apply elem_of_cons. by right.
        -- intros [?|(b & [->|Hb]%elem_of_cons & Hrb & <- & Hs & Hm)]; [by left|..].
           ++ rewrite Hrb in Hq. simpl in Hq.
              rewrite (bool_decide_eq_true_2 _ Hs), (bool_decide_eq_true_2 _ Hm) in Hq.
              done.
           ++ right. by exists b.
    + rewrite Hch. clear Hrf Hch IH.
      destruct (is_challenge a && bool_decide (act_id a ∈ S)) eqn:Hq.
      * apply andb_true_iff in Hq as [Hc Hs%bool_decide_eq_true].
        rewrite elem_of_union, elem_of_singleton. split.
        -- intros [[->|?]|(b & Hb & ?)]; [right|by left|right].
           ++ exists a. split_and!; try done. apply elem_of_cons. by left.
           ++ exists b. split; [|done]. apply elem_of_cons. by right.
        -- intros [?|(b & [->|Hb]%elem_of_cons & Hcb & <- & ?)].
           ++ left. by right.
           ++ left. by left.
           ++ right. by exists b.
      * split.
        -- intros [?|(b & Hb & ?)]; [by left|right].
           exists b. split; [|done]. apply elem_of_cons. by right.
        -- intros [?|(b & [->|Hb]%elem_of_cons & Hcb & <- & Hs)]; [by left|..].
           ++ rewrite Hcb in Hq. simpl in Hq.
              rewrite (bool_decide_eq_true_2 _ Hs) in Hq. done.
           ++ right. by exists b.
Qed.

(** The two collections of lines 86-101 in terms of the history. *)
Lemma scan_history_root_flags u acts x :
  x ∈ dom (fst (scan_history u acts)) ↔
  ∃ a, a ∈ acts ∧ qualifies u a = true ∧ act_id a = x.
Proof.
  unfold scan_history.
  destruct (foldl_visit_spec (list_to_set (solved_ids u))
              (user_flag_machine_ids (get_user_flag_ids u)) acts ∅ ∅) as [H _].
  rewrite H. rewrite dom_empty_L. split.
  - intros [?|(a & Ha & Hr & <- & Hs & Hm)]; [set_solver|].
    exists a. split_and!; try done. unfold qualifies. rewrite Hr. simpl.
    rewrite elem_of_list_to_set in Hs.
    by rewrite (bool_decide_eq_true_2 _ Hs), (bool_decide_eq_true_2 _ Hm).
  - intros (a & Ha & Hq & <-). right. exists a. unfold qualifies in Hq.
    apply andb_true_iff in Hq as [[Hr Hs%bool_decide_eq_true]%andb_true_iff
                                    Hm%bool_decide_eq_true].
    split_and!; try done. by apply elem_of_list_to_set.
Qed.

Lemma scan_history_challenges u acts x :
  x ∈ snd (scan_history u acts) ↔
  ∃ a, a ∈ acts ∧ is_challenge a = true ∧ act_id a = x ∧ x ∈ solved_ids u.
Proof.
  unfold scan_history.
  destruct (foldl_visit_spec (list_to_set (solved_ids u))
              (user_flag_machine_ids (get_user_flag_ids u)) acts ∅ ∅) as [_ H].
  rewrite H. split.
  - intros [?|(a & Ha & Hc & <- & Hs)]; [set_solver|].
    exists a. split_and!; try done. by apply elem_of_list_to_set in Hs.
  - intros (a & Ha & Hc & <- & Hs). right. exists a.
    split_and!; try done. by apply elem_of_list_to_set.
Qed.

(** The scan reads [solved_ids] and [user_flag_ids] only. *)
Lemma scan_history_ext u v acts :
  solved_ids u = solved_ids v → user_flag_ids u = user_flag_ids v →
  scan_history u acts = scan_history v acts.
Proof.
  intros Hs Hf. unfold scan_history, get_user_flag_ids. by rewrite Hs, Hf.
Qed.
End ScanFacts.

(** ** Reconciliation: the update of one user *)

Section UpdateFacts.
Import UpdateRootFlags.

Lemma sorted_keys_elem_of rf x : x ∈ sorted_keys rf ↔ x ∈ dom rf.
Proof. unfold sorted_keys. by rewrite sorted_elem_of, elem_of_elements. Qed.

Lemma sorted_keys_NoDup rf : NoDup (sorted_keys rf).
Proof. unfold sorted_keys. apply sorted_NoDup, NoDup_elements. Qed.

Lemma sorted_keys_length rf : length (sorted_keys rf) = size (dom rf).
Proof. unfold sorted_keys. by rewrite sorted_length. Qed.

Lemma sorted_keys_sorted rf : Py.sorted (sorted_keys rf) = sorted_keys rf.
Proof. apply sorted_idem. Qed.

Lemma sorted_keys_nonempty rf : rf ≠ ∅ → sorted_keys rf ≠ [].
Proof.
  intros Hne Hnil. apply Hne. apply dom_empty_iff_L, leibniz_equiv, size_empty_iff.
  by rewrite <-sorted_keys_length, Hnil.
Qed.

Lemma sorted_nil_inv l : Py.sorted l = [] → l = [].
Proof.
  intros H. apply length_zero_iff_nil. by rewrite <-sorted_length, H.
Qed.

Lemma ensure_root_flag_ids_spec u :
  is_Some (root_flag_ids (ensure_root_flag_ids u)) ∧
  get_root_flag_ids (ensure_root_flag_ids u) = get_root_flag_ids u ∧
  name (ensure_root_flag_ids u) = name u ∧
  discord_id (ensure_root_flag_ids u) = discord_id u ∧
  machines (ensure_root_flag_ids u) = machines u ∧
  challenges (ensure_root_flag_ids u) = challenges u ∧
  streak (ensure_root_flag_ids u) = streak u ∧
  solved_ids (ensure_root_flag_ids u) = solved_ids u ∧
  user_flag_ids (ensure_root_flag_ids u) = user_flag_ids u.
Proof.
  unfold ensure_root_flag_ids, get_root_flag_ids.
  destruct (root_flag_ids u) eqn:H; simpl; rewrite ?H; eauto 10.
Qed.

Lemma ensure_root_flag_ids_id u :
  is_Some (root_flag_ids u) → ensure_root_flag_ids u = u.
Proof. unfold ensure_root_flag_ids. by intros [? ->]. Qed.

(** Lines 106-136 touch [root_flag_ids] and [machines] only, and leave
    them as the scan dictates. *)
Lemma update_machines_spec rf u :
  let u1 := fst (update_machines rf u) in
  name u1 = name u ∧ discord_id u1 = discord_id u ∧
  challenges u1 = challenges u ∧ streak u1 = streak u ∧
  solved_ids u1 = solved_ids u ∧ user_flag_ids u1 = user_flag_ids u ∧
  (is_Some (root_flag_ids u) → is_Some (root_flag_ids u1)) ∧
  if bool_decide (rf ≠ ∅)
  then Py.sorted (get_root_flag_ids u1) = sorted_keys rf ∧
       machines u1 = Z.of_nat (length (sorted_keys rf))
  else get_root_flag_ids u1 = [] ∧
       machines u1 = (if machines u >? 0 then 0 else machines u).
Proof.
  destruct u as [nm di m c st so uf rfi]. unfold update_machines.
  destruct (bool_decide (rf ≠ ∅)); simpl.
  - destruct (bool_decide (sorted_keys rf ≠ Py.sorted (get_root_flag_ids _))) eqn:Hd;
      simpl.
    + destruct (bool_decide (m ≠ _)) eqn:Hm; simpl;
        unfold get_root_flag_ids; simpl; rewrite sorted_keys_sorted;
        split_and!; try done.
      apply bool_decide_eq_false in Hm. by apply dec_stable.
    + apply bool_decide_eq_false in Hd. apply dec_stable in Hd.
      destruct (bool_decide (m ≠ _)) eqn:Hm; simpl; split_and!; try done.
      apply bool_decide_eq_false in Hm. by apply dec_stable.
  - unfold get_root_flag_ids. simpl.
    destruct rfi as [[|x l]|]; simpl; destruct (m >? 0); simpl;
      split_and!; try done; eauto.
Qed.

(** A record that already is as the scan dictates is left alone. *)
Lemma update_machines_settled rf u :
  is_Some (root_flag_ids u) →
  (if bool_decide (rf ≠ ∅)
   then Py.sorted (get_root_flag_ids u) = sorted_keys rf ∧
        machines u = Z.of_nat (length (sorted_keys rf))
   else get_root_flag_ids u = [] ∧ machines u ≤ 0) →
  update_machines rf u = (u, false).
Proof.
  intros [l Hl]. unfold update_machines.
  destruct (bool_decide (rf ≠ ∅)).
  - intros [Hs Hm]. rewrite Hs.
    rewrite bool_decide_eq_false_2 by (intros H; by apply H). simpl.
    by rewrite bool_decide_eq_false_2 by (intros H; by apply H).
  - intros [Hr Hm]. rewrite Hr.
    destruct (machines u >? 0) eqn:Hg; [|done].
    apply Z.gtb_lt in Hg. lia.
Qed.

Lemma update_challenges_spec ch u :
  let u2 := fst (update_challenges ch u) in
  name u2 = name u ∧ discord_id u2 = discord_id u ∧
  machines u2 = machines u ∧ streak u2 = streak u ∧
  solved_ids u2 = solved_ids u ∧ user_flag_ids u2 = user_flag_ids u ∧
  root_flag_ids u2 = root_flag_ids u ∧
  challenges u2 = Z.of_nat (size ch).
Proof.
  unfold update_challenges.
  destruct (bool_decide (challenges u ≠ _)) eqn:Hc; simpl; split_and!; try done.
  apply bool_decide_eq_false in Hc. by apply dec_stable.
Qed.

Lemma update_challenges_settled ch u :
  challenges u = Z.of_nat (size ch) → update_challenges ch u = (u, false).
Proof.
  intros H. unfold update_challenges.
  by rewrite bool_decide_eq_false_2 by (intros Hn; by apply Hn).
Qed.
End UpdateFacts.

Section ReconcileUserFacts.
Import UpdateRootFlags.

Lemma scan_history_ensure u acts :
  scan_history (ensure_root_flag_ids u) acts = scan_history u acts.
Proof.
  destruct (ensure_root_flag_ids_spec u) as (_ & _ & _ & _ & _ & _ & _ & Hs & Hf).
  by apply scan_history_ext.
Qed.

(** A failed or empty fetch: lines 82-84 skip the user. *)
Lemma reconcile_user_skipped u fetched :
  fetched = None ∨ fetched = Some [] →
  reconcile_user u fetched = Outcome (ensure_root_flag_ids u) false None.
Proof. by intros [-> | ->]. Qed.

(** A fetched, non-empty history: what the pass leaves in the record. *)
Lemma reconcile_user_fetched u activities :
  activities ≠ [] →
  let rf := fst (scan_history u activities) in
  let ch := snd (scan_history u activities) in
  let o := reconcile_user u (Some activities) in
  name (o_user o) = name u ∧ discord_id (o_user o) = discord_id u ∧
  streak (o_user o) = streak u ∧ solved_ids (o_user o) = solved_ids u ∧
  user_flag_ids (o_user o) = user_flag_ids u ∧
  is_Some (root_flag_ids (o_user o)) ∧
  challenges (o_user o) = Z.of_nat (size ch) ∧
  o_root_flags o = (if bool_decide (rf ≠ ∅) then Some rf else None) ∧
  if bool_decide (rf ≠ ∅)
  then Py.sorted (get_root_flag_ids (o_user o)) = sorted_keys rf ∧
       machines (o_user o) = Z.of_nat (length (sorted_keys rf))
  else get_root_flag_ids (o_user o) = [] ∧
       machines (o_user o) = (if machines u >? 0 then 0 else machines u).
Proof.
  intros Hne rf ch o. subst rf ch o. unfold reconcile_user.
  destruct activities as [|a acts]; [done|].
  rewrite scan_history_ensure.
  destruct (scan_history u (a :: acts)) as [rf ch]. simpl fst. simpl snd.
  destruct (ensure_root_flag_ids_spec u)
    as (Hsome & Hget & Hn & Hd & Hm & Hc & Hst & Hso & Huf).
  pose proof (update_machines_spec rf (ensure_root_flag_ids u)) as H1.
  destruct (update_machines rf (ensure_root_flag_ids u)) as [u1 n1].
  pose proof (update_challenges_spec ch u1) as H2.
  destruct (update_challenges ch u1) as [u2 n2]. simpl in *.
  destruct H1 as (? & ? & ? & ? & ? & ? & Hs1 & Hrf).
  destruct H2 as (? & ? & Hm2 & ? & ? & ? & Hr2 & ?).
  split_and!; try congruence.
  - rewrite Hr2. by apply Hs1.
  - unfold get_root_flag_ids in *. rewrite Hr2, Hm2.
    destruct (bool_decide (rf ≠ ∅)); [done|]. by rewrite <-Hm.
Qed.

(** Running the pass again on its own result changes nothing. *)
Lemma reconcile_user_settled u fetched :
  let o := reconcile_user u fetched in
  reconcile_user (o_user o) fetched = Outcome (o_user o) false (o_root_flags o).
Proof.
  intros o. subst o. destruct fetched as [[|a acts]|].
  - simpl. rewrite ensure_root_flag_ids_id; [done|].
    apply ensure_root_flag_ids_spec.
  - assert (a :: acts ≠ []) as Hne by done.
    pose proof (reconcile_user_fetched u (a :: acts) Hne) as H. cbv zeta in H.
    destruct H as (_ & _ & _ & Hso & Huf & Hsome & Hch & Hrfs & Hrf).
    set (u' := o_user (reconcile_user u (Some (a :: acts)))) in *.
    rewrite Hrfs. unfold reconcile_user at 1.
    rewrite (ensure_root_flag_ids_id u' Hsome).
    rewrite (scan_history_ext u' u (a :: acts) Hso Huf).
    destruct (scan_history u (a :: acts)) as [rf ch]. simpl in *.
    rewrite update_machines_settled; [|done|].
    + by rewrite update_challenges_settled.
    + destruct (bool_decide (rf ≠ ∅)); [done|]. destruct Hrf as [-> ->].
      split; [done|]. destruct (machines u >? 0) eqn:Hg; [done|].
      rewrite Z.gtb_ltb in Hg. by apply Z.ltb_ge in Hg.
  - simpl. rewrite ensure_root_flag_ids_id; [done|].
    apply ensure_root_flag_ids_spec.
Qed.
End ReconcileUserFacts.

(** ** Reconciliation: the job over the ledger *)

Section JobFacts.
Import UpdateRootFlags.
Variable get_user_activity : string → option (list activity).

(** Every user is reconciled against their own fetch, whatever happened to
    the users before them. *)
Lemma reconcile_loop_users users :
  (reconcile_loop get_user_activity users).1.1
  = (λ p, (fst p, o_user (reconcile_user (snd p) (get_user_activity (fst p)))))
      <$> users.
Proof.
  induction users as [|[htb_id u] users IH]; [done|]. simpl.
  destruct (reconcile_loop get_user_activity users) as [[rest' n] d].
  simpl in *. by rewrite IH.
Qed.

Lemma reconcile_loop_settled users :
  (reconcile_loop get_user_activity
     (reconcile_loop get_user_activity users).1.1).1
  = ((reconcile_loop get_user_activity users).1.1, 0%nat).
Proof.
  induction users as [|[htb_id u] users IH]; [done|]. simpl.
  destruct (reconcile_loop get_user_activity users) as [[rest' n] d].
  simpl in *.
  destruct (reconcile_loop get_user_activity rest') as [[rest'' n'] d'].
  simpl in *. injection IH as -> ->.
  by rewrite reconcile_user_settled.
Qed.
End JobFacts.

Section JobWorld.
Import UpdateRootFlags.
Variable get_user_activity : string → option (list activity).

Lemma check_root_flags_manual_mem w :
  mem (check_root_flags_manual get_user_activity w)
  = (λ p, (fst p, o_user (reconcile_user (snd p) (get_user_activity (fst p)))))
      <$> mem w.
Proof.
  unfold check_root_flags_manual. destruct (mem w) as [|p users] eqn:Hm.
  - by rewrite Hm.
  - rewrite <-reconcile_loop_users.
    destruct (reconcile_loop get_user_activity (p :: users)) as [[users' n] d].
    by destruct (0 <? n)%nat.
Qed.

Lemma check_root_flags_manual_lookup w i htb_id u :
  mem w !! i = Some (htb_id, u) →
  mem (check_root_flags_manual get_user_activity w) !! i
  = Some (htb_id, o_user (reconcile_user u (get_user_activity htb_id))).
Proof.
  intros Hi. by rewrite check_root_flags_manual_mem, list_lookup_fmap, Hi.
Qed.
End JobWorld.

(** C7. A second run of the job against the same history changes nothing:
    no user record, no write to the file. *)
Theorem check_root_flags_manual_idempotent
    (get_user_activity : string → option (list activity)) (w : world) :
  UpdateRootFlags.check_root_flags_manual get_user_activity
    (UpdateRootFlags.check_root_flags_manual get_user_activity w)
  = UpdateRootFlags.check_root_flags_manual get_user_activity w.
Proof.
  unfold UpdateRootFlags.check_root_flags_manual at 2 3.
  destruct (mem w) as [|p users] eqn:Hm.
  - unfold UpdateRootFlags.check_root_flags_manual. by rewrite Hm.
  - pose proof (reconcile_loop_settled get_user_activity (p :: users)) as Hs.
    pose proof (reconcile_loop_users get_user_activity (p :: users)) as Hu.
    destruct (UpdateRootFlags.reconcile_loop get_user_activity (p :: users))
      as [[users' n] d].
    simpl in Hs, Hu.
    assert (∀ w', mem w' = users' →
              UpdateRootFlags.check_root_flags_manual get_user_activity w' = w')
      as Hfix.
    { intros [m dk tr] Hw'. simpl in Hw'. subst m.
      unfold UpdateRootFlags.check_root_flags_manual. cbn [mem disk trace].
      destruct users' as [|q rest]; [done|].
      destruct (UpdateRootFlags.reconcile_loop get_user_activity (q :: rest))
        as [[users'' n'] d'].
      simpl in Hs. by injection Hs as -> ->. }
    destruct (0 <? n)%nat; by apply Hfix.
Qed.

(** C6 (as amended). After a pass over a user whose history was fetched and
    is not empty (a user whose fetch fails or is empty is skipped), with a
    machine counter that was not negative: [machines] is the number of ids
    in [root_flag_ids], which holds each id once and exactly the ids of the
    root flags the scan kept, and [challenges] is the number of distinct
    ids of challenges in the history that are in [solved_ids]. *)
Theorem reconciled_counters
    (get_user_activity : string → option (list activity)) (w : world)
    (i : nat) (htb_id : string) (u : user_data) (activities : list activity) :
  mem w !! i = Some (htb_id, u) →
  get_user_activity htb_id = Some activities →
  activities ≠ [] →
  0 ≤ machines u →
  ∃ u' (challenge_ids : gset Z),
    mem (UpdateRootFlags.check_root_flags_manual get_user_activity w) !! i
    = Some (htb_id, u') ∧
    machines u' = Z.of_nat (length (get_root_flag_ids u')) ∧
    NoDup (get_root_flag_ids u') ∧
    (∀ x, x ∈ get_root_flag_ids u' ↔
          ∃ a, a ∈ activities ∧ qualifies u a = true ∧ act_id a = x) ∧
    challenges u' = Z.of_nat (size challenge_ids) ∧
    (∀ x, x ∈ challenge_ids ↔
          ∃ a, a ∈ activities ∧ is_challenge a = true ∧ act_id a = x ∧
               x ∈ solved_ids u).
Proof.
  intros Hi Hf Hne Hm.
  exists (UpdateRootFlags.o_user (UpdateRootFlags.reconcile_user u (Some activities))),
         (snd (UpdateRootFlags.scan_history u activities)).
  split.
  { by rewrite (check_root_flags_manual_lookup _ _ _ _ _ Hi), Hf. }
  pose proof (reconcile_user_fetched u activities Hne) as H. cbv zeta in H.
  destruct H as (_ & _ & _ & _ & _ & _ & Hch & _ & Hrf).
  set (u' := UpdateRootFlags.o_user _) in *.
  set (rf := fst (UpdateRootFlags.scan_history u activities)) in *.
  assert (∀ x, x ∈ dom rf ↔
               ∃ a, a ∈ activities ∧ qualifies u a = true ∧ act_id a = x) as Hdom.
  { intros x. apply scan_history_root_flags. }
  split_and!.
  - destruct (bool_decide (rf ≠ ∅)).
    + destruct Hrf as [Hs ->]. by rewrite <-Hs, sorted_length.
    + destruct Hrf as [-> ->]. simpl. destruct (machines u >? 0) eqn:Hg; [done|].
      rewrite Z.gtb_ltb in Hg. apply Z.ltb_ge in Hg. lia.
  - destruct (bool_decide (rf ≠ ∅)).
    + destruct Hrf as [Hs _]. apply sorted_NoDup. rewrite Hs.
      apply sorted_keys_NoDup.
    + destruct Hrf as [-> _]. constructor.
  - intros x. rewrite <-Hdom. destruct (bool_decide (rf ≠ ∅)) eqn:Hd.
    + destruct Hrf as [Hs _].
      by rewrite <-sorted_keys_elem_of, <-Hs, sorted_elem_of.
    + destruct Hrf as [-> _]. apply bool_decide_eq_false in Hd.
      apply dec_stable in Hd. rewrite Hd, dom_empty_L.
      split; [by intros ?%elem_of_nil | by intros ?%not_elem_of_empty].
  - done.
  - intros x. apply scan_history_challenges.
Qed.

Lemma reconciled_counters_witness :
  let u := UserData "neo" (Some 42) 0 0 (Some 1) [7; 3; 9] (Some []) (Some []) in
  let w := World [("1337", u)] [("1337", u)] [] in
  ∃ u' (challenge_ids : gset Z),
    mem (UpdateRootFlags.check_root_flags_manual (λ _, Some sample_feed) w) !! 0%nat
    = Some ("1337", u') ∧
    machines u' = Z.of_nat (length (get_root_flag_ids u')) ∧
    challenges u' = Z.of_nat (size challenge_ids).
Proof.
  intros u w.
  destruct (reconciled_counters (λ _, Some sample_feed) w 0 "1337" u sample_feed)
    as (u' & ch & Hl & Hm & _ & _ & Hc & _); try done.
  by exists u', ch.
Defined.

(** C6, counterexample. A root flag is counted, the weekly reset zeroes the
    counter and keeps [root_flag_ids], and the job then runs while the
    platform cannot be reached: the pass leaves 0 machines against one
    recorded root flag. *)
Lemma skipped_pass_keeps_mismatch :
  let feed := [root_flag_event 7 (Some "Lame")] in
  ∃ w1 w3 u,
    Bot.check_htb_activity (λ _, Some feed) (λ _, true) true sample_world = Ok w1 ∧
    UpdateRootFlags.check_root_flags_manual (λ _, None)
      (fst (Reset.perform_reset_logic w1)) = w3 ∧
    mem w3 = [("1337", u)] ∧
    machines u = 0 ∧ get_root_flag_ids u = [7] ∧
    machines u ≠ Z.of_nat (length (get_root_flag_ids u)).
Proof.
  intros feed. eexists _, _, _. split; [vm_compute; reflexivity|].
  split; [vm_compute; reflexivity|]. vm_compute. split_and!; try reflexivity.
  discriminate.
Qed.

(** C10. A user whose fetch fails or is empty keeps their counters and
    flag sets (an absent [root_flag_ids] key only becomes the empty list);
    every user of the ledger is still reconciled against their own fetch;
    and the job zeroes a machine counter or empties a root-flag list only
    after a fetched, non-empty history in which no root flag qualifies. *)
Theorem failed_fetch_leaves_user
    (get_user_activity : string → option (list activity)) (w : world)
    (i : nat) (htb_id : string) (u : user_data) :
  mem w !! i = Some (htb_id, u) →
  let w' := UpdateRootFlags.check_root_flags_manual get_user_activity w in
  (∀ j htb_id2 u2,
     mem w !! j = Some (htb_id2, u2) →
     mem w' !! j
     = Some (htb_id2, UpdateRootFlags.o_user
                        (UpdateRootFlags.reconcile_user u2
                           (get_user_activity htb_id2)))) ∧
  ∃ u', mem w' !! i = Some (htb_id, u') ∧
    (get_user_activity htb_id = None ∨ get_user_activity htb_id = Some [] →
       machines u' = machines u ∧ challenges u' = challenges u ∧
       get_root_flag_ids u' = get_root_flag_ids u ∧
       solved_ids u' = solved_ids u ∧ user_flag_ids u' = user_flag_ids u ∧
       streak u' = streak u ∧ name u' = name u ∧
       discord_id u' = discord_id u ∧
       UpdateRootFlags.o_needs_update
         (UpdateRootFlags.reconcile_user u (get_user_activity htb_id)) = false) ∧
    ((machines u' = 0 ∧ machines u ≠ 0) ∨
     (get_root_flag_ids u' = [] ∧ get_root_flag_ids u ≠ []) →
       ∃ activities, get_user_activity htb_id = Some activities ∧
                     activities ≠ [] ∧
                     ∀ a, a ∈ activities → qualifies u a = false).
Proof.
  intros Hi w'. subst w'. split.
  { intros j htb_id2 u2 Hj. by apply check_root_flags_manual_lookup. }
  eexists. split; [by apply check_root_flags_manual_lookup|].
  destruct (ensure_root_flag_ids_spec u)
    as (_ & Hget & Hn & Hd & Hm & Hc & Hst & Hso & Huf).
  split.
  - intros Hskip. rewrite (reconcile_user_skipped u _ Hskip). simpl.
    split_and!; done.
  - intros Hzero.
    destruct (get_user_activity htb_id) as [[|a acts]|] eqn:Hf.
    + simpl in Hzero. rewrite Hget, Hm in Hzero.
      by destruct Hzero as [[? ?]|[? ?]].
    + exists (a :: acts). split_and!; try done.
      assert (a :: acts ≠ []) as Hne by done.
      pose proof (reconcile_user_fetched u (a :: acts) Hne) as H. cbv zeta in H.
      destruct H as (_ & _ & _ & _ & _ & _ & _ & _ & Hrf).
      set (u' := UpdateRootFlags.o_user _) in *.
      destruct (bool_decide (fst (UpdateRootFlags.scan_history u (a :: acts)) ≠ ∅))
        eqn:Hd'.
      * apply bool_decide_eq_true in Hd'.
        pose proof (sorted_keys_nonempty _ Hd') as Hk.
        destruct Hrf as [Hs Hmac]. exfalso.
        destruct Hzero as [[Hz _]|[Hz _]].
        -- rewrite Hmac in Hz. destruct (UpdateRootFlags.sorted_keys _); [done|].
           simpl in Hz. lia.
        -- rewrite Hz in Hs. apply Hk. rewrite <-Hs.
           apply length_zero_iff_nil. by rewrite sorted_length.
      * apply bool_decide_eq_false in Hd'. apply dec_stable in Hd'.
        intros b Hb. destruct (qualifies u b) eqn:Hq; [|done]. exfalso.
        assert (act_id b ∈ dom (fst (UpdateRootFlags.scan_history u (a :: acts))))
          as Hin by (apply scan_history_root_flags; by exists b).
        rewrite Hd', dom_empty_L in Hin. by apply not_elem_of_empty in Hin.
    + simpl in Hzero. rewrite Hget, Hm in Hzero.
      by destruct Hzero as [[? ?]|[? ?]].
Qed.

Lemma failed_fetch_leaves_user_witness :
  let u := UserData "neo" (Some 42) 1 2 (Some 1) [7; 3] (Some []) (Some [7]) in
  let v := UserData "trinity" (Some 43) 0 0 (Some 0) [3] (Some []) (Some []) in
  let w := World [("1337", u); ("1338", v)] [("1337", u); ("1338", v)] [] in
  let fetch := λ id : string, if String.eqb id "1337" then None else Some sample_feed in
  let w' := UpdateRootFlags.check_root_flags_manual fetch w in
  mem w' !! 1%nat
  = Some ("1338", UpdateRootFlags.o_user
                    (UpdateRootFlags.reconcile_user v (fetch "1338"))) ∧
  ∃ u', mem w' !! 0%nat = Some ("1337", u') ∧
        machines u' = 1 ∧ challenges u' = 2 ∧ get_root_flag_ids u' = [7].
Proof.
  intros u v w fetch w'.
  destruct (failed_fetch_leaves_user fetch w 0 "1337" u eq_refl)
    as (Hall & u' & Hl & Hskip & _).
  split; [exact (Hall 1%nat "1338" v eq_refl)|].
  exists u'. split; [exact Hl|].
  destruct (Hskip (or_introl eq_refl)) as (Hm & Hc & Hr & _).
  by rewrite Hm, Hc, Hr.
Defined.

(** ** Ingestion followed by reconciliation *)

Section IngestThenReconcile.
Import Bot.


Lemma handle_records u a :
  match handle u a with
  | Seen => is_user_flag a = false → act_id a ∈ solved_ids u
  | Fault _ => True
  | Fresh u' _ =>
      (∀ x, x ∈ solved_ids u → x ∈ solved_ids u') ∧
      (is_user_flag a = false → act_id a ∈ solved_ids u')
  end.
Proof.
  destruct (handle u a) as [|x|u' e] eqn:Hh; [|done|].
  - unfold handle in Hh. destruct (already_processed u a) eqn:Hp.
    + intros Hf. unfold already_processed in Hp. fold (is_user_flag a) in Hp.
      rewrite Hf in Hp. by apply mem_true.
    + by destruct (classify u a) as [?|[[??]?]].
  - apply handle_fresh_inv in Hh as (_ & u1 & sc & d & Hc & -> & _).
    apply classify_inv in Hc as (-> & Hs & _). unfold remember.
    destruct (is_user_flag a); simpl.
    + split; [|done]. intros x Hx. destruct (Py.mem _ _); simpl; by rewrite Hs.
    + split.
      * intros x Hx. rewrite Hs. apply elem_of_app. by left.
      * intros _. apply elem_of_app. right. by apply list_elem_of_singleton.
Qed.

End IngestThenReconcile.




(** ** The user-flag key and the machine id parsed back from it *)

Section KeyFacts.
Import UpdateRootFlags.

Lemma string_of_uint_digits d : Py.all_digits (NilEmpty.string_of_uint d) = true.
Proof. induction d; simpl; try done; by rewrite IHd. Qed.

Lemma digit_not_underscore c : Py.is_ascii_digit c = true → Ascii.eqb c "_" = false.
Proof.
  intros Hd. destruct (Ascii.eqb_spec c "_") as [->|]; [|done].
  by vm_compute in Hd.
Qed.

Lemma split_head_digits s t :
  Py.all_digits s = true → Py.split_head "_" (s ++ String "_" t)%string = s.
Proof.
  induction s as [|c s IH]; simpl.
  - done.
  - intros [Hc Hs]%andb_true_iff. rewrite (digit_not_underscore c Hc).
    by rewrite IH.
Qed.

Lemma prefix_refl s : String.prefix s s = true.
Proof.
  induction s as [|c s IH]; simpl; [done|]. by destruct (Ascii.ascii_dec c c).
Qed.

Lemma contains_suffix sub s : Py.contains sub (s ++ sub)%string = true.
Proof.
  induction s as [|c s IH].
  - change ("" ++ sub)%string with sub.
    destruct sub as [|c sub]; [done|]. cbn [Py.contains].
    by rewrite prefix_refl.
  - change (Py.contains sub (String c s +:+ sub))
      with (String.prefix sub (String c (s +:+ sub)) || Py.contains sub (s +:+ sub)).
    rewrite IH. apply orb_true_r.
Qed.

Lemma str_of_int_nonneg n :
  0 ≤ n →
  Py.isdigit (Py.str_of_int n) = true ∧
  Py.all_digits (Py.str_of_int n) = true ∧
  Py.int_of_str (Py.str_of_int n) = Some n.
Proof.
  intros Hn. destruct n as [|p|p]; [done| |lia].
  unfold Py.str_of_int, Py.int_of_str. simpl.
  pose proof (DecimalPos.Unsigned.to_uint_nonnil p) as Hnil.
  rewrite (NilZero.usu _ Hnil). unfold NilZero.string_of_uint.
  pose proof (string_of_uint_digits (Pos.to_uint p)) as Hd.
  destruct (Pos.to_uint p) eqn:Hp; [done|..]; rewrite <-Hp in *;
    (split_and!; [by rewrite Hp in *|by rewrite Hp in *|];
     simpl; unfold Z.of_uint; by rewrite DecimalPos.Unsigned.of_to).
Qed.

(** Line 77-79 read back the id that line 487 of [bot.py] wrote, when it is
    not negative; the key of a negative id is skipped. *)
Lemma machine_id_of_user_flag_key n :
  machine_id_of (Bot.user_flag_key n) = if 0 <=? n then Some n else None.
Proof.
  unfold machine_id_of, Bot.user_flag_key.
  rewrite (contains_suffix "_user"). simpl andb.
  destruct (Z.leb_spec 0 n) as [Hn|Hn].
  - destruct (str_of_int_nonneg n Hn) as (Hd & Ha & Hi).
    change "_user" with (String "_" "user").
    by rewrite (split_head_digits _ "user" Ha), Hd.
  - destruct n as [|p|p]; [lia|lia|]. by unfold Py.str_of_int.
Qed.

Lemma user_flag_machine_ids_elem_of x (keys : list string) :
  x ∈ user_flag_machine_ids keys ↔ ∃ k, k ∈ keys ∧ machine_id_of k = Some x.
Proof.
  unfold user_flag_machine_ids. rewrite elem_of_list_to_set, list_elem_of_omap.
  done.
Qed.
End KeyFacts.

(** ** The ids the job keeps *)

Section KeptRootFlags.
Import UpdateRootFlags.

(** After a pass over a fetched, non-empty history, [root_flag_ids] holds
    the ids of the qualifying root flags and nothing else. *)
Lemma reconcile_user_root_flag_ids u feed x :
  feed ≠ [] →
  x ∈ get_root_flag_ids (o_user (reconcile_user u (Some feed))) ↔
  ∃ a, a ∈ feed ∧ qualifies u a = true ∧ act_id a = x.
Proof.
  intros Hne. rewrite <-scan_history_root_flags.
  pose proof (reconcile_user_fetched u feed Hne) as H. cbv zeta in H.
  destruct H as (_ & _ & _ & _ & _ & _ & _ & _ & Hrf).
  destruct (bool_decide (fst (scan_history u feed) ≠ ∅)) eqn:Hd.
  - destruct Hrf as [Hs _].
    by rewrite <-sorted_keys_elem_of, <-Hs, sorted_elem_of.
  - destruct Hrf as [-> _]. apply bool_decide_eq_false in Hd.
    apply dec_stable in Hd. rewrite Hd, dom_empty_L.
    split; [by intros ?%elem_of_nil | by intros ?%not_elem_of_empty].
Qed.

(** A recorded user-flag key of a machine keeps its root flag out. *)
Lemma recorded_user_flag_excludes u feed x :
  0 ≤ x → feed ≠ [] →
  Bot.user_flag_key x ∈ get_user_flag_ids u →
  x ∉ get_root_flag_ids (o_user (reconcile_user u (Some feed))).
Proof.
  intros Hx Hne Hkey Hin.
  apply reconcile_user_root_flag_ids in Hin as (a & _ & Hq & Ha); [|done].
  unfold qualifies in Hq.
  apply andb_true_iff in Hq as [_ Hq%bool_decide_eq_true]. apply Hq.
  rewrite Ha. apply user_flag_machine_ids_elem_of.
  exists (Bot.user_flag_key x). split; [done|].
  rewrite machine_id_of_user_flag_key. by rewrite (proj2 (Z.leb_le 0 x) Hx).
Qed.
End KeptRootFlags.

(** X28. The exclusion of line 96 in general: a machine that is not counted yet
    has its user flag and then its root flag ingested (one machine more,
    the id recorded in [root_flag_ids]); the job run over that same feed
    does not keep it. *)
Theorem user_then_root_flag_dropped (u : user_data) (x : Z)
    (n1 n2 : option string) :
  0 ≤ x → x ∉ solved_ids u →
  let feed := [root_flag_event x n2; user_flag_event x n1] in
  ∃ u2 es,
    Bot.ingest u (reverse feed) = Some (u2, es) ∧
    machines u2 = machines u + 1 ∧
    x ∈ get_root_flag_ids u2 ∧
    x ∉ get_root_flag_ids
          (UpdateRootFlags.o_user (UpdateRootFlags.reconcile_user u2 (Some feed))).
Proof.
  intros Hx Hs feed.
  destruct (ingest_user_then_root u x n1 n2 Hs)
    as (u1 & es1 & u2 & e2 & Hi1 & _ & _ & _ & Hseen & Hh2 & Hm2 & _ & Hf2 & Hr2 & _).
  exists u2, (es1 ++ [e2]). split_and!; try done.
  - change (reverse feed) with [user_flag_event x n1; root_flag_event x n2].
    simpl. simpl in Hi1.
    destruct (Bot.handle u (user_flag_event x n1)) as [|?|u' e]; try done.
    + injection Hi1 as <- <-. by rewrite Hh2.
    + injection Hi1 as <- <-. by rewrite Hh2.
  - apply recorded_user_flag_excludes; [done|done|].
    apply handle_user_flag_seen_key in Hseen.
    unfold get_user_flag_ids in *. by rewrite Hf2.
Qed.

(** * Further properties *)

(** ** The ingestion loop: what it keeps *)

Section IngestInvariants.
Import Bot.

Lemma handle_seen_iff u a : handle u a = Seen ↔ already_processed u a = true.
Proof.
  unfold handle. destruct (already_processed u a); [done|].
  split; [|done]. by destruct (classify u a) as [?|[[??]?]].
Qed.

(** One new event: what it does to the two lists of the deduplication. *)
Lemma handle_fresh_lists u a u' e :
  handle u a = Fresh u' e →
  if is_user_flag a
  then solved_ids u' = solved_ids u ∧
       (user_flag_key (act_id a) ∉ get_user_flag_ids u) ∧
       get_user_flag_ids u' = get_user_flag_ids u ++ [user_flag_key (act_id a)]
  else (act_id a ∉ solved_ids u) ∧
       solved_ids u' = solved_ids u ++ [act_id a] ∧
       get_user_flag_ids u' = get_user_flag_ids u.
Proof.
  intros (Hp & u1 & sc & d & Hc & -> & _)%handle_fresh_inv.
  apply classify_inv in Hc as (-> & Hs & Hf & _).
  unfold already_processed in Hp. fold (is_user_flag a) in Hp.
  assert (get_user_flag_ids u1 = get_user_flag_ids u) as Hg.
  { unfold get_user_flag_ids. by rewrite Hf. }
  unfold remember. destruct (is_user_flag a); simpl.
  - rewrite Hg, Hp. simpl. split_and!; [done|by apply mem_false|].
    unfold get_user_flag_ids at 1. done.
  - apply mem_false in Hp. rewrite Hs. unfold get_user_flag_ids in *.
    simpl. done.
Qed.

Lemma already_processed_mono u u' a :
  (∀ x, x ∈ solved_ids u → x ∈ solved_ids u') →
  (∀ k, k ∈ get_user_flag_ids u → k ∈ get_user_flag_ids u') →
  already_processed u a = true → already_processed u' a = true.
Proof.
  intros Hs Hf. unfold already_processed.
  destruct (is_str _ _ && is_str _ _); rewrite !mem_true; auto.
Qed.

Lemma ingest_lists_grow acts : ∀ u u' es,
  ingest u acts = Some (u', es) →
  (∀ x, x ∈ solved_ids u → x ∈ solved_ids u') ∧
  (∀ k, k ∈ get_user_flag_ids u → k ∈ get_user_flag_ids u').
Proof.
  induction acts as [|a acts IH]; intros u u' es Hi.
  - by injection Hi as <- <-.
  - simpl in Hi. destruct (handle u a) as [|x|u1 e] eqn:Hh; [by eapply IH|done|].
    destruct (ingest u1 acts) as [[u2 es2]|] eqn:Hi2; [|done].
    injection Hi as <- <-. destruct (IH _ _ _ Hi2) as [Hs Hf].
    apply handle_fresh_lists in Hh.
    destruct (is_user_flag a).
    + destruct Hh as (Hs1 & _ & Hf1). split.
      * intros x Hx. apply Hs. by rewrite Hs1.
      * intros k Hk. apply Hf. rewrite Hf1. apply elem_of_app. by left.
    + destruct Hh as (_ & Hs1 & Hf1). split.
      * intros x Hx. apply Hs. rewrite Hs1. apply elem_of_app. by left.
      * intros k Hk. apply Hf. by rewrite Hf1.
Qed.

Lemma ingest_all_processed acts : ∀ u u' es,
  ingest u acts = Some (u', es) →
  Forall (λ a, already_processed u' a = true) acts.
Proof.
  induction acts as [|a acts IH]; intros u u' es Hi; [constructor|].
  simpl in Hi. destruct (handle u a) as [|x|u1 e] eqn:Hh; [|done|].
  - constructor; [|by eapply IH].
    destruct (ingest_lists_grow _ _ _ _ Hi) as [Hs Hf].
    eapply already_processed_mono; [done..|]. by apply handle_seen_iff.
  - destruct (ingest u1 acts) as [[u2 es2]|] eqn:Hi2; [|done].
    injection Hi as <- <-. constructor; [|by eapply IH].
    destruct (ingest_lists_grow _ _ _ _ Hi2) as [Hs Hf].
    eapply already_processed_mono; [done..|].
    apply handle_seen_iff. by eapply handle_replay.
Qed.

Lemma ingest_processed_silent acts u :
  Forall (λ a, already_processed u a = true) acts → ingest u acts = Some (u, []).
Proof.
  induction 1 as [|a acts Ha _ IH]; [done|]. simpl.
  by rewrite (proj2 (handle_seen_iff u a) Ha).
Qed.

(** What one new event does to the counters, by the kind it is announced
    as; the other fields of the record are not touched. *)
Lemma handle_fresh_counters u a u' e :
  handle u a = Fresh u' e →
  (machines u'
   = machines u + if bool_decide (e_display e = RootFlag) then 1 else 0) ∧
  (challenges u'
   = challenges u + if bool_decide (e_display e = Challenge) then 1 else 0) ∧
  name u' = name u ∧ discord_id u' = discord_id u ∧ streak u' = streak u ∧
  e_m_prog e = machines u' ∧ e_c_prog e = challenges u' ∧
  e_streak e = get_streak u'.
Proof.
  intros (_ & u1 & sc & d & Hc & -> & ->)%handle_fresh_inv.
  unfold classify, note_root_flag in Hc.
  repeat case_match; simplify_eq/=; unfold remember; repeat case_match;
    simpl; split_and!; try done; lia.
Qed.

Lemma handle_fresh_root_flags u a u' e :
  handle u a = Fresh u' e →
  (Sorted Z.le (get_root_flag_ids u) → Sorted Z.le (get_root_flag_ids u')) ∧
  (NoDup (get_root_flag_ids u) → NoDup (get_root_flag_ids u')) ∧
  (∀ x, x ∈ get_root_flag_ids u' →
        x ∈ get_root_flag_ids u ∨ (x = act_id a ∧ x ∈ solved_ids u')).
Proof.
  intros (_ & u1 & sc & d & Hc & -> & _)%handle_fresh_inv.
  assert (get_root_flag_ids (remember sc (act_id a) u1) = get_root_flag_ids u1
          ∧ (sc = true → act_id a ∈ solved_ids (remember sc (act_id a) u1)))
    as [-> Hsol].
  { unfold remember. destruct sc; simpl.
    - split; [done|]. intros _. apply elem_of_app. right.
      by apply list_elem_of_singleton.
    - by destruct (Py.mem _ _). }
  unfold classify in Hc.
  destruct (is_str (act_object_type a) "machine");
    [destruct (is_str (act_flag_type a) "user");
       [|destruct (is_str (act_flag_type a) "root")]
    |destruct (is_str (act_object_type a) "challenge");
       [|destruct (act_object_type a)]];
    simplify_eq/=; try (split_and!; [done|done|by left]).
  unfold note_root_flag, get_root_flag_ids. simpl.
  fold (get_root_flag_ids u).
  destruct (Py.mem (act_id a) (get_root_flag_ids u)) eqn:Hm; simpl.
  - split_and!; [done|done|by left].
  - apply mem_false in Hm. split_and!.
    + intros _. apply sorted_Sorted.
    + intros Hnd. apply sorted_NoDup, NoDup_app. split_and!; [done| |apply NoDup_singleton].
      intros x Hx ->%list_elem_of_singleton. done.
    + intros x [Hx| ->%list_elem_of_singleton]%sorted_elem_of%elem_of_app;
        [by left|right]. split; [done|].
      apply elem_of_app. right. by apply list_elem_of_singleton.
Qed.
End IngestInvariants.

(** X1. A cycle over a feed that the previous cycle already handled changes
    nothing and announces nothing. *)
Theorem second_cycle_is_silent (u u' : user_data) (acts : list activity)
    (es : list embed) :
  Bot.ingest u acts = Some (u', es) →
  Bot.ingest u' acts = Some (u', []).
Proof.
  intros Hi. apply ingest_processed_silent. by eapply ingest_all_processed.
Qed.

Lemma second_cycle_is_silent_witness :
  ∃ u', Bot.ingest sample_user (reverse sample_feed) ≠ None ∧
        Bot.ingest u' (reverse sample_feed) = Some (u', []).
Proof.
  destruct (Bot.ingest sample_user (reverse sample_feed)) as [[u' es]|] eqn:Hi;
    [|by vm_compute in Hi].
  exists u'. split; [done|].
  exact (second_cycle_is_silent sample_user u' (reverse sample_feed) es Hi).
Defined.

(** X2. The loop never stores an id twice: [solved_ids] and [user_flag_ids]
    stay free of duplicates, and they only grow. *)
Theorem dedup_lists_stay_duplicate_free (u u' : user_data)
    (acts : list activity) (es : list embed) :
  Bot.ingest u acts = Some (u', es) →
  NoDup (solved_ids u) → NoDup (get_user_flag_ids u) →
  NoDup (solved_ids u') ∧ NoDup (get_user_flag_ids u') ∧
  solved_ids u ⊆ solved_ids u' ∧
  get_user_flag_ids u ⊆ get_user_flag_ids u'.
Proof.
  intros Hi Hs Hf.
  destruct (ingest_lists_grow _ _ _ _ Hi) as [Hgs Hgf].
  cut (NoDup (solved_ids u') ∧ NoDup (get_user_flag_ids u')).
  { intros [??]. split_and!; done. }
  clear Hgs Hgf. revert u u' es Hi Hs Hf.
  induction acts as [|a acts IH]; intros u u' es Hi Hs Hf.
  - by injection Hi as <- <-.
  - simpl in Hi.
    destruct (Bot.handle u a) as [|x|u1 e] eqn:Hh; [by eapply IH|done|].
    destruct (Bot.ingest u1 acts) as [[u2 es2]|] eqn:Hi2; [|done].
    injection Hi as <- <-. apply handle_fresh_lists in Hh.
    eapply IH; [done|..]; destruct (is_user_flag a).
    + destruct Hh as (-> & _). done.
    + destruct Hh as (Hn & -> & _). apply NoDup_app. split_and!; [done| |apply NoDup_singleton].
      intros x Hx ->%list_elem_of_singleton. done.
    + destruct Hh as (_ & Hn & ->). apply NoDup_app. split_and!; [done| |apply NoDup_singleton].
      intros x Hx ->%list_elem_of_singleton. done.
    + destruct Hh as (_ & _ & ->). done.
Qed.

Lemma dedup_lists_stay_duplicate_free_witness :
  ∃ u', NoDup (solved_ids u') ∧ NoDup (get_user_flag_ids u') ∧
        solved_ids u' = [7; 3].
Proof.
  destruct (Bot.ingest sample_user (reverse sample_feed)) as [[u' es]|] eqn:Hi;
    [|by vm_compute in Hi].
  exists u'.
  destruct (dedup_lists_stay_duplicate_free sample_user u' (reverse sample_feed) es
              Hi (NoDup_nil_2) (NoDup_nil_2)) as (H1 & H2 & _).
  split; [exact H1|]. split; [exact H2|].
  vm_compute in Hi. by injection Hi as <- _.
Defined.

(** X3. [root_flag_ids] is kept sorted and free of duplicates ("Keep
    sorted", line 454), and every id in it is in [solved_ids]. *)
Theorem root_flag_ids_stay_sorted (u u' : user_data) (acts : list activity)
    (es : list embed) :
  Bot.ingest u acts = Some (u', es) →
  Sorted Z.le (get_root_flag_ids u) →
  NoDup (get_root_flag_ids u) →
  get_root_flag_ids u ⊆ solved_ids u →
  Sorted Z.le (get_root_flag_ids u') ∧
  NoDup (get_root_flag_ids u') ∧
  get_root_flag_ids u' ⊆ solved_ids u'.
Proof.
  revert u u' es. induction acts as [|a acts IH]; intros u u' es Hi Hs Hn Hsub.
  - by injection Hi as <- <-.
  - simpl in Hi.
    destruct (Bot.handle u a) as [|x|u1 e] eqn:Hh; [by eapply IH|done|].
    destruct (Bot.ingest u1 acts) as [[u2 es2]|] eqn:Hi2; [|done].
    injection Hi as <- <-.
    destruct (handle_fresh_root_flags _ _ _ _ Hh) as (Hs1 & Hn1 & Hin1).
    eapply IH; [done|by apply Hs1|by apply Hn1|].
    intros x Hx. destruct (Hin1 x Hx) as [Hold|[_ Hnew]]; [|done].
    pose proof (handle_records u a) as Hr. rewrite Hh in Hr.
    apply Hr. by apply Hsub.
Qed.

Lemma root_flag_ids_stay_sorted_witness :
  ∃ u', Sorted Z.le (get_root_flag_ids u') ∧ get_root_flag_ids u' = [2; 7].
Proof.
  pose (u := UserData "neo" (Some 42) 1 0 (Some 0) [7] (Some []) (Some [7])).
  pose (acts := [root_flag_event 2 (Some "Legacy")]).
  destruct (Bot.ingest u acts) as [[u' es]|] eqn:Hi; [|by vm_compute in Hi].
  exists u'.
  assert (Sorted Z.le (get_root_flag_ids u)) as Hs by (repeat constructor).
  assert (NoDup (get_root_flag_ids u)) as Hn.
  { apply (bool_decide_unpack _). vm_compute. exact I. }
  assert (get_root_flag_ids u ⊆ solved_ids u) as Hsub by done.
  destruct (root_flag_ids_stay_sorted u u' acts es Hi Hs Hn Hsub) as (H1 & _).
  split; [exact H1|]. vm_compute in Hi. by injection Hi as <- _.
Defined.

(** X4. A counter moves only together with an announcement: after the loop,
    [machines] has grown by the number of root-flag embeds and [challenges]
    by the number of challenge embeds; name, owner and streak are as
    before. *)
Theorem counters_match_announcements (u u' : user_data)
    (acts : list activity) (es : list embed) :
  Bot.ingest u acts = Some (u', es) →
  machines u' = machines u + announced RootFlag es ∧
  challenges u' = challenges u + announced Challenge es ∧
  name u' = name u ∧ discord_id u' = discord_id u ∧ streak u' = streak u ∧
  (length es ≤ length acts)%nat.
Proof.
  revert u u' es. induction acts as [|a acts IH]; intros u u' es Hi.
  - injection Hi as <- <-. unfold announced. simpl. split_and!; try done; lia.
  - simpl in Hi. destruct (Bot.handle u a) as [|x|u1 e] eqn:Hh; [|done|].
    + destruct (IH _ _ _ Hi) as (?&?&?&?&?&?). split_and!; try done. simpl. lia.
    + destruct (Bot.ingest u1 acts) as [[u2 es2]|] eqn:Hi2; [|done].
      injection Hi as <- <-.
      destruct (IH _ _ _ Hi2) as (Hm & Hc & Hn & Hd & Hs & Hl).
      destruct (handle_fresh_counters _ _ _ _ Hh) as (Hm1 & Hc1 & Hn1 & Hd1 & Hs1 & _).
      unfold announced in *. rewrite !filter_cons.
      split_and!; try congruence; [..|simpl; lia].
      * rewrite Hm, Hm1. destruct (decide (e_display e = RootFlag)) as [He|He];
          [rewrite (bool_decide_eq_true_2 _ He)|rewrite (bool_decide_eq_false_2 _ He)];
          simpl length; lia.
      * rewrite Hc, Hc1. destruct (decide (e_display e = Challenge)) as [He|He];
          [rewrite (bool_decide_eq_true_2 _ He)|rewrite (bool_decide_eq_false_2 _ He)];
          simpl length; lia.
Qed.

Lemma counters_match_announcements_witness :
  ∃ u' es, Bot.ingest sample_user (reverse sample_feed) = Some (u', es) ∧
           machines u' = machines sample_user + announced RootFlag es ∧
           challenges u' = challenges sample_user + announced Challenge es.
Proof.
  destruct (Bot.ingest sample_user (reverse sample_feed)) as [[u' es]|] eqn:Hi;
    [|by vm_compute in Hi].
  exists u', es. split; [done|].
  destruct (counters_match_announcements sample_user u' (reverse sample_feed) es Hi)
    as (H1 & H2 & _).
  split; [exact H1 | exact H2].
Defined.

(** ** The ingestion loop over the ledger *)

Section CycleFootprint.
Import Bot.
Variable get_user_activity : string → option (list activity).
Variable delivers : embed → bool.

(** One iteration touches at most the record at position [i], and keeps
    its key. *)
Lemma process_activity_footprint i a w :
  let w' := result_world (process_activity delivers i a w) in
  (mem w').*1 = (mem w).*1 ∧ ∀ j, j ≠ i → mem w' !! j = mem w !! j.
Proof.
  pose proof (process_activity_cases delivers i a w) as Hc.
  unfold process_activity in *.
  destruct (mem w !! i) as [[htb_id u]|] eqn:Hi; [|done].
  destruct (handle u a) as [|x|u' e]; [done|done|].
  assert ((<[i:=(htb_id, u')]> (mem w)).*1 = (mem w).*1) as Hk.
  { rewrite list_fmap_insert. simpl. apply list_insert_id.
    by rewrite list_lookup_fmap, Hi. }
  destruct (delivers e); simpl; (split; [done|]);
    intros j Hj; by apply list_lookup_insert_ne.
Qed.

Lemma process_activities_footprint i acts : ∀ w,
  let w' := result_world (process_activities delivers i acts w) in
  (mem w').*1 = (mem w).*1 ∧ ∀ j, j ≠ i → mem w' !! j = mem w !! j.
Proof.
  induction acts as [|a acts IH]; intros w; [done|]. simpl.
  pose proof (process_activity_footprint i a w) as [Hk Ho].
  destruct (process_activity delivers i a w) as [w1|x w1]; simpl in *.
  - destruct (IH w1) as [Hk1 Ho1]. split; [congruence|].
    intros j Hj. rewrite Ho1, Ho; done.
  - done.
Qed.

(** The scan of one user: their own record at most, and not even that
    when the fetch fails or the feed is empty. *)
Lemma scan_user_footprint i w :
  let w' := result_world (scan_user get_user_activity delivers i w) in
  (mem w').*1 = (mem w).*1 ∧
  (∀ j, j ≠ i → mem w' !! j = mem w !! j) ∧
  (∀ htb_id u, mem w !! i = Some (htb_id, u) →
     get_user_activity htb_id = None ∨ get_user_activity htb_id = Some [] →
     w' = w).
Proof.
  unfold scan_user. destruct (mem w !! i) as [[htb_id u]|] eqn:Hi; [|done].
  destruct (get_user_activity htb_id) as [acts|] eqn:Hf.
  - destruct (process_activities_footprint i (reverse acts) w) as [Hk Ho].
    split_and!; [done|done|]. intros id' u' [= <- <-] Hor.
    rewrite Hf in Hor. by destruct Hor as [?|[= ->]].
  - split_and!; done.
Qed.

Lemma scan_users_footprint idxs : ∀ w,
  let w' := result_world (scan_users get_user_activity delivers idxs w) in
  (mem w').*1 = (mem w).*1 ∧
  ∀ j htb_id u, mem w !! j = Some (htb_id, u) →
    get_user_activity htb_id = None ∨ get_user_activity htb_id = Some [] →
    mem w' !! j = Some (htb_id, u).
Proof.
  induction idxs as [|i idxs IH]; intros w; [done|]. simpl.
  pose proof (scan_user_footprint i w) as (Hk & Ho & Hskip).
  assert (∀ j htb_id u, mem w !! j = Some (htb_id, u) →
            get_user_activity htb_id = None ∨ get_user_activity htb_id = Some [] →
            mem (result_world (scan_user get_user_activity delivers i w)) !! j
            = Some (htb_id, u)) as Hone.
  { intros j htb_id u Hj Hf. destruct (decide (j = i)) as [->|Hne].
    - by rewrite (Hskip _ _ Hj Hf).
    - by rewrite Ho. }
  destruct (scan_user get_user_activity delivers i w) as [w1|x w1]; simpl in *.
  - destruct (IH w1) as [Hk1 Ho1]. split; [congruence|].
    intros j htb_id u Hj Hf. apply Ho1; [|done]. by apply Hone.
  - done.
Qed.
End CycleFootprint.

(** X5. A cycle, whether it returns or raises, keeps the ledger's ids in
    their order (nobody is added or removed), and leaves the record of
    every user whose fetch failed or whose feed is empty as it was. *)
Theorem cycle_keeps_users_and_skips_failed_fetches
    (get_user_activity : string → option (list activity))
    (delivers : embed → bool) (channel : bool) (w : world) :
  let w' := result_world
              (Bot.check_htb_activity get_user_activity delivers channel w) in
  (mem w').*1 = (mem w).*1 ∧
  ∀ j htb_id u, mem w !! j = Some (htb_id, u) →
    get_user_activity htb_id = None ∨ get_user_activity htb_id = Some [] →
    mem w' !! j = Some (htb_id, u).
Proof.
  unfold Bot.check_htb_activity. destruct channel; [|done].
  apply scan_users_footprint.
Qed.

(** X6. An event without [object_type] whose id is not in [solved_ids]
    raises AttributeError at [act_type.capitalize()] before anything is
    recorded. When the events before it in the feed have been processed
    already, the loop over the feed stops at it with the world unchanged,
    whatever follows: the same feed stops the next cycle at the same
    place, and the events after it are never handled. *)
Theorem missing_object_type_stops_the_cycle
    (get_user_activity : string → option (list activity))
    (delivers : embed → bool) (i : nat) (a : activity)
    (older newer : list activity) (w : world) (htb_id : string)
    (u : user_data) :
  mem w !! i = Some (htb_id, u) →
  act_object_type a = None →
  act_id a ∉ solved_ids u →
  Forall (λ b, Bot.handle u b = Bot.Seen) older →
  get_user_activity htb_id = Some (newer ++ a :: reverse older) →
  Bot.handle u a = Bot.Fault AttributeError ∧
  Bot.process_activities delivers i (older ++ a :: reverse newer) w
  = Raise AttributeError w ∧
  Bot.scan_user get_user_activity delivers i w = Raise AttributeError w.
Proof.
  intros Hi Ht Hn Hold Hfeed.
  assert (Bot.handle u a = Bot.Fault AttributeError) as Hfault.
  { unfold Bot.handle, Bot.already_processed, Bot.classify, Bot.is_str.
    rewrite Ht. simpl. apply mem_false in Hn. by rewrite Hn. }
  assert (Bot.process_activities delivers i (older ++ a :: reverse newer) w
          = Raise AttributeError w) as Hloop.
  { clear Hfeed. induction Hold as [|b older Hb _ IH]; simpl.
    - unfold Bot.process_activity. by rewrite Hi, Hfault.
    - unfold Bot.process_activity at 1. rewrite Hi, Hb. exact IH. }
  split_and!; [done|done|].
  unfold Bot.scan_user. rewrite Hi, Hfeed.
  by rewrite reverse_app, reverse_cons, reverse_involutive, <-app_assoc.
Qed.

Lemma missing_object_type_stops_the_cycle_witness :
  let a := Activity 9 None (Some "own") (Some "Mystery") in
  Bot.scan_user (λ _, Some (sample_feed ++ [a])) (λ _, true) 0 sample_world
  = Raise AttributeError sample_world.
Proof.
  intros a.
  assert (9 ∉ solved_ids sample_user) as Hn by apply not_elem_of_nil.
  exact (proj2 (proj2 (missing_object_type_stops_the_cycle
                         (λ _, Some (sample_feed ++ [a])) (λ _, true) 0 a
                         [] sample_feed sample_world "1337" sample_user
                         eq_refl eq_refl Hn (Forall_nil_2 _) eq_refl))).
Defined.

(** ** Sorting in descending order, stably *)

Section PySortFacts.
Context {A : Type} (ge : A → A → bool).
Hypothesis ge_total : ∀ x y, ge x y = true ∨ ge y x = true.
Hypothesis ge_trans : ∀ x y z, ge x y = true → ge y z = true → ge x z = true.

Lemma insert_desc_Permutation x l : PySort.insert_desc ge x l ≡ₚ x :: l.
Proof.
  induction l as [|y r IH]; simpl; [done|].
  destruct (ge x y); [done|]. rewrite IH. apply Permutation_swap.
Qed.

Lemma sort_desc_Permutation l : PySort.sort_desc ge l ≡ₚ l.
Proof.
  induction l as [|x r IH]; simpl; [done|].
  by rewrite insert_desc_Permutation, IH.
Qed.

Lemma insert_desc_sorted x l :
  StronglySorted (λ a b, ge a b = true) l →
  StronglySorted (λ a b, ge a b = true) (PySort.insert_desc ge x l).
Proof.
  induction 1 as [|y r Hs IH Hall]; simpl.
  - repeat constructor.
  - destruct (ge x y) eqn:Hxy.
    + constructor; [by constructor|]. constructor; [done|].
      eapply Forall_impl; [exact Hall|]. intros z Hz. by eapply ge_trans.
    + constructor; [done|]. rewrite insert_desc_Permutation.
      constructor; [|done]. destruct (ge_total x y); congruence.
Qed.

Lemma sort_desc_sorted l :
  StronglySorted (λ a b, ge a b = true) (PySort.sort_desc ge l).
Proof.
  induction l as [|x r IH]; simpl; [constructor|]. by apply insert_desc_sorted.
Qed.

(** Stability: among the elements whose key equals that of [k], the order
    is the original one. *)
Lemma insert_desc_stable k x l :
  List.filter (λ y, ge y k && ge k y) (PySort.insert_desc ge x l)
  = List.filter (λ y, ge y k && ge k y) (x :: l).
Proof.
  induction l as [|y r IH]; [done|]. simpl PySort.insert_desc.
  destruct (ge x y) eqn:Hxy; [done|].
  change (List.filter ?f (y :: ?t))
    with (if f y then y :: List.filter f t else List.filter f t).
  rewrite IH. simpl.
  destruct (ge x k && ge k x) eqn:Hx; [|done].
  destruct (ge y k && ge k y) eqn:Hy; [|done].
  apply andb_true_iff in Hx as [Hxk _]. apply andb_true_iff in Hy as [_ Hky].
  pose proof (ge_trans _ _ _ Hxk Hky). congruence.
Qed.

Lemma sort_desc_stable k l :
  List.filter (λ y, ge y k && ge k y) (PySort.sort_desc ge l)
  = List.filter (λ y, ge y k && ge k y) l.
Proof.
  induction l as [|x r IH]; [done|]. simpl PySort.sort_desc.
  rewrite insert_desc_stable. simpl. by rewrite IH.
Qed.
End PySortFacts.

(** ** The leaderboard *)

Section TopFacts.
Import Commands.

Lemma key_ge_spec x y :
  key_ge x y = true ↔
  r_score y < r_score x ∨ (r_score x = r_score y ∧ r_streak y ≤ r_streak x).
Proof.
  unfold key_ge.
  rewrite orb_true_iff, andb_true_iff, Z.ltb_lt, Z.eqb_eq, Z.leb_le. done.
Qed.

Lemma key_ge_total x y : key_ge x y = true ∨ key_ge y x = true.
Proof. rewrite !key_ge_spec. lia. Qed.

Lemma key_ge_trans x y z :
  key_ge x y = true → key_ge y z = true → key_ge x z = true.
Proof. rewrite !key_ge_spec. lia. Qed.

Lemma snd_imap {B C} (f : nat → C → B * C) (l : list C) :
  (∀ i x, snd (f i x) = x) → snd <$> imap f l = l.
Proof.
  revert f. induction l as [|x l IH]; intros f Hf; [done|].
  simpl. rewrite Hf. f_equal. apply IH. intros i y. apply Hf.
Qed.

Lemma StronglySorted_weaken {B} (R S : relation B) l :
  (∀ x y, R x y → S x y) → StronglySorted R l → StronglySorted S l.
Proof.
  intros HRS. induction 1 as [|x l Hs IH Hall]; constructor; [done|].
  eapply Forall_impl; [exact Hall|]. intros y. apply HRS.
Qed.

Lemma fields_rows rows : snd <$> fields rows = take 10 rows.
Proof. unfold fields. by apply snd_imap. Qed.
End TopFacts.

(** X7. [top] answers "no users" exactly when the ledger is empty, and the
    board otherwise. The board shows the first ten rows (all of them when
    there are fewer) of the users ordered by total solves and then by
    streak, both descending: the shown rows followed by the rows left out
    are the rows of the ledger, each before every row it does not rank
    below. The first three carry the medals, the others their place
    counted from 1; the footer counts all tracked users. *)
Theorem top_shows_the_best_ten (w : world) :
  (Commands.top w = None ↔ mem w = []) ∧
  match Commands.top w with
  | None => mem w = []
  | Some (shown, total) =>
      mem w ≠ [] ∧
      total = length (mem w) ∧
      length shown = (10 `min` total)%nat ∧
      (∀ i icon r, shown !! i = Some (icon, r) →
         icon = if (i <? 3)%nat then Commands.Medal i
                else Commands.Numbered (i + 1)) ∧
      ∃ left_out,
        (snd <$> shown) ++ left_out ≡ₚ Commands.leaderboard_data (mem w) ∧
        StronglySorted
          (λ x y, Commands.r_score y < Commands.r_score x ∨
                  (Commands.r_score x = Commands.r_score y ∧
                   Commands.r_streak y ≤ Commands.r_streak x))
          ((snd <$> shown) ++ left_out)
  end.
Proof.
  unfold Commands.top. destruct (mem w) as [|p users] eqn:Hm; [done|].
  set (rows := PySort.sort_desc Commands.key_ge
                 (Commands.leaderboard_data (p :: users))).
  assert (length rows = length (p :: users)) as Hlen.
  { unfold rows. rewrite sort_desc_Permutation.
    unfold Commands.leaderboard_data. by rewrite length_fmap. }
  split_and!.
  - done.
  - done.
  - done.
  - rewrite <-(length_fmap snd), fields_rows, length_take, Hlen. lia.
  - intros i icon r Hi. unfold Commands.fields in Hi.
    rewrite list_lookup_imap in Hi.
    destruct (take 10 rows !! i); simpl in Hi; [|done]. by injection Hi as <- _.
  - exists (drop 10 rows). rewrite fields_rows, take_drop. split.
    + apply sort_desc_Permutation.
    + eapply StronglySorted_weaken;
        [|apply (sort_desc_sorted _ key_ge_total key_ge_trans)].
      intros x y Hxy. by apply key_ge_spec.
Qed.

(** X8. Users with the same total and the same streak appear on the board
    in the order of the ledger, that is, of their registration. *)
Theorem top_ties_keep_ledger_order (users : ledger) (k : Commands.row) :
  List.filter (λ y, (Commands.r_score y =? Commands.r_score k)
                    && (Commands.r_streak y =? Commands.r_streak k))
              (PySort.sort_desc Commands.key_ge (Commands.leaderboard_data users))
  = List.filter (λ y, (Commands.r_score y =? Commands.r_score k)
                      && (Commands.r_streak y =? Commands.r_streak k))
                (Commands.leaderboard_data users).
Proof.
  pose proof (sort_desc_stable Commands.key_ge key_ge_trans k
                (Commands.leaderboard_data users)) as Hst.
  assert (∀ y, Commands.key_ge y k && Commands.key_ge k y
               = (Commands.r_score y =? Commands.r_score k)
                 && (Commands.r_streak y =? Commands.r_streak k)) as Heq.
  { intros y. apply eq_true_iff_eq.
    rewrite !andb_true_iff, !key_ge_spec, !Z.eqb_eq. lia. }
  rewrite <-!(List.filter_ext _ _ Heq). exact Hst.
Qed.

(** ** The lists of the weekly report *)

Section ReportFacts.
Import Report.

Lemma string_length_app s t :
  String.length (s +:+ t) = (String.length s + String.length t)%nat.
Proof. induction s as [|c s IH]; simpl; [done|]. by rewrite IH. Qed.

Lemma substring_prefix n s :
  ∃ cut, s = substring 0 n s +:+ cut ∧
         String.length (substring 0 n s) = (n `min` String.length s)%nat.
Proof.
  revert s. induction n as [|n IH]; intros s.
  - exists s. by destruct s.
  - destruct s as [|c s]; [by exists ""|].
    destruct (IH s) as (cut & Hs & Hl). exists cut. split.
    + change (String c s = String c (substring 0 n s +:+ cut)). by f_equal.
    + change (S (String.length (substring 0 n s))
              = S (n `min` String.length s)). by rewrite Hl.
Qed.
End ReportFacts.

(** X9. The text of a report field is the lines joined by newlines when
    that has at most 1000 characters; otherwise it is the first 1000
    characters followed by three dots. It never has more than 1003
    characters. *)
Theorem format_list_bounded (lst : list string) :
  let text := Report.join_lines lst in
  (String.length (Report.format_list lst) ≤ 1003)%nat ∧
  ((String.length text ≤ 1000)%nat → Report.format_list lst = text) ∧
  ((1000 < String.length text)%nat →
   ∃ head cut, text = head +:+ cut ∧ String.length head = 1000%nat ∧
               Report.format_list lst = head +:+ "...").
Proof.
  intros text. unfold Report.format_list. fold text.
  destruct (substring_prefix 1000 text) as (cut & Hs & Hl).
  destruct (1000 <? String.length text)%nat eqn:Hlt.
  - apply Nat.ltb_lt in Hlt. split_and!.
    + rewrite string_length_app, Hl.
      change (String.length "...") with 3%nat. lia.
    + lia.
    + intros _. exists (substring 0 1000 text), cut. split_and!; [done| |done].
      rewrite Hl. lia.
  - apply Nat.ltb_ge in Hlt. split_and!; [lia|done|lia].
Qed.

(** ** The API helpers *)

Section HtbFacts.
Import Htb.

Lemma make_htb_request_spec r :
  make_htb_request r =
  match r with
  | Reply status_code json => if status_code =? 200 then Some json else None
  | ConnectionError => None
  end.
Proof.
  destruct r as [|status_code json]; [done|].
  destruct status_code as [|p|p]; try done.
  do 8 (destruct p as [p|p|]; try done).
Qed.

Lemma prefix_slash c a :
  String.prefix "/" (String c a) = if Ascii.ascii_dec "/" c then true else false.
Proof.
  change (String.prefix "/" (String c a))
    with (match Ascii.ascii_dec "/" c with
          | left _ => String.prefix "" a
          | right _ => false
          end).
  destruct (Ascii.ascii_dec "/" c); [|done]. by destruct a.
Qed.

(** Lines 120-124 on an avatar that is present. *)
Lemma avatar_of_reply n a act :
  snd (get_user_details (Reply 200 (Object (Some (Profile n (Some a) act)))))
  = if bool_decide (a = "") then LOGO
    else if String.prefix "/" a then ("https://labs.hackthebox.com" +:+ a)
    else a.
Proof.
  unfold get_user_details. rewrite make_htb_request_spec.
  cbn [Z.eqb Pos.eqb truthy get_profile p_avatar p_name snd].
  destruct a as [|c a]; [done|].
  rewrite (bool_decide_eq_true_2 (String c a ≠ "")) by done.
  rewrite (bool_decide_eq_false_2 (String c a = "")) by done.
  cbn [andb]. destruct (String.prefix "/" (String c a)); [|done].
  by rewrite bool_decide_eq_false_2.
Qed.
End HtbFacts.

(** X10. [get_user_details] always answers: the avatar URL is never empty
    and never a relative path (a path is prefixed with the labs host, a
    missing or empty one replaced by the logo), and any failed request
    (a connection error or a status other than 200) gives the name
    "Unknown" with the logo. *)
Theorem get_user_details_avatar (r : Htb.response) :
  snd (Htb.get_user_details r) ≠ "" ∧
  String.prefix "/" (snd (Htb.get_user_details r)) = false ∧
  ((r = Htb.ConnectionError ∨
    ∃ status_code json, r = Htb.Reply status_code json ∧ status_code ≠ 200) →
   Htb.get_user_details r = ("Unknown", Htb.LOGO)).
Proof.
  assert (∀ status_code json, status_code ≠ 200 →
            Htb.get_user_details (Htb.Reply status_code json)
            = ("Unknown", Htb.LOGO)) as Hfail.
  { intros status_code json Hne. unfold Htb.get_user_details.
    rewrite make_htb_request_spec.
    by destruct (Z.eqb_spec status_code 200). }
  destruct r as [|status_code json]; [by split_and!|].
  destruct (decide (status_code = 200)) as [->|Hne].
  - split_and!; [..|by intros [?|(s & j & [= -> ->] & ?)]];
      destruct json as [|[[n [a|] act]|]]; try done;
      rewrite avatar_of_reply;
      (destruct a as [|c a]; [done|]);
      rewrite (bool_decide_eq_false_2 (String c a = "")) by done;
      rewrite prefix_slash;
      destruct (Ascii.ascii_dec "/" c) as [Hc|Hc]; try done.
    rewrite prefix_slash. by destruct (Ascii.ascii_dec "/" c).
  - rewrite (Hfail _ _ Hne). split_and!; done.
Qed.

Section AlikeFacts.
Variables f g : string → option (list activity).
(** The two fetches differ at most in answering [None] for an empty list. *)
Hypothesis alike : ∀ id,
  f id = g id ∨ (f id = None ∧ g id = Some []) ∨ (f id = Some [] ∧ g id = None).

Lemma scan_user_alike delivers i w :
  Bot.scan_user f delivers i w = Bot.scan_user g delivers i w.
Proof.
  unfold Bot.scan_user. destruct (mem w !! i) as [[htb_id u]|]; [|done].
  by destruct (alike htb_id) as [->|[[-> ->]|[-> ->]]].
Qed.

Lemma scan_users_alike delivers idxs w :
  Bot.scan_users f delivers idxs w = Bot.scan_users g delivers idxs w.
Proof.
  revert w. induction idxs as [|i idxs IH]; intros w; [done|]. simpl.
  rewrite scan_user_alike. by destruct (Bot.scan_user g delivers i w).
Qed.

Lemma reconcile_loop_alike users :
  UpdateRootFlags.reconcile_loop f users = UpdateRootFlags.reconcile_loop g users.
Proof.
  induction users as [|[htb_id u] users IH]; [done|]. simpl. rewrite IH.
  by destruct (alike htb_id) as [->|[[-> ->]|[-> ->]]].
Qed.
End AlikeFacts.

(** X11. A failed fetch and an empty feed are the same to both tasks. When
    two fetches agree on every user, except that one may answer [None]
    where the other answers the empty list, a cycle of the ingestion loop
    has the same result with either, and so has the job: the same ledger,
    the same writes, the same summary. The two copies of
    [get_user_activity] differ in this way on a 200 reply with an empty
    JSON object ([None] in [bot.py], the empty list in
    [update_root_flags.py]); on a failed request both answer [None]. *)
Theorem failed_fetch_and_empty_feed_alike
    (f g : string → option (list activity)) (delivers : embed → bool)
    (channel : bool) (w : world) :
  (∀ id, f id = g id ∨ (f id = None ∧ g id = Some []) ∨
         (f id = Some [] ∧ g id = None)) →
  Bot.check_htb_activity f delivers channel w
  = Bot.check_htb_activity g delivers channel w ∧
  UpdateRootFlags.check_root_flags_manual f w
  = UpdateRootFlags.check_root_flags_manual g w ∧
  Summary.root_flag_owners f w = Summary.root_flag_owners g w ∧
  (∀ r, Htb.make_htb_request r = None →
        Htb.get_user_activity r = None ∧
        Htb.get_user_activity_script r = None) ∧
  Htb.get_user_activity (Htb.Reply 200 Htb.EmptyObject) = None ∧
  Htb.get_user_activity_script (Htb.Reply 200 Htb.EmptyObject) = Some [].
Proof.
  intros Halike. split_and!; [..|done|done].
  - unfold Bot.check_htb_activity. destruct channel; [|done].
    by apply scan_users_alike.
  - unfold UpdateRootFlags.check_root_flags_manual.
    destruct (mem w) as [|p users]; [done|].
    by rewrite (reconcile_loop_alike f g Halike).
  - unfold Summary.root_flag_owners.
    destruct (mem w) as [|p users]; [done|].
    by rewrite (reconcile_loop_alike f g Halike).
  - intros r Hr. unfold Htb.get_user_activity. rewrite Hr. split; [done|].
    rewrite make_htb_request_spec in Hr. unfold Htb.get_user_activity_script.
    destruct r as [|status_code json]; [done|].
    destruct (Z.eqb_spec status_code 200) as [->|Hne]; [done|].
    destruct status_code as [|p|p]; try done.
    do 8 (destruct p as [p|p|]; try done).
Qed.

Lemma failed_fetch_and_empty_feed_alike_witness :
  Bot.check_htb_activity (λ _, None) (λ _, true) true sample_world
  = Bot.check_htb_activity (λ _, Some []) (λ _, true) true sample_world ∧
  UpdateRootFlags.check_root_flags_manual (λ _, None) sample_world
  = UpdateRootFlags.check_root_flags_manual (λ _, Some []) sample_world.
Proof.
  assert (∀ id : string,
            (λ _ : string, @None (list activity)) id = (λ _, Some []) id ∨
            ((λ _ : string, @None (list activity)) id = None ∧
             (λ _ : string, Some (@nil activity)) id = Some []) ∨
            ((λ _ : string, @None (list activity)) id = Some [] ∧
             (λ _ : string, Some (@nil activity)) id = None)) as Halike.
  { intros id. right. left. split; reflexivity. }
  destruct (failed_fetch_and_empty_feed_alike (λ _, None) (λ _, Some [])
              (λ _, true) true sample_world Halike) as (H1 & H2 & _).
  split; [exact H1 | exact H2].
Defined.

(** ** The ledger under the commands and the tasks *)

Section OwnersFacts.
Import Bot.

Lemma well_formed_owners l l' : owners l' = owners l → well_formed l → well_formed l'.
Proof.
  intros Ho [Hnd Hall].
  assert (l'.*1 = l.*1) as Hk.
  { unfold owners in Ho. apply (f_equal (fmap fst)) in Ho.
    by rewrite <-!list_fmap_compose in Ho. }
  split; [by rewrite Hk|].
  assert (Forall (λ q : string * option Z, fst q ≠ "" ∧ is_Some (snd q))
                 (owners l)) as Hq.
  { unfold owners. by apply Forall_fmap. }
  rewrite <-Ho in Hq. unfold owners in Hq. by apply Forall_fmap in Hq.
Qed.

Lemma process_activity_owners delivers i a w :
  owners (mem (result_world (process_activity delivers i a w))) = owners (mem w).
Proof.
  unfold process_activity.
  destruct (mem w !! i) as [[htb_id u]|] eqn:Hi; [|done].
  destruct (handle u a) as [|x|u' e] eqn:Hh; [done|done|].
  destruct (handle_fresh_counters _ _ _ _ Hh) as (_ & _ & _ & Hd & _).
  assert (owners (<[i:=(htb_id, u')]> (mem w)) = owners (mem w)) as Hk.
  { unfold owners. rewrite list_fmap_insert. simpl. apply list_insert_id.
    by rewrite list_lookup_fmap, Hi, Hd. }
  by destruct (delivers e).
Qed.

Lemma check_htb_activity_owners get_user_activity delivers channel w :
  owners (mem (result_world
                 (check_htb_activity get_user_activity delivers channel w)))
  = owners (mem w).
Proof.
  unfold check_htb_activity. destruct channel; [|done].
  generalize (seq 0 (length (mem w))). intros idxs. revert w.
  induction idxs as [|i idxs IH]; intros w; [done|]. simpl.
  assert (owners (mem (result_world (scan_user get_user_activity delivers i w)))
          = owners (mem w)) as Hone.
  { unfold scan_user. destruct (mem w !! i) as [[htb_id u]|]; [|done].
    destruct (get_user_activity htb_id) as [acts|]; [|done].
    generalize (reverse acts). intros l. revert w.
    induction l as [|a l IHl]; intros w; [done|]. simpl.
    pose proof (process_activity_owners delivers i a w) as Ho.
    destruct (process_activity delivers i a w) as [w1|x w1]; simpl in *; [|done].
    by rewrite IHl. }
  destruct (scan_user get_user_activity delivers i w) as [w1|x w1]; simpl in *;
    [|done].
  by rewrite IH.
Qed.

Lemma reset_owners w :
  owners (mem (fst (Reset.perform_reset_logic w))) = owners (mem w).
Proof.
  pose proof (perform_reset_logic_trace w) as H.
  destruct (Reset.perform_reset_logic w) as [w' r]. simpl.
  destruct H as (_ & -> & _).
  destruct (reset_loop_spec (mem w) (Reset.Report [] [] [])) as (-> & _).
  unfold owners. rewrite <-list_fmap_compose. apply list_fmap_ext.
  intros j [htb_id u] _. simpl. by rewrite reset_user_record.
Qed.

Lemma reconcile_user_owner u fetched :
  discord_id (UpdateRootFlags.o_user (UpdateRootFlags.reconcile_user u fetched))
  = discord_id u ∧
  name (UpdateRootFlags.o_user (UpdateRootFlags.reconcile_user u fetched))
  = name u ∧
  streak (UpdateRootFlags.o_user (UpdateRootFlags.reconcile_user u fetched))
  = streak u ∧
  solved_ids (UpdateRootFlags.o_user (UpdateRootFlags.reconcile_user u fetched))
  = solved_ids u ∧
  user_flag_ids (UpdateRootFlags.o_user (UpdateRootFlags.reconcile_user u fetched))
  = user_flag_ids u.
Proof.
  destruct fetched as [[|a acts]|].
  - simpl. destruct (ensure_root_flag_ids_spec u) as (_&_&?&?&_&_&?&?&?). done.
  - assert (a :: acts ≠ []) as Hne by done.
    pose proof (reconcile_user_fetched u (a :: acts) Hne) as H. cbv zeta in H.
    destruct H as (?&?&?&?&?&_). done.
  - simpl. destruct (ensure_root_flag_ids_spec u) as (_&_&?&?&_&_&?&?&?). done.
Qed.

Lemma job_owners get_user_activity w :
  owners (mem (UpdateRootFlags.check_root_flags_manual get_user_activity w))
  = owners (mem w).
Proof.
  rewrite check_root_flags_manual_mem. unfold owners.
  rewrite <-list_fmap_compose. apply list_fmap_ext.
  intros j [htb_id u] _. simpl.
  by destruct (reconcile_user_owner u (get_user_activity htb_id)) as (-> & _).
Qed.
End OwnersFacts.

Section CommandFacts.
Import Commands.

(** [track] either leaves the world alone or appends one record. *)
Lemma track_cases isdigit dms_open answer get_user_details get_user_activity
    main_channel author w :
  let w' := fst (track isdigit dms_open answer get_user_details
                       get_user_activity main_channel author w) in
  w' = w ∨
  ∃ c, dms_open = true ∧ answer = Some c ∧ isdigit c = true ∧
       fst (get_user_details c) ≠ "Unknown" ∧ (c ∉ (mem w).*1) ∧
       w' = save_db (World (mem w ++ [(c, Track.new_user (fst (get_user_details c))
                                             author (get_user_activity c))])
                           (disk w) (trace w)).
Proof.
  unfold track. destruct dms_open; [|by left]. simpl.
  destruct answer as [c|]; [|by left].
  destruct (isdigit c) eqn:Hd; [|by left]. simpl.
  destruct (get_user_details c) as [htb_name htb_avatar] eqn:Hg.
  destruct (bool_decide (htb_name = "Unknown")) eqn:Hn; [by left|].
  apply bool_decide_eq_false in Hn.
  destruct (Track.tracked c (mem w)) eqn:Ht; [by left|].
  right. exists c. simpl. unfold Track.register. rewrite Ht, Hg.
  split_and!; try done. by apply bool_decide_eq_false in Ht.
Qed.

Lemma find_author_spec author users :
  Forall (λ p, is_Some (discord_id (snd p))) users →
  ∃ o, find_author author users = Some o ∧
       match o with
       | None => ∀ p, p ∈ users → discord_id (snd p) ≠ Some author
       | Some (htb_id, u) =>
           ∃ l1 l2, users = l1 ++ (htb_id, u) :: l2 ∧
                    discord_id u = Some author ∧
                    ∀ p, p ∈ l1 → discord_id (snd p) ≠ Some author
       end.
Proof.
  induction 1 as [|[htb_id u] users [d Hd] _ IH].
  - exists None. split; [done|]. intros p Hp. by apply elem_of_nil in Hp.
  - simpl in Hd. simpl. rewrite Hd.
    destruct (Z.eqb_spec d author) as [->|Hne].
    + exists (Some (htb_id, u)). split; [done|]. exists [], users.
      split_and!; try done. intros p Hp. by apply elem_of_nil in Hp.
    + destruct IH as (o & -> & Ho). exists o. split; [done|].
      destruct o as [[id' u']|].
      * destruct Ho as (l1 & l2 & -> & Hu & Hl1).
        exists ((htb_id, u) :: l1), l2. split_and!; try done.
        intros p [->|Hp]%elem_of_cons; [|by apply Hl1].
        simpl. rewrite Hd. congruence.
      * intros p [->|Hp]%elem_of_cons; [|by apply Ho].
        simpl. rewrite Hd. congruence.
Qed.

Lemma find_author_first author l1 htb_id u l2 :
  Forall (λ p, is_Some (discord_id (snd p))) l1 →
  (∀ p, p ∈ l1 → discord_id (snd p) ≠ Some author) →
  discord_id u = Some author →
  find_author author (l1 ++ (htb_id, u) :: l2) = Some (Some (htb_id, u)).
Proof.
  intros Hall Hl1 Hu. induction Hall as [|[id' u'] l1 [d Hd] _ IH]; simpl.
  - by rewrite Hu, Z.eqb_refl.
  - simpl in Hd. rewrite Hd.
    destruct (Z.eqb_spec d author) as [->|Hne].
    + exfalso. eapply (Hl1 (id', u')); [apply elem_of_cons; by left|done].
    + apply IH. intros p Hp. apply Hl1. apply elem_of_cons. by right.
Qed.

Lemma delete_user_middle l1 htb_id u l2 :
  NoDup (l1 ++ (htb_id, u) :: l2).*1 →
  delete_user htb_id (l1 ++ (htb_id, u) :: l2) = l1 ++ l2.
Proof.
  intros Hnd. rewrite fmap_app, fmap_cons in Hnd. simpl in Hnd.
  apply NoDup_app in Hnd as (_ & Hdisj & Hnd2).
  apply NoDup_cons in Hnd2 as [Hnotin _].
  assert (∀ l : ledger, htb_id ∉ l.*1 → delete_user htb_id l = l) as Hkeep.
  { intros l. unfold delete_user. induction l as [|[k v] l IH]; [done|].
    rewrite fmap_cons, not_elem_of_cons. simpl. intros [Hne Hl].
    rewrite filter_cons_True by (simpl; congruence). by rewrite IH. }
  unfold delete_user. rewrite filter_app, filter_cons_False by (simpl; auto).
  fold (delete_user htb_id l1). fold (delete_user htb_id l2).
  rewrite !Hkeep; [done|done|].
  intros Hin. eapply Hdisj; [done|]. apply elem_of_cons. by left.
Qed.

(** What a digit test that rejects the empty text accepts is not empty. *)
Lemma accepted_nonempty (isdigit : string → bool) s :
  isdigit "" = false → isdigit s = true → s ≠ "".
Proof. intros H0 Hs ->. congruence. Qed.
End CommandFacts.

(** X12. [track] creates a record only when the author accepts DMs,
    answers in time with a text that [isdigit] accepts, the profile
    request gives a name other than "Unknown", and the id is not tracked
    yet; then exactly one record is appended, for that id and that author,
    and the ledger is saved. In every other case (DMs closed, timeout, not
    a number, id not found, already tracked) the world is as before and
    nothing is written. In particular a failed profile request registers
    nobody. *)
Theorem track_registers_only_checked_ids (isdigit : string → bool)
    (dms_open : bool) (answer : option string)
    (profile_reply : string → Htb.response)
    (get_user_activity : string → option (list activity))
    (main_channel : bool) (author : Z) (w : world) :
  let get_user_details := λ id, Htb.get_user_details (profile_reply id) in
  let w' := fst (Commands.track isdigit dms_open answer get_user_details
                   get_user_activity main_channel author w) in
  (w' = w ∨
   ∃ c, dms_open = true ∧ answer = Some c ∧ isdigit c = true ∧
        fst (get_user_details c) ≠ "Unknown" ∧ (c ∉ (mem w).*1) ∧
        mem w' = mem w ++ [(c, Track.new_user (fst (get_user_details c)) author
                                 (get_user_activity c))] ∧
        in_sync w' ∧ trace w' = trace w ++ [SaveDb (mem w')]) ∧
  (∀ c, answer = Some c →
        Htb.make_htb_request (profile_reply c) = None → w' = w).
Proof.
  intros get_user_details w'. subst w'.
  pose proof (track_cases isdigit dms_open answer get_user_details
                get_user_activity main_channel author w) as Hc.
  cbv zeta in Hc.
  split.
  - destruct Hc as [->|(c & ? & ? & ? & ? & ? & ->)]; [by left|right].
    exists c. split_and!; done.
  - intros c Hc' Hfail.
    destruct Hc as [->|(c' & _ & Ha & _ & Hn & _)]; [done|].
    rewrite Hc' in Ha. injection Ha as <-. exfalso. apply Hn.
    unfold get_user_details, Htb.get_user_details. by rewrite Hfail.
Qed.

(** X13. The commands and the tasks keep the ledger well formed: distinct
    ids, none of them empty, every record with its owner. For [track] this
    rests on the digit test rejecting the empty text, as Python's does. *)
Theorem ledger_stays_well_formed (isdigit : string → bool) (dms_open : bool)
    (answer : option string) (get_user_details : string → string * string)
    (get_user_activity : string → option (list activity))
    (delivers : embed → bool) (channel : bool) (author : Z) (w : world) :
  isdigit "" = false →
  well_formed (mem w) →
  well_formed (mem (fst (Commands.track isdigit dms_open answer
                           get_user_details get_user_activity channel
                           author w))) ∧
  well_formed (mem (result_world
                      (Bot.check_htb_activity get_user_activity delivers
                         channel w))) ∧
  well_formed (mem (fst (Reset.perform_reset_logic w))) ∧
  well_formed (mem (UpdateRootFlags.check_root_flags_manual
                      get_user_activity w)) ∧
  (∀ w' msg, Commands.untrack author w = Some (w', msg) →
             well_formed (mem w')).
Proof.
  intros H0 Hwf. split_and!.
  - pose proof (track_cases isdigit dms_open answer get_user_details
                  get_user_activity channel author w) as Hc.
    cbv zeta in Hc.
    destruct Hc as [->|(c & _ & _ & Hd & _ & Hn & ->)]; [done|]. simpl.
    destruct Hwf as [Hnd Hall]. split.
    + rewrite fmap_app. apply NoDup_app. split_and!; [done| |apply NoDup_singleton].
      intros x Hx ->%list_elem_of_singleton. done.
    + apply Forall_app. split; [done|]. apply Forall_singleton. simpl.
      split; [by eapply accepted_nonempty|eauto].
  - eapply well_formed_owners; [apply check_htb_activity_owners|done].
  - eapply well_formed_owners; [apply reset_owners|done].
  - eapply well_formed_owners; [apply job_owners|done].
  - intros w' msg. unfold Commands.untrack.
    destruct (Commands.find_author author (mem w)) as [[[id u]|]|]; [| |done].
    + destruct (bool_decide (id = "")); intros [= <- _]; [done|]. simpl.
      destruct Hwf as [Hnd Hall]. unfold Commands.delete_user. split.
      * eapply sublist_NoDup; [exact Hnd|]. apply fmap_sublist, sublist_filter.
      * rewrite Forall_forall in Hall. apply Forall_forall.
        intros p [_ Hp]%list_elem_of_filter. by apply Hall.
    + by intros [= <- _].
Qed.

Lemma ledger_stays_well_formed_witness :
  well_formed (mem sample_world) ∧
  well_formed (mem (fst (Commands.track Py.isdigit true (Some "4242")
                           (λ _, ("trinity", Htb.LOGO)) (λ _, Some sample_feed)
                           true 43 sample_world))).
Proof.
  assert (well_formed (mem sample_world)) as Hwf.
  { split.
    - apply (bool_decide_unpack _). vm_compute. exact I.
    - apply Forall_singleton. split; [done|]. by eexists. }
  split; [exact Hwf|].
  exact (proj1 (ledger_stays_well_formed Py.isdigit true (Some "4242")
                  (λ _, ("trinity", Htb.LOGO)) (λ _, Some sample_feed)
                  (λ _, true) true 43 sample_world eq_refl Hwf)).
Defined.

(** X14. On a well-formed ledger [untrack] and [stats] never raise
    KeyError, and they agree on whether the author is tracked: [untrack]
    answers "not tracked", and then changes nothing, exactly when [stats]
    answers "use track", that is, when no record has the author as its
    owner. *)
Theorem untrack_and_stats_answer (author : Z) (w : world) :
  well_formed (mem w) →
  ∃ w' msg card,
    Commands.untrack author w = Some (w', msg) ∧
    Commands.stats author w = Some card ∧
    (msg = Commands.NotTracked ↔ card = Commands.UseTrack) ∧
    (msg = Commands.NotTracked ↔
     ∀ p, p ∈ mem w → discord_id (snd p) ≠ Some author) ∧
    (msg = Commands.NotTracked → w' = w).
Proof.
  intros [Hnd Hall].
  assert (Forall (λ p : string * user_data, is_Some (discord_id (snd p))) (mem w))
    as Hown.
  { eapply Forall_impl; [exact Hall|]. by intros p [_ ?]. }
  destruct (find_author_spec author (mem w) Hown) as (o & Hf & Ho).
  unfold Commands.untrack, Commands.stats. rewrite Hf.
  destruct o as [[id u]|].
  - destruct Ho as (l1 & l2 & Hm & Hu & Hl1).
    assert (id ≠ "") as Hid.
    { rewrite Forall_forall in Hall.
      apply (Hall (id, u)). rewrite Hm. apply elem_of_app. right.
      apply elem_of_cons. by left. }
    rewrite (bool_decide_eq_false_2 _ Hid).
    eexists _, _, _. split_and!; try done.
    split; [done|]. intros Hnone. exfalso. apply (Hnone (id, u)); [|done].
    rewrite Hm. apply elem_of_app. right. apply elem_of_cons. by left.
  - eexists _, _, _. split_and!; done.
Qed.

Lemma untrack_and_stats_answer_witness :
  Commands.untrack 42 sample_world
  = Some (save_db (World [] (disk sample_world) (trace sample_world)),
          Commands.StoppedTracking) ∧
  Commands.stats 42 sample_world = Some (Commands.StatsCard "neo" 0 0 0).
Proof.
  assert (well_formed (mem sample_world)) as Hwf.
  { split.
    - apply (bool_decide_unpack _). vm_compute. exact I.
    - apply Forall_singleton. split; [done|]. by eexists. }
  destruct (untrack_and_stats_answer 42 sample_world Hwf)
    as (w' & msg & card & Hu & Hs & _).
  split; reflexivity.
Defined.

(** X15. [untrack] removes one record, the first one owned by the author:
    the records before and after it stay, in order, the ledger is saved,
    and a second record of the same author (tracked under another HTB id)
    is still there. *)
Theorem untrack_removes_first_record_only (author : Z) (w : world)
    (l1 l2 : ledger) (htb_id : string) (u : user_data) :
  well_formed (mem w) →
  mem w = l1 ++ (htb_id, u) :: l2 →
  discord_id u = Some author →
  (∀ p, p ∈ l1 → discord_id (snd p) ≠ Some author) →
  ∃ w', Commands.untrack author w = Some (w', Commands.StoppedTracking) ∧
        mem w' = l1 ++ l2 ∧ in_sync w' ∧
        trace w' = trace w ++ [SaveDb (l1 ++ l2)] ∧
        (htb_id ∉ (mem w').*1).
Proof.
  intros [Hnd Hall] Hm Hu Hl1.
  assert (Forall (λ p : string * user_data, is_Some (discord_id (snd p))) l1)
    as Hown.
  { rewrite Hm in Hall. apply Forall_app in Hall as [Hall1 _].
    eapply Forall_impl; [exact Hall1|]. by intros p [_ ?]. }
  assert (htb_id ≠ "") as Hid.
  { rewrite Forall_forall in Hall.
    apply (Hall (htb_id, u)). rewrite Hm. apply elem_of_app. right.
    apply elem_of_cons. by left. }
  unfold Commands.untrack.
  rewrite Hm, (find_author_first author l1 htb_id u l2 Hown Hl1 Hu).
  rewrite (bool_decide_eq_false_2 _ Hid).
  rewrite Hm in Hnd. rewrite (delete_user_middle _ _ _ _ Hnd).
  eexists. split; [done|]. simpl. split_and!; try done.
  rewrite fmap_app, fmap_cons in Hnd. simpl in Hnd.
  apply NoDup_app in Hnd as (_ & Hdisj & Hnd2).
  apply NoDup_cons in Hnd2 as [Hnotin _].
  rewrite fmap_app. intros [Hin|Hin]%elem_of_app; [|done].
  eapply Hdisj; [done|]. apply elem_of_cons. by left.
Qed.

Lemma untrack_removes_first_record_only_witness :
  let u := Track.new_user "neo" 42 None in
  let v := Track.new_user "neo2" 42 None in
  let w := World [("1337", u); ("2001", v)] [] [] in
  ∃ w', Commands.untrack 42 w = Some (w', Commands.StoppedTracking) ∧
        mem w' = [("2001", v)].
Proof.
  intros u v w.
  assert (well_formed (mem w)) as Hwf.
  { split.
    - apply (bool_decide_unpack _). vm_compute. exact I.
    - repeat apply Forall_cons_2; [..|apply Forall_nil_2];
        (split; [done|by eexists]). }
  destruct (untrack_removes_first_record_only 42 w [] [("2001", v)] "1337" u
              Hwf eq_refl eq_refl) as (w' & Hun & Hm & _).
  { intros p Hp. by apply elem_of_nil in Hp. }
  by exists w'.
Defined.

(** X16. [untrack] undoes [track]: when an author who owns no record is
    registered by [track], their [untrack] gives back the ledger as it was
    before, and saves it. The digit test is any that rejects the empty
    text, as Python's does. *)
Theorem untrack_undoes_track (isdigit : string → bool) (dms_open : bool)
    (answer : option string) (get_user_details : string → string * string)
    (get_user_activity : string → option (list activity))
    (main_channel : bool) (author : Z) (w : world) :
  isdigit "" = false →
  well_formed (mem w) →
  (∀ p, p ∈ mem w → discord_id (snd p) ≠ Some author) →
  let w1 := fst (Commands.track isdigit dms_open answer get_user_details
                   get_user_activity main_channel author w) in
  w1 ≠ w →
  ∃ w2, Commands.untrack author w1 = Some (w2, Commands.StoppedTracking) ∧
        mem w2 = mem w ∧ in_sync w2.
Proof.
  intros H0 Hwf Hnone w1 Hch. subst w1.
  pose proof (track_cases isdigit dms_open answer get_user_details
                get_user_activity main_channel author w) as Hc.
  cbv zeta in Hc.
  destruct Hc as [Heq|(c & _ & _ & Hd & _ & Hn & Heq)]; [done|].
  rewrite Heq in *. clear Heq.
  set (u := Track.new_user (fst (get_user_details c)) author (get_user_activity c)).
  assert (Forall (λ p : string * user_data, is_Some (discord_id (snd p))) (mem w))
    as Hown.
  { destruct Hwf as [_ Hall]. eapply Forall_impl; [exact Hall|]. by intros p [_ ?]. }
  unfold Commands.untrack. simpl mem.
  rewrite (find_author_first author (mem w) c u [] Hown Hnone eq_refl).
  rewrite (bool_decide_eq_false_2 _ (accepted_nonempty isdigit c H0 Hd)).
  rewrite delete_user_middle.
  - eexists. split; [done|]. rewrite app_nil_r. done.
  - rewrite fmap_app. apply NoDup_app. destruct Hwf as [Hnd _].
    split_and!; [done| |apply NoDup_singleton].
    intros x Hx ->%list_elem_of_singleton. done.
Qed.

Lemma untrack_undoes_track_witness :
  let w1 := fst (Commands.track Py.isdigit true (Some "4242")
                   (λ _, ("trinity", Htb.LOGO))
                   (λ _, Some sample_feed) true 43 sample_world) in
  ∃ w2, Commands.untrack 43 w1 = Some (w2, Commands.StoppedTracking) ∧
        mem w2 = mem sample_world.
Proof.
  intros w1.
  assert (well_formed (mem sample_world)) as Hwf.
  { split.
    - apply (bool_decide_unpack _). vm_compute. exact I.
    - apply Forall_singleton. split; [done|]. by eexists. }
  assert (∀ p, p ∈ mem sample_world → discord_id (snd p) ≠ Some 43) as Hnone.
  { intros p Hp. apply list_elem_of_singleton in Hp. by subst p. }
  assert (w1 ≠ sample_world) as Hch by (by vm_compute).
  destruct (untrack_undoes_track Py.isdigit true (Some "4242")
              (λ _, ("trinity", Htb.LOGO))
              (λ _, Some sample_feed) true 43 sample_world eq_refl Hwf Hnone Hch)
    as (w2 & Hun & Hm & _).
  by exists w2.
Defined.

(** ** Loading, saving and the migration *)

Section DbFacts.
Import Db.

Lemma migrate_user_reads u :
  complete (migrate_user u) ∧
  get_streak (migrate_user u) = get_streak u ∧
  get_user_flag_ids (migrate_user u) = get_user_flag_ids u ∧
  get_root_flag_ids (migrate_user u) = get_root_flag_ids u ∧
  name (migrate_user u) = name u ∧ discord_id (migrate_user u) = discord_id u ∧
  machines (migrate_user u) = machines u ∧
  challenges (migrate_user u) = challenges u ∧
  solved_ids (migrate_user u) = solved_ids u.
Proof.
  destruct u as [n d m c [s|] so [uf|] [rf|]]; unfold complete; simpl;
    split_and!; eauto.
Qed.

Lemma migrate_user_complete u : complete u → migrate_user u = u.
Proof.
  destruct u as [n d m c s so uf rf]. unfold complete. simpl.
  by intros ([? ->] & [? ->] & [? ->]).
Qed.

Lemma mem_nil {A} `{EqDecision A} (x : A) : Py.mem x [] = false.
Proof. apply mem_false, not_elem_of_nil. Qed.

Lemma scan_history_reads u v acts :
  solved_ids u = solved_ids v → get_user_flag_ids u = get_user_flag_ids v →
  UpdateRootFlags.scan_history u acts = UpdateRootFlags.scan_history v acts.
Proof. intros Hs Hf. unfold UpdateRootFlags.scan_history. by rewrite Hs, Hf. Qed.
End DbFacts.

(** X17. The migration of [load_db] adds the three keys it checks for and
    changes no value the code reads: what [.get] returns for streak, user
    flags and root flags is the same before and after, the other fields
    are untouched, and a record that has the keys is left as it is. *)
Theorem migration_fills_missing_keys (u : user_data) :
  complete (Db.migrate_user u) ∧
  get_streak (Db.migrate_user u) = get_streak u ∧
  get_user_flag_ids (Db.migrate_user u) = get_user_flag_ids u ∧
  get_root_flag_ids (Db.migrate_user u) = get_root_flag_ids u ∧
  name (Db.migrate_user u) = name u ∧
  discord_id (Db.migrate_user u) = discord_id u ∧
  machines (Db.migrate_user u) = machines u ∧
  challenges (Db.migrate_user u) = challenges u ∧
  solved_ids (Db.migrate_user u) = solved_ids u ∧
  Db.migrate_user (Db.migrate_user u) = Db.migrate_user u ∧
  (complete u ↔ Db.migrate_user u = u).
Proof.
  pose proof (migrate_user_reads u) as (Hc & ? & ? & ? & ? & ? & ? & ? & ?).
  split_and!; try done.
  - by apply migrate_user_complete.
  - split; [apply migrate_user_complete|]. intros <-. exact Hc.
Qed.

(** X18. The code behaves the same on a record with or without the
    migrated keys: one step of the ingestion loop, the reset of a user and
    the reconciliation of a user commute with the migration. *)
Theorem migration_is_transparent (u : user_data) (a : activity)
    (r : Reset.report) (fetched : option (list activity)) :
  Bot.handle (Db.migrate_user u) a
  = match Bot.handle u a with
    | Bot.Seen => Bot.Seen
    | Bot.Fault x => Bot.Fault x
    | Bot.Fresh u' e => Bot.Fresh (Db.migrate_user u') e
    end ∧
  Reset.reset_user (Db.migrate_user u) r
  = (Db.migrate_user (fst (Reset.reset_user u r)), snd (Reset.reset_user u r)) ∧
  UpdateRootFlags.reconcile_user (Db.migrate_user u) fetched
  = (let o := UpdateRootFlags.reconcile_user u fetched in
     UpdateRootFlags.Outcome (Db.migrate_user (UpdateRootFlags.o_user o))
                             (UpdateRootFlags.o_needs_update o)
                             (UpdateRootFlags.o_root_flags o)).
Proof.
  split_and!.
  - destruct u as [n d m c s so uf rf].
    unfold Bot.handle, Bot.already_processed, Bot.classify, Bot.remember,
      Bot.note_root_flag, Bot.make_embed, get_user_flag_ids, get_root_flag_ids,
      get_streak.
    destruct s, uf, rf; simpl; rewrite ?mem_nil; repeat case_match;
      simplify_eq/=; rewrite ?mem_nil in *; try done; congruence.
  - destruct u as [n d m c s so uf rf]. unfold Reset.reset_user, Reset.goals_met.
    destruct s, uf, rf; simpl; repeat case_match; simplify_eq/=; done.
  - destruct (migrate_user_reads u) as (_ & _ & Hf & _ & _ & _ & _ & _ & Hs).
    unfold UpdateRootFlags.reconcile_user.
    destruct fetched as [[|b acts]|].
    + destruct u as [n d m c s so uf rf]. by destruct s, uf, rf.
    + rewrite !scan_history_ensure.
      rewrite (scan_history_reads (Db.migrate_user u) u (b :: acts) Hs Hf).
      destruct (UpdateRootFlags.scan_history u (b :: acts)) as [rfs ch].
      destruct u as [n d m c s so uf rf].
      unfold UpdateRootFlags.update_machines, UpdateRootFlags.update_challenges,
        UpdateRootFlags.ensure_root_flag_ids, get_root_flag_ids.
      destruct s, uf, rf; simpl; destruct (bool_decide (rfs ≠ ∅)); simpl;
        repeat case_match; simplify_eq/=; try done; congruence.
    + destruct u as [n d m c s so uf rf]. by destruct s, uf, rf.
Qed.

Section CompleteFacts.
Import Bot.

Lemma handle_fresh_complete u a u' e :
  handle u a = Fresh u' e → complete u → complete u'.
Proof.
  intros Hh (Hs & Hf & Hr).
  destruct (handle_fresh_counters _ _ _ _ Hh) as (_ & _ & _ & _ & Hst & _).
  apply handle_fresh_inv in Hh as (_ & u1 & sc & d & Hc & -> & _).
  assert (is_Some (user_flag_ids u1) ∧ is_Some (root_flag_ids u1)) as [Hf1 Hr1].
  { unfold classify, note_root_flag in Hc.
    repeat case_match; simplify_eq/=; eauto. }
  unfold complete. rewrite Hst. split; [done|].
  unfold remember. repeat case_match; simpl; eauto.
Qed.

(** A property of records that one step of the loop keeps is kept by the
    whole cycle, for every record of the ledger. *)
Lemma check_htb_activity_Forall (P : user_data → Prop)
    get_user_activity delivers channel w :
  (∀ u a u' e, handle u a = Fresh u' e → P u → P u') →
  Forall (λ p, P (snd p)) (mem w) →
  Forall (λ p, P (snd p))
         (mem (result_world
                 (check_htb_activity get_user_activity delivers channel w))).
Proof.
  intros Hstep. unfold check_htb_activity. destruct channel; [|done].
  generalize (seq 0 (length (mem w))). intros idxs. revert w.
  assert (∀ i a w, Forall (λ p, P (snd p)) (mem w) →
            Forall (λ p, P (snd p))
                   (mem (result_world (process_activity delivers i a w)))) as Hone.
  { intros i a w Hw. unfold process_activity.
    destruct (mem w !! i) as [[htb_id u]|] eqn:Hi; [|done].
    destruct (handle u a) as [|x|u' e] eqn:Hh; [done|done|].
    assert (Forall (λ p, P (snd p)) (<[i:=(htb_id, u')]> (mem w))) as Hins.
    { apply Forall_insert; [done|]. simpl. eapply Hstep; [done|].
      rewrite Forall_forall in Hw. apply (Hw (htb_id, u)).
      by eapply list_elem_of_lookup_2. }
    by destruct (delivers e). }
  assert (∀ i w, Forall (λ p, P (snd p)) (mem w) →
            Forall (λ p, P (snd p))
                   (mem (result_world (scan_user get_user_activity delivers i w))))
    as Huser.
  { intros i w Hw. unfold scan_user.
    destruct (mem w !! i) as [[htb_id u]|]; [|done].
    destruct (get_user_activity htb_id) as [acts|]; [|done].
    generalize (reverse acts). intros l. revert w Hw.
    induction l as [|a l IHl]; intros w Hw; [done|]. simpl.
    pose proof (Hone i a w Hw) as H1.
    destruct (process_activity delivers i a w) as [w1|x w1]; simpl in *; [|done].
    by apply IHl. }
  induction idxs as [|i idxs IH]; intros w Hw; [done|]. simpl.
  pose proof (Huser i w Hw) as H1.
  destruct (scan_user get_user_activity delivers i w) as [w1|x w1]; simpl in *;
    [|done].
  by apply IH.
Qed.
End CompleteFacts.

(** X19. Every ledger the bot writes loads back as it was. A ledger whose
    records are complete stays so under [track], a cycle of the ingestion
    loop, the weekly reset, the reconciliation and [untrack], and
    [load_db] on the file that [save_db] wrote for a complete ledger
    returns that ledger. *)
Theorem saved_ledger_loads_back (isdigit : string → bool) (dms_open : bool)
    (answer : option string) (get_user_details : string → string * string)
    (get_user_activity : string → option (list activity))
    (delivers : embed → bool) (channel : bool) (author : Z) (w : world)
    (fs : Db.files) :
  Forall (λ p, complete (snd p)) (mem w) →
  Db.load_db (Db.write_db (mem w) fs)
  = Db.Loaded (Db.Object (Db.Users (mem w))) (Db.write_db (mem w) fs) ∧
  Forall (λ p, complete (snd p))
    (mem (fst (Commands.track isdigit dms_open answer get_user_details
                 get_user_activity channel author w))) ∧
  Forall (λ p, complete (snd p))
    (mem (result_world
            (Bot.check_htb_activity get_user_activity delivers channel w))) ∧
  Forall (λ p, complete (snd p)) (mem (fst (Reset.perform_reset_logic w))) ∧
  Forall (λ p, complete (snd p))
    (mem (UpdateRootFlags.check_root_flags_manual get_user_activity w)) ∧
  (∀ w' msg, Commands.untrack author w = Some (w', msg) →
             Forall (λ p, complete (snd p)) (mem w')).
Proof.
  intros Hc. split_and!.
  - unfold Db.load_db, Db.load_raw, Db.write_db, Db.migrate. simpl.
    f_equal. f_equal. f_equal. induction Hc as [|[k u] l Hu _ IH]; [done|].
    rewrite fmap_cons, IH. simpl. by rewrite (migrate_user_complete u Hu).
  - pose proof (track_cases isdigit dms_open answer get_user_details
                  get_user_activity channel author w) as Ht.
    cbv zeta in Ht.
    destruct Ht as [->|(c & _ & _ & _ & _ & _ & ->)]; [done|]. simpl.
    apply Forall_app. split; [done|]. apply Forall_singleton.
    unfold complete. simpl. eauto.
  - apply (check_htb_activity_Forall complete); [|done].
    apply handle_fresh_complete.
  - pose proof (perform_reset_logic_trace w) as H.
    destruct (Reset.perform_reset_logic w) as [w' r]. simpl.
    destruct H as (_ & -> & _).
    destruct (reset_loop_spec (mem w) (Reset.Report [] [] [])) as (-> & _).
    apply Forall_fmap. eapply Forall_impl; [exact Hc|].
    intros [k u] (_ & Hf & Hr). simpl. rewrite reset_user_record.
    unfold complete. simpl. eauto.
  - rewrite check_root_flags_manual_mem. apply Forall_fmap.
    eapply Forall_impl; [exact Hc|]. intros [k u] (Hs & Hf & Hr). simpl.
    destruct (reconcile_user_owner u (get_user_activity k))
      as (_ & _ & Hst & _ & Huf).
    unfold complete. rewrite Hst, Huf. split_and!; [done|done|].
    destruct (get_user_activity k) as [[|a acts]|].
    + simpl. apply ensure_root_flag_ids_spec.
    + assert (a :: acts ≠ []) as Hne by done.
      pose proof (reconcile_user_fetched u (a :: acts) Hne) as H. cbv zeta in H.
      by destruct H as (_&_&_&_&_&?&_).
    + simpl. apply ensure_root_flag_ids_spec.
  - intros w' msg. unfold Commands.untrack.
    destruct (Commands.find_author author (mem w)) as [[[id u]|]|]; [| |done].
    + destruct (bool_decide (id = "")); intros [= <- _]; [done|]. simpl.
      rewrite Forall_forall in Hc. apply Forall_forall.
      intros p [_ Hp]%list_elem_of_filter. by apply Hc.
    + by intros [= <- _].
Qed.

Lemma saved_ledger_loads_back_witness :
  Db.load_db (Db.write_db (mem sample_world) (Db.Files Db.NoFile Db.NoFile))
  = Db.Loaded (Db.Object (Db.Users (mem sample_world)))
              (Db.write_db (mem sample_world) (Db.Files Db.NoFile Db.NoFile)).
Proof.
  assert (Forall (λ p, complete (snd p)) (mem sample_world)) as Hc.
  { apply Forall_singleton. unfold complete. simpl. eauto. }
  exact (proj1 (saved_ledger_loads_back Py.isdigit true None (λ _, ("", ""))
                  (λ _, None) (λ _, true) true 0 sample_world
                  (Db.Files Db.NoFile Db.NoFile) Hc)).
Defined.

(** X20. What [load_db] of [bot.py] does with each kind of file. With no
    file it starts from an empty ledger and touches nothing. A file that
    [json.load] rejects with [JSONDecodeError] is moved to the backup and
    the ledger starts empty; in every other case the files are left as
    they are. A file that cannot be read makes it raise, with no backup,
    and so does the [load_db] of the script. JSON that is a number, a
    boolean or null, or a string or an array that contains "users", makes
    it raise TypeError, and an object whose "users" is not an object
    AttributeError. What it returns is a string, an array or an object as
    it was in the file, or a ledger whose records all have the three
    migrated keys; it is what the [load_db] of the script returns, after
    the migration. *)
Theorem load_db_outcomes (fs : Db.files) :
  (Db.db_file fs = Db.NoFile → Db.load_db fs = Db.Loaded Db.fresh fs) ∧
  (Db.db_file fs = Db.Corrupt →
   Db.load_db fs = Db.Loaded Db.fresh (Db.Files Db.NoFile Db.Corrupt)) ∧
  (Db.db_file fs ≠ Db.Corrupt → Db.files_of (Db.load_db fs) = fs) ∧
  (Db.db_file fs = Db.Unreadable →
   Db.load_db fs = Db.Failed Db.ReadError fs ∧
   Db.load_raw fs = Db.Failed Db.ReadError fs) ∧
  (Db.db_file fs = Db.Parsed Db.Scalar ∨
   (∃ s, Db.db_file fs = Db.Parsed (Db.Text s) ∧ Py.contains "users" s = true) ∨
   Db.db_file fs = Db.Parsed (Db.Array true) →
   Db.load_db fs = Db.Failed Db.TypeError fs) ∧
  (Db.db_file fs = Db.Parsed (Db.Object Db.NotAnObject) →
   Db.load_db fs = Db.Failed Db.ItemsAttributeError fs) ∧
  (∀ d fs', Db.load_db fs = Db.Loaded d fs' →
     match d with
     | Db.Object (Db.Users users) => Forall (λ p, complete (snd p)) users
     | Db.Object Db.Absent => Db.db_file fs = Db.Parsed d
     | Db.Text _ | Db.Array _ => Db.db_file fs = Db.Parsed d
     | _ => False
     end) ∧
  (∀ d fs', Db.load_db fs = Db.Loaded d fs' →
     ∃ d0, Db.load_raw fs = Db.Loaded d0 fs' ∧ Db.migrate d0 = inr d).
Proof.
  assert (∀ users : ledger,
            Forall (λ p, complete (snd p))
                   ((λ p, (fst p, Db.migrate_user (snd p))) <$> users)) as Hmig.
  { intros users. apply Forall_fmap, Forall_true. intros [k u]. simpl.
    apply migrate_user_reads. }
  unfold Db.load_db, Db.load_raw, Db.migrate, Db.has_users.
  destruct fs as [[| | |[|s|[|]|[| |users]]] bak]; cbn -[Py.contains];
    try destruct (Py.contains "users" s) eqn:Hs; cbn -[Py.contains];
    split_and!; try done.
  all: try (intros d fs' [= <- <-];
            first [ done | apply Hmig
                  | eexists; split; [reflexivity|];
                    unfold Db.migrate, Db.has_users; cbn -[Py.contains];
                    rewrite ?Hs; done ]).
  all: intros [?|[(s' & ? & ?)|?]]; simplify_eq; congruence.
Qed.

(** ** The reset run twice, and the weekly cadence *)

(** X21. A reset with no solve since the previous one clears every streak
    and reports everybody as failed: the counters are at 0 and the goals
    are not. *)
Theorem reset_twice_clears_streaks (w : world) (i : nat) (htb_id : string)
    (u : user_data) :
  mem w !! i = Some (htb_id, u) →
  let w1 := fst (Reset.perform_reset_logic w) in
  let w2 := fst (Reset.perform_reset_logic w1) in
  let r2 := snd (Reset.perform_reset_logic w1) in
  Reset.completed_list r2 = [] ∧
  length (Reset.failed_list r2) = length (mem w) ∧
  ∃ u2, mem w2 !! i = Some (htb_id, u2) ∧ streak u2 = Some 0 ∧
        machines u2 = 0 ∧ challenges u2 = 0 ∧
        solved_ids u2 = solved_ids u ∧ user_flag_ids u2 = user_flag_ids u ∧
        root_flag_ids u2 = root_flag_ids u.
Proof.
  intros Hi w1 w2 r2. subst w1 w2 r2.
  pose proof (perform_reset_logic_trace w) as H1.
  destruct (Reset.perform_reset_logic w) as [w1 r1]. simpl.
  destruct H1 as (_ & Hm1 & _).
  pose proof (perform_reset_logic_trace w1) as H2.
  destruct (Reset.perform_reset_logic w1) as [w2 r2]. simpl.
  destruct H2 as (_ & Hm2 & -> & _).
  destruct (reset_loop_spec (mem w) (Reset.Report [] [] [])) as (Hu1 & _).
  destruct (reset_loop_spec (mem w1) (Reset.Report [] [] [])) as (Hu2 & Hc2 & Hf2 & _).
  rewrite Hu1 in Hm1. rewrite Hu2 in Hm2.
  assert (∀ p, p ∈ mem w1 → Reset.goals_met (snd p) = false) as Hfail.
  { intros p. rewrite Hm1. intros (q & -> & _)%list_elem_of_fmap. simpl.
    by rewrite reset_user_record. }
  split_and!.
  - rewrite Hc2. simpl. clear -Hfail.
    induction (mem w1) as [|p l IH]; [done|]. unfold omap in *. simpl.
    rewrite (Hfail p) by (apply elem_of_cons; by left).
    apply IH. intros q Hq. apply Hfail. apply elem_of_cons. by right.
  - rewrite Hf2. simpl.
    assert (length (mem w1) = length (mem w)) as <-.
    { by rewrite Hm1, length_fmap. }
    clear -Hfail. induction (mem w1) as [|p l IH]; [done|].
    unfold omap in *. simpl.
    rewrite (Hfail p) by (apply elem_of_cons; by left). simpl. f_equal.
    apply IH. intros q Hq. apply Hfail. apply elem_of_cons. by right.
  - eexists. split.
    { rewrite Hm2, Hm1, !list_lookup_fmap, Hi. simpl. done. }
    rewrite !reset_user_record. simpl. done.
Qed.

Lemma reset_twice_clears_streaks_witness :
  let u := UserData "neo" (Some 42) 1 2 (Some 3) [7; 3; 9] (Some ["7_user"]) (Some [7]) in
  let w := World [("1337", u)] [("1337", u)] [] in
  ∃ u2, mem (fst (Reset.perform_reset_logic (fst (Reset.perform_reset_logic w))))
          !! 0%nat = Some ("1337", u2) ∧ streak u2 = Some 0.
Proof.
  intros u w.
  destruct (reset_twice_clears_streaks w 0 "1337" u eq_refl)
    as (_ & _ & u2 & Hl & Hs & _).
  by exists u2.
Defined.

Section WeekFacts.
Import Scheduler.

Lemma fires_on_day d k :
  fires (DateTime (d + k) 21 0, true) = (((d + 6) mod 7 + k) mod 7 =? 5).
Proof.
  unfold fires, weekday. simpl. rewrite andb_true_r. f_equal.
  rewrite Zplus_mod_idemp_l. f_equal. lia.
Qed.
End WeekFacts.

(** X22. The body run once a day for seven days in a row, with the channel
    found, performs the reset on exactly one of them, whatever the first
    day is: one weekly report is sent. *)
Theorem one_reset_in_seven_days (d : Z) (w : world) :
  length (List.filter Scheduler.fires (week_from d)) = 1%nat ∧
  Scheduler.reports_sent (trace (Scheduler.run (week_from d) w))
  = S (Scheduler.reports_sent (trace w)).
Proof.
  assert (length (List.filter Scheduler.fires (week_from d)) = 1%nat) as Hone.
  { unfold week_from. cbn [seq fmap list_fmap List.filter].
    rewrite !fires_on_day.
    pose proof (Z.mod_pos_bound (d + 6) 7 eq_refl) as Hr.
    assert ((d + 6) mod 7 = 0 ∨ (d + 6) mod 7 = 1 ∨ (d + 6) mod 7 = 2 ∨
            (d + 6) mod 7 = 3 ∨ (d + 6) mod 7 = 4 ∨ (d + 6) mod 7 = 5 ∨
            (d + 6) mod 7 = 6) as Hcase by lia.
    destruct Hcase as [->|[->|[->|[->|[->|[->| ->]]]]]]; reflexivity. }
  split; [exact Hone|]. rewrite run_reports, Hone. lia.
Qed.

(** ** The reconciliation job: what it leaves alone, when it saves, what it
    lists *)

Section JobMore.
Import UpdateRootFlags.

Lemma update_machines_unchanged rf u :
  snd (update_machines rf u) = false → fst (update_machines rf u) = u.
Proof.
  unfold update_machines. destruct (bool_decide (rf ≠ ∅)).
  - destruct (bool_decide (sorted_keys rf ≠ Py.sorted (get_root_flag_ids u)));
      simpl; by destruct (bool_decide (_ ≠ _)).
  - destruct (get_root_flag_ids u); simpl; by destruct (_ >? 0).
Qed.

Lemma update_challenges_unchanged ch u :
  snd (update_challenges ch u) = false → fst (update_challenges ch u) = u.
Proof. unfold update_challenges. by destruct (bool_decide _). Qed.

(** A pass that reports no update left the record as lines 73-74 made it. *)
Lemma reconcile_user_unchanged u fetched :
  o_needs_update (reconcile_user u fetched) = false →
  o_user (reconcile_user u fetched) = ensure_root_flag_ids u.
Proof.
  unfold reconcile_user. destruct fetched as [[|a acts]|]; [done| |done].
  destruct (scan_history _ _) as [rf ch].
  pose proof (update_machines_unchanged rf (ensure_root_flag_ids u)) as H1.
  destruct (update_machines rf (ensure_root_flag_ids u)) as [u1 n1].
  pose proof (update_challenges_unchanged ch u1) as H2.
  destruct (update_challenges ch u1) as [u2 n2]. simpl in *.
  intros [-> ->]%orb_false_iff. rewrite H2, H1; done.
Qed.

Section Loop.
Variable get_user_activity : string → option (list activity).

Lemma reconcile_loop_count users :
  (reconcile_loop get_user_activity users).1.2 = 0%nat →
  (reconcile_loop get_user_activity users).1.1
  = (λ p, (fst p, ensure_root_flag_ids (snd p))) <$> users.
Proof.
  induction users as [|[htb_id u] users IH]; [done|]. simpl.
  destruct (reconcile_loop get_user_activity users) as [[rest' n] d]. simpl in *.
  destruct (o_needs_update (reconcile_user u (get_user_activity htb_id))) eqn:Hn;
    [done|].
  simpl. intros Hz. rewrite (IH Hz). by rewrite reconcile_user_unchanged.
Qed.

Lemma reconcile_loop_data users :
  snd (reconcile_loop get_user_activity users)
  = omap (λ p, (λ rf, (name (snd p), fst p, rf))
                 <$> o_root_flags (reconcile_user (snd p) (get_user_activity (fst p))))
         users.
Proof.
  induction users as [|[htb_id u] users IH]; [done|]. simpl.
  destruct (reconcile_loop get_user_activity users) as [[rest' n] d]. simpl in *.
  unfold omap in *. simpl. rewrite <-IH.
  by destruct (o_root_flags (reconcile_user u (get_user_activity htb_id))).
Qed.
End Loop.

Lemma count_ge_total x y : Summary.count_ge x y = true ∨ Summary.count_ge y x = true.
Proof. unfold Summary.count_ge. rewrite !Nat.leb_le. lia. Qed.

Lemma count_ge_trans x y z :
  Summary.count_ge x y = true → Summary.count_ge y z = true →
  Summary.count_ge x z = true.
Proof. unfold Summary.count_ge. rewrite !Nat.leb_le. lia. Qed.
End JobMore.

(** X23. The job rewrites [machines], [challenges] and [root_flag_ids] and
    nothing else: for every user, fetched or not, the id, the name, the
    owner, the streak, [solved_ids] and [user_flag_ids] are as before, in
    the same order. *)
Theorem job_keeps_identity_and_streak
    (get_user_activity : string → option (list activity)) (w : world) :
  (λ p, (fst p, name (snd p), discord_id (snd p), streak (snd p),
         solved_ids (snd p), user_flag_ids (snd p)))
    <$> mem (UpdateRootFlags.check_root_flags_manual get_user_activity w)
  = (λ p, (fst p, name (snd p), discord_id (snd p), streak (snd p),
           solved_ids (snd p), user_flag_ids (snd p))) <$> mem w.
Proof.
  rewrite check_root_flags_manual_mem, <-list_fmap_compose.
  apply list_fmap_ext. intros j [htb_id u] _. simpl.
  by destruct (reconcile_user_owner u (get_user_activity htb_id))
    as (-> & -> & -> & -> & ->).
Qed.

(** X24. The job writes the file at most once, at the end, and then the
    file holds the ledger. When it writes nothing, no counter and no list
    has changed: every record is as before, up to an absent
    [root_flag_ids] key initialised to the empty list. *)
Theorem job_saves_when_it_changed
    (get_user_activity : string → option (list activity)) (w : world) :
  let w' := UpdateRootFlags.check_root_flags_manual get_user_activity w in
  (trace w' = trace w ++ [SaveDb (mem w')] ∧ in_sync w') ∨
  (trace w' = trace w ∧ disk w' = disk w ∧
   mem w' = (λ p, (fst p, UpdateRootFlags.ensure_root_flag_ids (snd p)))
              <$> mem w ∧
   ∀ i htb_id u, mem w !! i = Some (htb_id, u) →
     ∃ u', mem w' !! i = Some (htb_id, u') ∧
           machines u' = machines u ∧ challenges u' = challenges u ∧
           get_root_flag_ids u' = get_root_flag_ids u).
Proof.
  intros w'. subst w'. unfold UpdateRootFlags.check_root_flags_manual.
  destruct (mem w) as [|p users] eqn:Hm.
  - right. rewrite Hm. split_and!; done.
  - pose proof (reconcile_loop_count get_user_activity (p :: users)) as Hc.
    destruct (UpdateRootFlags.reconcile_loop get_user_activity (p :: users))
      as [[users' n] d]. cbn [fst snd] in Hc.
    destruct n as [|n].
    + right. change (0 <? 0)%nat with false. cbv iota. cbn [mem disk trace].
      rewrite (Hc eq_refl). split_and!; try done.
      intros i htb_id u Hi. eexists. split.
      { rewrite list_lookup_fmap, Hi. simpl. done. }
      destruct (ensure_root_flag_ids_spec u) as (_ & ? & _ & _ & ? & ? & _).
      done.
    + left. done.
Qed.

(** X25. What the job prints at the end. It says "No users are being
    tracked yet!" exactly when the ledger is empty, and "No root flags
    found" exactly when there are users and the scan kept no root flag for
    any of them. Otherwise it lists the users for whom the scan kept at
    least one root flag, and only those, the owner of most root flags
    first; the number shown for a user is their [machines] counter in the
    returned ledger. *)
Theorem root_flag_owners_listed
    (get_user_activity : string → option (list activity)) (w : world) :
  let kept := λ p : string * user_data,
    UpdateRootFlags.o_root_flags
      (UpdateRootFlags.reconcile_user (snd p) (get_user_activity (fst p))) in
  let said := Summary.root_flag_owners get_user_activity w in
  (said = Summary.NoUsers ↔ mem w = []) ∧
  (said = Summary.NoRootFlags ↔
   mem w ≠ [] ∧ ∀ p, p ∈ mem w → kept p = None) ∧
  ∀ listed, said = Summary.Owners listed →
    listed ≠ [] ∧
    StronglySorted (λ x y, (size (snd y) ≤ size (snd x))%nat) listed ∧
    listed ≡ₚ omap (λ p, (λ rf, (name (snd p), fst p, rf)) <$> kept p) (mem w) ∧
    ∀ user_name htb_id rf, (user_name, htb_id, rf) ∈ listed →
      rf ≠ ∅ ∧
      ∃ u, (htb_id, u) ∈ mem w ∧ user_name = name u ∧
           kept (htb_id, u) = Some rf ∧
           machines (UpdateRootFlags.o_user
                       (UpdateRootFlags.reconcile_user u
                          (get_user_activity htb_id)))
           = Z.of_nat (size rf).
Proof.
  intros kept said. subst said. unfold Summary.root_flag_owners.
  assert (∀ p rf, kept p = Some rf →
            rf ≠ ∅ ∧
            machines (UpdateRootFlags.o_user
                        (UpdateRootFlags.reconcile_user (snd p)
                           (get_user_activity (fst p))))
            = Z.of_nat (size rf)) as Hkept.
  { intros [htb_id u] rf. unfold kept. simpl.
    destruct (get_user_activity htb_id) as [[|a acts]|]; [done| |done].
    assert (a :: acts ≠ []) as Hne by done.
    pose proof (reconcile_user_fetched u (a :: acts) Hne) as H. cbv zeta in H.
    destruct H as (_ & _ & _ & _ & _ & _ & _ & -> & Hrf).
    destruct (bool_decide (fst (UpdateRootFlags.scan_history u (a :: acts)) ≠ ∅))
      eqn:Hd; [|done].
    intros [= <-]. apply bool_decide_eq_true in Hd. split; [done|].
    destruct Hrf as [_ ->]. by rewrite sorted_keys_length, size_dom. }
  destruct (mem w) as [|p0 users] eqn:Hm.
  { cbv beta iota. split_and!; [done| |done].
    split; [done|]. by intros [? _]. }
  cbv beta iota. rewrite <-Hm.
  assert (mem w ≠ []) as Hne by (by rewrite Hm).
  clear Hm p0 users.
  rewrite reconcile_loop_data.
  assert (∀ user_name htb_id rf,
            (user_name, htb_id, rf)
              ∈ omap (λ p, (λ rf, (name (snd p), fst p, rf)) <$> kept p) (mem w) →
            ∃ u, (htb_id, u) ∈ mem w ∧ user_name = name u ∧
                 kept (htb_id, u) = Some rf) as Hdata.
  { intros user_name htb_id rf ([k u] & Hin & Hk)%list_elem_of_omap.
    destruct (kept (k, u)) as [rf'|] eqn:Hkk; [|done]. simpl in Hk.
    injection Hk as <- <- <-. by exists u. }
  assert (∀ p rf, p ∈ mem w → kept p = Some rf →
            (name (snd p), fst p, rf)
              ∈ omap (λ p, (λ rf, (name (snd p), fst p, rf)) <$> kept p) (mem w))
    as Hall.
  { intros p rf Hp Hk. apply list_elem_of_omap. exists p.
    split; [done|]. by rewrite Hk. }
  change (omap _ (mem w))
    with (omap (λ p, (λ rf, (name (snd p), fst p, rf)) <$> kept p) (mem w)).
  destruct (omap (λ p, (λ rf, (name (snd p), fst p, rf)) <$> kept p) (mem w))
    as [|x data'] eqn:Hd.
  - cbv beta iota. split_and!; [done| |done].
    split; [|done]. intros _. split; [done|].
    intros p Hp. destruct (kept p) as [rf|] eqn:Hk; [|done]. exfalso.
    by apply (Hall p rf), elem_of_nil in Hp.
  - cbv beta iota. split_and!; [done| |].
    { split; [done|]. intros [_ Hnone]. exfalso.
      assert (x ∈ x :: data') as Hx by (apply elem_of_cons; by left).
      destruct x as [[user_name htb_id] rf].
      destruct (Hdata _ _ _ Hx) as (u & Hu & _ & Hk).
      by rewrite (Hnone _ Hu) in Hk. }
    intros listed Hl.
    assert (listed = PySort.sort_desc Summary.count_ge (x :: data')) as ->
      by congruence.
    clear Hl. split_and!.
    + intros Hnil.
      pose proof (sort_desc_Permutation Summary.count_ge (x :: data')) as Hp.
      rewrite Hnil in Hp. by apply Permutation_nil_cons in Hp.
    + eapply StronglySorted_weaken;
        [|apply (sort_desc_sorted _ count_ge_total count_ge_trans)].
      intros a b Hab. unfold Summary.count_ge in Hab. by apply Nat.leb_le in Hab.
    + apply sort_desc_Permutation.
    + intros user_name htb_id rf Hin.
      rewrite sort_desc_Permutation in Hin.
      destruct (Hdata _ _ _ Hin) as (u & Hu & -> & Hk).
      destruct (Hkept (htb_id, u) rf Hk) as [Hne' Hmach].
      split; [done|]. by exists u.
Qed.

(** ** The user-flag keys, written by the bot and read by the job *)

Section KeyRoundTrip.
Import UpdateRootFlags.

Lemma string_app_inv_tail s1 s2 t : s1 +:+ t = s2 +:+ t → s1 = s2.
Proof.
  revert s2. induction s1 as [|c s1 IH]; intros [|c2 s2] H;
    change (String ?c ?s +:+ t) with (String c (s +:+ t)) in H;
    change ("" +:+ t) with t in H.
  - done.
  - apply (f_equal String.length) in H. simpl in H.
    rewrite string_length_app in H. lia.
  - apply (f_equal String.length) in H. simpl in H.
    rewrite string_length_app in H. lia.
  - injection H as -> H. f_equal. by apply IH.
Qed.

Lemma of_int_to_int k : Z.of_int (Z.to_int k) = k.
Proof.
  destruct k as [|p|p]; [done|..]; simpl; unfold Z.of_uint;
    by rewrite DecimalPos.Unsigned.of_to.
Qed.

Lemma str_of_int_inj m n : Py.str_of_int m = Py.str_of_int n → m = n.
Proof.
  unfold Py.str_of_int. intros H.
  rewrite <-(of_int_to_int m), <-(of_int_to_int n). f_equal.
  assert (∀ k, NilZero.int_of_string (NilZero.string_of_int (Z.to_int k))
               = Some (Z.to_int k)) as Hisi.
  { intros k. apply NilZero.isi; destruct k as [|p|p]; simpl; try done;
      intros [= Hp]; by apply (DecimalPos.Unsigned.to_uint_nonnil p). }
  apply (f_equal NilZero.int_of_string) in H. rewrite !Hisi in H.
  by injection H.
Qed.

Lemma user_flag_key_inj m n : Bot.user_flag_key m = Bot.user_flag_key n → m = n.
Proof.
  unfold Bot.user_flag_key. intros H%string_app_inv_tail.
  by apply str_of_int_inj.
Qed.

Lemma omap_machine_id_of_keys (ids : list Z) :
  omap machine_id_of (Bot.user_flag_key <$> ids) = filter (λ n, 0 ≤ n) ids.
Proof.
  induction ids as [|n ids IH]; [done|].
  rewrite fmap_cons, filter_cons.
  change (omap machine_id_of (Bot.user_flag_key n :: (Bot.user_flag_key <$> ids)))
    with (match machine_id_of (Bot.user_flag_key n) with
          | Some y => y :: omap machine_id_of (Bot.user_flag_key <$> ids)
          | None => omap machine_id_of (Bot.user_flag_key <$> ids)
          end).
  rewrite IH, machine_id_of_user_flag_key.
  destruct (Z.leb_spec 0 n) as [Hn|Hn].
  - by rewrite decide_True.
  - rewrite decide_False; [done|lia].
Qed.
End KeyRoundTrip.

(** X26. The key that line 487 of [bot.py] records for a machine's user
    flag is read back by lines 76-80 of the job: distinct machines get
    distinct keys, the key of a non-negative id parses to that id, the key
    of a negative id is skipped, and the set the job builds from recorded
    keys is the set of the non-negative recorded ids. *)
Theorem user_flag_keys_read_back (ids : list Z) :
  (∀ m n, Bot.user_flag_key m = Bot.user_flag_key n → m = n) ∧
  (∀ n, UpdateRootFlags.machine_id_of (Bot.user_flag_key n)
        = if 0 <=? n then Some n else None) ∧
  UpdateRootFlags.user_flag_machine_ids (Bot.user_flag_key <$> ids)
  = list_to_set (filter (λ n, 0 ≤ n) ids).
Proof.
  split_and!.
  - apply user_flag_key_inj.
  - apply machine_id_of_user_flag_key.
  - unfold UpdateRootFlags.user_flag_machine_ids.
    by rewrite omap_machine_id_of_keys.
Qed.

(** Machine 7, user flag and root flag, for a user who solved nothing. *)
Lemma user_then_root_flag_dropped_witness :
  ∃ u2 es,
    Bot.ingest sample_user
      [user_flag_event 7 (Some "Lame"); root_flag_event 7 (Some "Lame")]
    = Some (u2, es) ∧
    machines u2 = 1 ∧
    7 ∈ get_root_flag_ids u2 ∧
    7 ∉ get_root_flag_ids
          (UpdateRootFlags.o_user
             (UpdateRootFlags.reconcile_user u2
                (Some [root_flag_event 7 (Some "Lame");
                       user_flag_event 7 (Some "Lame")]))).
Proof.
  assert (0 ≤ 7) as H0 by lia.
  assert (7 ∉ solved_ids sample_user) as Hs.
  { simpl. apply not_elem_of_nil. }
  exact (user_then_root_flag_dropped sample_user 7 (Some "Lame") (Some "Lame")
           H0 Hs).
Defined.
